(** * Iceberg-order detection engine: embedding and verified properties

    Shallow embedding of the order-state model, the rolling market metrics,
    the price-level index and the detection engine of
    [icetomultipletopicsv2slowed.py] (module [V2]) and of the order model and
    the detector of [icev3.py] (module [V3]), followed by the properties
    proved about them.

    Modelling conventions.
    - Python numbers (sizes, prices, timestamps, ratios) are exact rationals
      [Q]; Python's [==] on numbers is [Qeq_bool].  Counters are [Z].  Float
      rounding is made explicit where it decides a discrete outcome: the
      index of the order-size percentile is the truncation of a quotient and
      a product rounded to the nearest double ([Py.float]).  Everywhere
      else sums, differences and quotients are exact.
    - Every mutated object is passed explicitly: a method [m(self, a, b)]
      becomes [m a b self] and returns the updated object.
    - [time.time()] is an input: each handler receives the reading [now].
    - Order identifiers are strings; [active_orders] is a finite map on them.
      [orders_by_price] is keyed by price and is an association list whose
      keys are compared with [Qeq_bool], as the Python dictionary compares
      numeric keys.
    - The notification sink is a log: every handler returns the notifications
      it asked the sink to send, each with a snapshot of the order. *)

From Stdlib Require Import QArith Qabs Qround Qpower Lqa ZArith Lia List.
From Stdlib Require Import SetoidList Sorting.Sorted Sorting.Permutation.
From stdpp Require Import gmap strings list fin_maps.

Open Scope Q_scope.

(** ** Python primitives on numbers and lists *)

Module Py.

Definition leb (x y : Q) : bool := Qle_bool x y.
Definition ltb (x y : Q) : bool := negb (Qle_bool y x).
Definition eqb (x y : Q) : bool := Qeq_bool x y.

(** [min(a, b)] and [max(a, b)] return the first argument unless the second
    is strictly smaller (resp. larger). *)
Definition min (a b : Q) : Q := if ltb b a then b else a.
Definition max (a b : Q) : Q := if ltb a b then b else a.

(** [int(x)] truncates towards zero. *)
Definition int (x : Q) : Z := if leb 0 x then Qfloor x else Qceiling x.

(** Python numbers are taken as exact rationals, except where the rounding of
    float arithmetic decides which element of a list is read: there a
    quotient or product is rounded to the nearest double, as the interpreter
    rounds it.  [round_half_even] is the nearest integer, with halves going
    to the even one; [exponent x] is the [e] with [2^e <= x < 2^(e+1)];
    [float x] keeps 53 significant bits of [x].  The exponent range of the
    format (overflow, subnormal numbers) is left out. *)
Definition round_half_even (x : Q) : Z :=
  let f := Qfloor x in
  match Qcompare (x - inject_Z f) (1 # 2) with
  | Lt => f
  | Gt => (f + 1)%Z
  | Eq => if Z.even f then f else (f + 1)%Z
  end.

Definition exponent (x : Q) : Z :=
  let k := (Z.log2 (Qnum x) - Z.log2 (Z.pos (Qden x)))%Z in
  if Qle_bool (2 ^ k) x then k else (k - 1)%Z.

Definition float (x : Q) : Q :=
  match Qcompare x 0 with
  | Eq => 0
  | Gt =>
      let e := (exponent x - 52)%Z in
      inject_Z (round_half_even (x / 2 ^ e)) * 2 ^ e
  | Lt =>
      let e := (exponent (- x) - 52)%Z in
      - (inject_Z (round_half_even (- x / 2 ^ e)) * 2 ^ e)
  end.

(** [a / b] and [a * b] on floats. *)
Definition fdiv (a b : Q) : Q := float (a / b).
Definition fmul (a b : Q) : Q := float (a * b).

(** [l[i]]: a negative index counts from the end; out of range raises
    [IndexError], here [None]. *)
Definition index {A : Type} (l : list A) (i : Z) : option A :=
  let n := Z.of_nat (length l) in
  if (0 <=? i)%Z then nth_error l (Z.to_nat i)
  else if (- n <=? i)%Z then nth_error l (Z.to_nat (n + i))
  else None.

Definition sum (l : list Q) : Q := fold_left Qplus l 0.

Definition len {A : Type} (l : list A) : Q := inject_Z (Z.of_nat (length l)).

(** [x in l] for a list of numbers. *)
Definition mem (x : Q) (l : list Q) : bool := existsb (eqb x) l.

(** [sorted(l)]: a stable sort by insertion. *)
Fixpoint insert_sorted (x : Q) (l : list Q) : list Q :=
  match l with
  | nil => x :: nil
  | y :: l' => if ltb x y then x :: y :: l' else y :: insert_sorted x l'
  end.

Definition sorted (l : list Q) : list Q := fold_right insert_sorted nil l.

(** [deque(maxlen=n).append(x)]: the oldest element leaves a full window. *)
Definition deque_append {A : Type} (maxlen : nat) (x : A) (l : list A) : list A :=
  let l' := l ++ x :: nil in
  skipn (length l' - maxlen) l'.

End Py.

(** ** [icetomultipletopicsv2slowed.py] *)

Module V2.

(** Entries of the [replace_events] and [execution_events] logs. *)
Record ReplaceEvent : Type := {
  re_timestamp : Q;
  re_old_size : Q;
  re_new_size : Q;
  re_size_change : Q;
  re_old_price : Q;
  re_new_price : Q;
  re_price_changed : bool
}.

Record ExecutionEvent : Type := {
  ex_timestamp : Q;
  ex_filled_size : Q;
  ex_remaining_size : Q
}.

(** *** class IcebergOrder *)

Record IcebergOrder : Type := {
  order_id : string;
  trader_id : option string;
  price : Q;
  initial_size : Q;
  current_size : Q;
  max_visible_size : Q;
  is_bid : bool;
  timestamp : Q;
  last_update : Q;
  last_reported_filled : Q;
  price_history : list Q;
  current_price : Q;
  price_changes : Z;
  total_filled : Q;
  refill_count : Z;
  size_decrease_count : Z;
  replace_events : list ReplaceEvent;
  execution_events : list ExecutionEvent;
  is_confirmed_iceberg : bool;
  iceberg_start_time : option Q;
  completion_time : option Q;
  execution_percentage : Q;
  consecutive_refills : Z;
  min_size_seen : Q
}.

Definition set_current_size (v : Q) (o : IcebergOrder) : IcebergOrder :=
  {| order_id := order_id o; trader_id := trader_id o; price := price o;
     initial_size := initial_size o; current_size := v;
     max_visible_size := max_visible_size o; is_bid := is_bid o;
     timestamp := timestamp o; last_update := last_update o;
     last_reported_filled := last_reported_filled o; price_history := price_history o;
     current_price := current_price o; price_changes := price_changes o;
     total_filled := total_filled o; refill_count := refill_count o;
     size_decrease_count := size_decrease_count o; replace_events := replace_events o;
     execution_events := execution_events o;
     is_confirmed_iceberg := is_confirmed_iceberg o;
     iceberg_start_time := iceberg_start_time o; completion_time := completion_time o;
     execution_percentage := execution_percentage o;
     consecutive_refills := consecutive_refills o; min_size_seen := min_size_seen o |}.

Definition set_max_visible_size (v : Q) (o : IcebergOrder) : IcebergOrder :=
  {| order_id := order_id o; trader_id := trader_id o; price := price o;
     initial_size := initial_size o; current_size := current_size o;
     max_visible_size := v; is_bid := is_bid o; timestamp := timestamp o;
     last_update := last_update o; last_reported_filled := last_reported_filled o;
     price_history := price_history o; current_price := current_price o;
     price_changes := price_changes o; total_filled := total_filled o;
     refill_count := refill_count o; size_decrease_count := size_decrease_count o;
     replace_events := replace_events o; execution_events := execution_events o;
     is_confirmed_iceberg := is_confirmed_iceberg o;
     iceberg_start_time := iceberg_start_time o; completion_time := completion_time o;
     execution_percentage := execution_percentage o;
     consecutive_refills := consecutive_refills o; min_size_seen := min_size_seen o |}.

Definition set_last_update (v : Q) (o : IcebergOrder) : IcebergOrder :=
  {| order_id := order_id o; trader_id := trader_id o; price := price o;
     initial_size := initial_size o; current_size := current_size o;
     max_visible_size := max_visible_size o; is_bid := is_bid o;
     timestamp := timestamp o; last_update := v;
     last_reported_filled := last_reported_filled o; price_history := price_history o;
     current_price := current_price o; price_changes := price_changes o;
     total_filled := total_filled o; refill_count := refill_count o;
     size_decrease_count := size_decrease_count o; replace_events := replace_events o;
     execution_events := execution_events o;
     is_confirmed_iceberg := is_confirmed_iceberg o;
     iceberg_start_time := iceberg_start_time o; completion_time := completion_time o;
     execution_percentage := execution_percentage o;
     consecutive_refills := consecutive_refills o; min_size_seen := min_size_seen o |}.

Definition set_last_reported_filled (v : Q) (o : IcebergOrder) : IcebergOrder :=
  {| order_id := order_id o; trader_id := trader_id o; price := price o;
     initial_size := initial_size o; current_size := current_size o;
     max_visible_size := max_visible_size o; is_bid := is_bid o;
     timestamp := timestamp o; last_update := last_update o; last_reported_filled := v;
     price_history := price_history o; current_price := current_price o;
     price_changes := price_changes o; total_filled := total_filled o;
     refill_count := refill_count o; size_decrease_count := size_decrease_count o;
     replace_events := replace_events o; execution_events := execution_events o;
     is_confirmed_iceberg := is_confirmed_iceberg o;
     iceberg_start_time := iceberg_start_time o; completion_time := completion_time o;
     execution_percentage := execution_percentage o;
     consecutive_refills := consecutive_refills o; min_size_seen := min_size_seen o |}.

Definition set_price_history (v : list Q) (o : IcebergOrder) : IcebergOrder :=
  {| order_id := order_id o; trader_id := trader_id o; price := price o;
     initial_size := initial_size o; current_size := current_size o;
     max_visible_size := max_visible_size o; is_bid := is_bid o;
     timestamp := timestamp o; last_update := last_update o;
     last_reported_filled := last_reported_filled o; price_history := v;
     current_price := current_price o; price_changes := price_changes o;
     total_filled := total_filled o; refill_count := refill_count o;
     size_decrease_count := size_decrease_count o; replace_events := replace_events o;
     execution_events := execution_events o;
     is_confirmed_iceberg := is_confirmed_iceberg o;
     iceberg_start_time := iceberg_start_time o; completion_time := completion_time o;
     execution_percentage := execution_percentage o;
     consecutive_refills := consecutive_refills o; min_size_seen := min_size_seen o |}.

Definition set_current_price (v : Q) (o : IcebergOrder) : IcebergOrder :=
  {| order_id := order_id o; trader_id := trader_id o; price := price o;
     initial_size := initial_size o; current_size := current_size o;
     max_visible_size := max_visible_size o; is_bid := is_bid o;
     timestamp := timestamp o; last_update := last_update o;
     last_reported_filled := last_reported_filled o; price_history := price_history o;
     current_price := v; price_changes := price_changes o;
     total_filled := total_filled o; refill_count := refill_count o;
     size_decrease_count := size_decrease_count o; replace_events := replace_events o;
     execution_events := execution_events o;
     is_confirmed_iceberg := is_confirmed_iceberg o;
     iceberg_start_time := iceberg_start_time o; completion_time := completion_time o;
     execution_percentage := execution_percentage o;
     consecutive_refills := consecutive_refills o; min_size_seen := min_size_seen o |}.

Definition set_price_changes (v : Z) (o : IcebergOrder) : IcebergOrder :=
  {| order_id := order_id o; trader_id := trader_id o; price := price o;
     initial_size := initial_size o; current_size := current_size o;
     max_visible_size := max_visible_size o; is_bid := is_bid o;
     timestamp := timestamp o; last_update := last_update o;
     last_reported_filled := last_reported_filled o; price_history := price_history o;
     current_price := current_price o; price_changes := v;
     total_filled := total_filled o; refill_count := refill_count o;
     size_decrease_count := size_decrease_count o; replace_events := replace_events o;
     execution_events := execution_events o;
     is_confirmed_iceberg := is_confirmed_iceberg o;
     iceberg_start_time := iceberg_start_time o; completion_time := completion_time o;
     execution_percentage := execution_percentage o;
     consecutive_refills := consecutive_refills o; min_size_seen := min_size_seen o |}.

Definition set_total_filled (v : Q) (o : IcebergOrder) : IcebergOrder :=
  {| order_id := order_id o; trader_id := trader_id o; price := price o;
     initial_size := initial_size o; current_size := current_size o;
     max_visible_size := max_visible_size o; is_bid := is_bid o;
     timestamp := timestamp o; last_update := last_update o;
     last_reported_filled := last_reported_filled o; price_history := price_history o;
     current_price := current_price o; price_changes := price_changes o;
     total_filled := v; refill_count := refill_count o;
     size_decrease_count := size_decrease_count o; replace_events := replace_events o;
     execution_events := execution_events o;
     is_confirmed_iceberg := is_confirmed_iceberg o;
     iceberg_start_time := iceberg_start_time o; completion_time := completion_time o;
     execution_percentage := execution_percentage o;
     consecutive_refills := consecutive_refills o; min_size_seen := min_size_seen o |}.

Definition set_refill_count (v : Z) (o : IcebergOrder) : IcebergOrder :=
  {| order_id := order_id o; trader_id := trader_id o; price := price o;
     initial_size := initial_size o; current_size := current_size o;
     max_visible_size := max_visible_size o; is_bid := is_bid o;
     timestamp := timestamp o; last_update := last_update o;
     last_reported_filled := last_reported_filled o; price_history := price_history o;
     current_price := current_price o; price_changes := price_changes o;
     total_filled := total_filled o; refill_count := v;
     size_decrease_count := size_decrease_count o; replace_events := replace_events o;
     execution_events := execution_events o;
     is_confirmed_iceberg := is_confirmed_iceberg o;
     iceberg_start_time := iceberg_start_time o; completion_time := completion_time o;
     execution_percentage := execution_percentage o;
     consecutive_refills := consecutive_refills o; min_size_seen := min_size_seen o |}.

Definition set_size_decrease_count (v : Z) (o : IcebergOrder) : IcebergOrder :=
  {| order_id := order_id o; trader_id := trader_id o; price := price o;
     initial_size := initial_size o; current_size := current_size o;
     max_visible_size := max_visible_size o; is_bid := is_bid o;
     timestamp := timestamp o; last_update := last_update o;
     last_reported_filled := last_reported_filled o; price_history := price_history o;
     current_price := current_price o; price_changes := price_changes o;
     total_filled := total_filled o; refill_count := refill_count o;
     size_decrease_count := v; replace_events := replace_events o;
     execution_events := execution_events o;
     is_confirmed_iceberg := is_confirmed_iceberg o;
     iceberg_start_time := iceberg_start_time o; completion_time := completion_time o;
     execution_percentage := execution_percentage o;
     consecutive_refills := consecutive_refills o; min_size_seen := min_size_seen o |}.

Definition set_replace_events (v : list ReplaceEvent) (o : IcebergOrder) : IcebergOrder :=
  {| order_id := order_id o; trader_id := trader_id o; price := price o;
     initial_size := initial_size o; current_size := current_size o;
     max_visible_size := max_visible_size o; is_bid := is_bid o;
     timestamp := timestamp o; last_update := last_update o;
     last_reported_filled := last_reported_filled o; price_history := price_history o;
     current_price := current_price o; price_changes := price_changes o;
     total_filled := total_filled o; refill_count := refill_count o;
     size_decrease_count := size_decrease_count o; replace_events := v;
     execution_events := execution_events o;
     is_confirmed_iceberg := is_confirmed_iceberg o;
     iceberg_start_time := iceberg_start_time o; completion_time := completion_time o;
     execution_percentage := execution_percentage o;
     consecutive_refills := consecutive_refills o; min_size_seen := min_size_seen o |}.

Definition set_execution_events (v : list ExecutionEvent) (o : IcebergOrder) : IcebergOrder :=
  {| order_id := order_id o; trader_id := trader_id o; price := price o;
     initial_size := initial_size o; current_size := current_size o;
     max_visible_size := max_visible_size o; is_bid := is_bid o;
     timestamp := timestamp o; last_update := last_update o;
     last_reported_filled := last_reported_filled o; price_history := price_history o;
     current_price := current_price o; price_changes := price_changes o;
     total_filled := total_filled o; refill_count := refill_count o;
     size_decrease_count := size_decrease_count o; replace_events := replace_events o;
     execution_events := v; is_confirmed_iceberg := is_confirmed_iceberg o;
     iceberg_start_time := iceberg_start_time o; completion_time := completion_time o;
     execution_percentage := execution_percentage o;
     consecutive_refills := consecutive_refills o; min_size_seen := min_size_seen o |}.

Definition set_is_confirmed_iceberg (v : bool) (o : IcebergOrder) : IcebergOrder :=
  {| order_id := order_id o; trader_id := trader_id o; price := price o;
     initial_size := initial_size o; current_size := current_size o;
     max_visible_size := max_visible_size o; is_bid := is_bid o;
     timestamp := timestamp o; last_update := last_update o;
     last_reported_filled := last_reported_filled o; price_history := price_history o;
     current_price := current_price o; price_changes := price_changes o;
     total_filled := total_filled o; refill_count := refill_count o;
     size_decrease_count := size_decrease_count o; replace_events := replace_events o;
     execution_events := execution_events o; is_confirmed_iceberg := v;
     iceberg_start_time := iceberg_start_time o; completion_time := completion_time o;
     execution_percentage := execution_percentage o;
     consecutive_refills := consecutive_refills o; min_size_seen := min_size_seen o |}.

Definition set_iceberg_start_time (v : option Q) (o : IcebergOrder) : IcebergOrder :=
  {| order_id := order_id o; trader_id := trader_id o; price := price o;
     initial_size := initial_size o; current_size := current_size o;
     max_visible_size := max_visible_size o; is_bid := is_bid o;
     timestamp := timestamp o; last_update := last_update o;
     last_reported_filled := last_reported_filled o; price_history := price_history o;
     current_price := current_price o; price_changes := price_changes o;
     total_filled := total_filled o; refill_count := refill_count o;
     size_decrease_count := size_decrease_count o; replace_events := replace_events o;
     execution_events := execution_events o;
     is_confirmed_iceberg := is_confirmed_iceberg o; iceberg_start_time := v;
     completion_time := completion_time o;
     execution_percentage := execution_percentage o;
     consecutive_refills := consecutive_refills o; min_size_seen := min_size_seen o |}.

Definition set_completion_time (v : option Q) (o : IcebergOrder) : IcebergOrder :=
  {| order_id := order_id o; trader_id := trader_id o; price := price o;
     initial_size := initial_size o; current_size := current_size o;
     max_visible_size := max_visible_size o; is_bid := is_bid o;
     timestamp := timestamp o; last_update := last_update o;
     last_reported_filled := last_reported_filled o; price_history := price_history o;
     current_price := current_price o; price_changes := price_changes o;
     total_filled := total_filled o; refill_count := refill_count o;
     size_decrease_count := size_decrease_count o; replace_events := replace_events o;
     execution_events := execution_events o;
     is_confirmed_iceberg := is_confirmed_iceberg o;
     iceberg_start_time := iceberg_start_time o; completion_time := v;
     execution_percentage := execution_percentage o;
     consecutive_refills := consecutive_refills o; min_size_seen := min_size_seen o |}.

Definition set_execution_percentage (v : Q) (o : IcebergOrder) : IcebergOrder :=
  {| order_id := order_id o; trader_id := trader_id o; price := price o;
     initial_size := initial_size o; current_size := current_size o;
     max_visible_size := max_visible_size o; is_bid := is_bid o;
     timestamp := timestamp o; last_update := last_update o;
     last_reported_filled := last_reported_filled o; price_history := price_history o;
     current_price := current_price o; price_changes := price_changes o;
     total_filled := total_filled o; refill_count := refill_count o;
     size_decrease_count := size_decrease_count o; replace_events := replace_events o;
     execution_events := execution_events o;
     is_confirmed_iceberg := is_confirmed_iceberg o;
     iceberg_start_time := iceberg_start_time o; completion_time := completion_time o;
     execution_percentage := v; consecutive_refills := consecutive_refills o;
     min_size_seen := min_size_seen o |}.

Definition set_consecutive_refills (v : Z) (o : IcebergOrder) : IcebergOrder :=
  {| order_id := order_id o; trader_id := trader_id o; price := price o;
     initial_size := initial_size o; current_size := current_size o;
     max_visible_size := max_visible_size o; is_bid := is_bid o;
     timestamp := timestamp o; last_update := last_update o;
     last_reported_filled := last_reported_filled o; price_history := price_history o;
     current_price := current_price o; price_changes := price_changes o;
     total_filled := total_filled o; refill_count := refill_count o;
     size_decrease_count := size_decrease_count o; replace_events := replace_events o;
     execution_events := execution_events o;
     is_confirmed_iceberg := is_confirmed_iceberg o;
     iceberg_start_time := iceberg_start_time o; completion_time := completion_time o;
     execution_percentage := execution_percentage o; consecutive_refills := v;
     min_size_seen := min_size_seen o |}.

Definition set_min_size_seen (v : Q) (o : IcebergOrder) : IcebergOrder :=
  {| order_id := order_id o; trader_id := trader_id o; price := price o;
     initial_size := initial_size o; current_size := current_size o;
     max_visible_size := max_visible_size o; is_bid := is_bid o;
     timestamp := timestamp o; last_update := last_update o;
     last_reported_filled := last_reported_filled o; price_history := price_history o;
     current_price := current_price o; price_changes := price_changes o;
     total_filled := total_filled o; refill_count := refill_count o;
     size_decrease_count := size_decrease_count o; replace_events := replace_events o;
     execution_events := execution_events o;
     is_confirmed_iceberg := is_confirmed_iceberg o;
     iceberg_start_time := iceberg_start_time o; completion_time := completion_time o;
     execution_percentage := execution_percentage o;
     consecutive_refills := consecutive_refills o; min_size_seen := v |}.

(** [IcebergOrder.__init__] *)
Definition IcebergOrder_init (order_id : string) (price initial_size : Q) (is_bid : bool)
    (timestamp : Q) (trader_id : option string) : IcebergOrder :=
  {| order_id := order_id; trader_id := trader_id; price := price;
     initial_size := initial_size; current_size := initial_size;
     max_visible_size := initial_size; is_bid := is_bid; timestamp := timestamp;
     last_update := timestamp; last_reported_filled := 0;
     price_history := price :: nil; current_price := price; price_changes := 0%Z;
     total_filled := 0; refill_count := 0%Z; size_decrease_count := 0%Z;
     replace_events := nil; execution_events := nil; is_confirmed_iceberg := false;
     iceberg_start_time := None; completion_time := None; execution_percentage := 0;
     consecutive_refills := 0%Z; min_size_seen := initial_size |}.

(** [IcebergOrder.add_execution] *)
Definition add_execution (filled_size timestamp : Q) (self : IcebergOrder) : IcebergOrder :=
  let self := set_execution_events
      (execution_events self ++
       {| ex_timestamp := timestamp; ex_filled_size := filled_size;
          ex_remaining_size := current_size self |} :: nil) self in
  let self := set_total_filled (total_filled self + filled_size) self in
  let self := set_last_update timestamp self in
  let estimated_total_size :=
    Py.max (total_filled self + current_size self) (max_visible_size self) in
  if Py.ltb 0 estimated_total_size
  then set_execution_percentage (total_filled self / estimated_total_size) self
  else self.

(** [IcebergOrder.add_replace_event]; [new_price = None] is the default
    argument.  The logged ['new_price'] is [new_price if new_price else
    old_price], which also falls back on a zero price. *)
Definition add_replace_event (new_size timestamp : Q) (new_price : option Q)
    (self : IcebergOrder) : IcebergOrder :=
  let old_size := current_size self in
  let old_price := current_price self in
  let size_change := new_size - old_size in
  let price_changed :=
    match new_price with
    | Some p => negb (Py.eqb p old_price)
    | None => false
    end in
  let self :=
    match new_price with
    | Some p =>
        if negb (Py.eqb p old_price) then
          let self := set_current_price p self in
          let self :=
            if negb (Py.mem p (price_history self))
            then set_price_history (price_history self ++ p :: nil) self
            else self in
          set_price_changes (price_changes self + 1)%Z self
        else self
    | None => self
    end in
  let self := set_replace_events
      (replace_events self ++
       {| re_timestamp := timestamp; re_old_size := old_size; re_new_size := new_size;
          re_size_change := size_change; re_old_price := old_price;
          re_new_price :=
            match new_price with
            | Some p => if Py.eqb p 0 then old_price else p
            | None => old_price
            end;
          re_price_changed := price_changed |} :: nil) self in
  let self :=
    if Py.ltb size_change 0 then
      let execution_size := Qabs size_change in
      let self := add_execution execution_size timestamp self in
      set_size_decrease_count (size_decrease_count self + 1)%Z self
    else self in
  let self :=
    if Py.ltb new_size (min_size_seen self) then set_min_size_seen new_size self else self in
  let self :=
    if Py.ltb (max_visible_size self) new_size then set_max_visible_size new_size self
    else self in
  let self :=
    if Py.ltb 0 size_change && Py.ltb old_size (initial_size self) then
      let self := set_refill_count (refill_count self + 1)%Z self in
      set_consecutive_refills (consecutive_refills self + 1)%Z self
    else set_consecutive_refills 0%Z self in
  let self := set_current_size new_size self in
  set_last_update timestamp self.

(** [IcebergOrder.calculate_total_volume] *)
Definition calculate_total_volume (self : IcebergOrder) : Q := total_filled self.

(** [IcebergOrder.get_execution_ratio] *)
Definition get_execution_ratio (self : IcebergOrder) : Q :=
  if Py.ltb 0 (max_visible_size self)
  then total_filled self / max_visible_size self
  else 0.

(** [IcebergOrder.get_iceberg_score] *)
Definition get_iceberg_score (self : IcebergOrder) : Q :=
  let score := 0 in
  let score :=
    if Py.ltb 0 (max_visible_size self) then
      let size_ratio := min_size_seen self / max_visible_size self in
      if Py.ltb 0.3 size_ratio then score + 0.3 else score
    else score in
  let score :=
    if (2 <=? refill_count self)%Z
    then score + Py.min 0.4 (inject_Z (refill_count self) * 0.1)
    else score in
  let execution_ratio := get_execution_ratio self in
  let score :=
    if Py.ltb 1.5 execution_ratio
    then score + Py.min 0.3 (execution_ratio * 0.1)
    else score in
  Py.min score 1.

(** The two kinds of event an order object receives, as method calls. *)
Inductive OrderEvent : Type :=
  | Replace (new_size timestamp : Q) (new_price : option Q)
  | Execution (filled_size timestamp : Q).

Definition apply_event (ev : OrderEvent) (self : IcebergOrder) : IcebergOrder :=
  match ev with
  | Replace new_size timestamp new_price => add_replace_event new_size timestamp new_price self
  | Execution filled_size timestamp => add_execution filled_size timestamp self
  end.

Definition apply_events (evs : list OrderEvent) (self : IcebergOrder) : IcebergOrder :=
  fold_left (fun o ev => apply_event ev o) evs self.

(** Sum of the ['size_change'] entries of the replace log. *)
Definition net_replace_deltas (self : IcebergOrder) : Q :=
  Py.sum (List.map re_size_change (replace_events self)).

(** Every price change of the events goes to a price not in the history. *)
Fixpoint no_revisit (history : list Q) (current : Q) (evs : list OrderEvent) : bool :=
  match evs with
  | nil => true
  | Replace _ _ (Some p) :: rest =>
      if Py.eqb p current then no_revisit history current rest
      else negb (Py.mem p history) && no_revisit (history ++ p :: nil) p rest
  | _ :: rest => no_revisit history current rest
  end.


(** *** class MarketMetrics

    The three [deque]s are lists, oldest element first. *)

Record MarketMetrics : Type := {
  window_size : nat;
  order_sizes : list Q;
  trade_sizes : list Q;
  volume_history : list Q;
  timestamp_history : list Q;
  _avg_order_size : Q;
  _avg_trade_size : Q;
  _volume_rate : Q;
  _last_update : Q;
  _update_interval : Q
}.

Definition set_mm_order_sizes (v : list Q) (o : MarketMetrics) : MarketMetrics :=
  {| window_size := window_size o; order_sizes := v; trade_sizes := trade_sizes o;
     volume_history := volume_history o; timestamp_history := timestamp_history o;
     _avg_order_size := _avg_order_size o; _avg_trade_size := _avg_trade_size o;
     _volume_rate := _volume_rate o; _last_update := _last_update o;
     _update_interval := _update_interval o |}.

Definition set_mm_trade_sizes (v : list Q) (o : MarketMetrics) : MarketMetrics :=
  {| window_size := window_size o; order_sizes := order_sizes o; trade_sizes := v;
     volume_history := volume_history o; timestamp_history := timestamp_history o;
     _avg_order_size := _avg_order_size o; _avg_trade_size := _avg_trade_size o;
     _volume_rate := _volume_rate o; _last_update := _last_update o;
     _update_interval := _update_interval o |}.

Definition set_mm_volume_history (v : list Q) (o : MarketMetrics) : MarketMetrics :=
  {| window_size := window_size o; order_sizes := order_sizes o;
     trade_sizes := trade_sizes o; volume_history := v;
     timestamp_history := timestamp_history o; _avg_order_size := _avg_order_size o;
     _avg_trade_size := _avg_trade_size o; _volume_rate := _volume_rate o;
     _last_update := _last_update o; _update_interval := _update_interval o |}.

Definition set_mm_timestamp_history (v : list Q) (o : MarketMetrics) : MarketMetrics :=
  {| window_size := window_size o; order_sizes := order_sizes o;
     trade_sizes := trade_sizes o; volume_history := volume_history o;
     timestamp_history := v; _avg_order_size := _avg_order_size o;
     _avg_trade_size := _avg_trade_size o; _volume_rate := _volume_rate o;
     _last_update := _last_update o; _update_interval := _update_interval o |}.

Definition set_mm_avg_order_size (v : Q) (o : MarketMetrics) : MarketMetrics :=
  {| window_size := window_size o; order_sizes := order_sizes o;
     trade_sizes := trade_sizes o; volume_history := volume_history o;
     timestamp_history := timestamp_history o; _avg_order_size := v;
     _avg_trade_size := _avg_trade_size o; _volume_rate := _volume_rate o;
     _last_update := _last_update o; _update_interval := _update_interval o |}.

Definition set_mm_avg_trade_size (v : Q) (o : MarketMetrics) : MarketMetrics :=
  {| window_size := window_size o; order_sizes := order_sizes o;
     trade_sizes := trade_sizes o; volume_history := volume_history o;
     timestamp_history := timestamp_history o; _avg_order_size := _avg_order_size o;
     _avg_trade_size := v; _volume_rate := _volume_rate o;
     _last_update := _last_update o; _update_interval := _update_interval o |}.

Definition set_mm_volume_rate (v : Q) (o : MarketMetrics) : MarketMetrics :=
  {| window_size := window_size o; order_sizes := order_sizes o;
     trade_sizes := trade_sizes o; volume_history := volume_history o;
     timestamp_history := timestamp_history o; _avg_order_size := _avg_order_size o;
     _avg_trade_size := _avg_trade_size o; _volume_rate := v;
     _last_update := _last_update o; _update_interval := _update_interval o |}.

Definition set_mm_last_update (v : Q) (o : MarketMetrics) : MarketMetrics :=
  {| window_size := window_size o; order_sizes := order_sizes o;
     trade_sizes := trade_sizes o; volume_history := volume_history o;
     timestamp_history := timestamp_history o; _avg_order_size := _avg_order_size o;
     _avg_trade_size := _avg_trade_size o; _volume_rate := _volume_rate o;
     _last_update := v; _update_interval := _update_interval o |}.

(** [MarketMetrics.__init__]; [volume_history] has its own capacity, 50. *)
Definition MarketMetrics_init (window_size : nat) : MarketMetrics :=
  {| window_size := window_size; order_sizes := nil; trade_sizes := nil;
     volume_history := nil; timestamp_history := nil; _avg_order_size := 0;
     _avg_trade_size := 0; _volume_rate := 0; _last_update := 0; _update_interval := 5 |}.

Definition volume_history_maxlen : nat := 50.

(** [MarketMetrics._update_metrics] *)
Definition _update_metrics (self : MarketMetrics) : MarketMetrics :=
  let self :=
    match order_sizes self with
    | nil => set_mm_avg_order_size 50 self
    | _ => set_mm_avg_order_size (Py.sum (order_sizes self) / Py.len (order_sizes self)) self
    end in
  let self :=
    match trade_sizes self with
    | nil => set_mm_avg_trade_size 30 self
    | _ => set_mm_avg_trade_size (Py.sum (trade_sizes self) / Py.len (trade_sizes self)) self
    end in
  if (2 <=? length (volume_history self))%nat then
    let recent_volume :=
      Py.sum (skipn (length (volume_history self) - 10) (volume_history self)) in
    set_mm_volume_rate
      (recent_volume / inject_Z (Z.min 10 (Z.of_nat (length (volume_history self))))) self
  else set_mm_volume_rate 100 self.

(** [MarketMetrics._maybe_update_metrics] *)
Definition _maybe_update_metrics (now : Q) (self : MarketMetrics) : MarketMetrics :=
  let current_time := now in
  if Py.leb (_update_interval self) (current_time - _last_update self)
  then set_mm_last_update current_time (_update_metrics self)
  else self.

(** [MarketMetrics.add_order] *)
Definition add_order (size now : Q) (self : MarketMetrics) : MarketMetrics :=
  let self :=
    set_mm_order_sizes (Py.deque_append (window_size self) size (order_sizes self)) self in
  let self :=
    set_mm_timestamp_history
      (Py.deque_append (window_size self) now (timestamp_history self)) self in
  _maybe_update_metrics now self.

(** [MarketMetrics.add_trade] *)
Definition add_trade_size (size now : Q) (self : MarketMetrics) : MarketMetrics :=
  let self :=
    set_mm_trade_sizes (Py.deque_append (window_size self) size (trade_sizes self)) self in
  _maybe_update_metrics now self.

(** [MarketMetrics.add_volume_sample] *)
Definition add_volume_sample (volume : Q) (self : MarketMetrics) : MarketMetrics :=
  set_mm_volume_history
    (Py.deque_append volume_history_maxlen volume (volume_history self)) self.

(** [MarketMetrics.get_avg_order_size], [get_avg_trade_size], [get_volume_rate] *)
Definition get_avg_order_size (self : MarketMetrics) : Q := Py.max (_avg_order_size self) 10.
Definition get_avg_trade_size (self : MarketMetrics) : Q := Py.max (_avg_trade_size self) 5.
Definition get_volume_rate (self : MarketMetrics) : Q := Py.max (_volume_rate self) 50.

(** [MarketMetrics.get_percentile_order_size]; [None] is the [IndexError] of
    [sorted_sizes[index]].  The index is the truncation of a float product,
    which need not be the floor of the exact one. *)
Definition get_percentile_order_size (percentile : Q) (self : MarketMetrics) : option Q :=
  match order_sizes self with
  | nil => Some 100
  | _ =>
      let sorted_sizes := Py.sorted (order_sizes self) in
      let index := Py.int (Py.fmul (Py.fdiv percentile 100) (Py.len sorted_sizes)) in
      let index := Z.min index (Z.of_nat (length sorted_sizes) - 1) in
      match Py.index sorted_sizes index with
      | Some x => Some (Py.max x 20)
      | None => None
      end
  end.

(** *** class RealMBOIcebergDetector *)

Inductive Topic : Type := detections | updates | full_executions.

(** The rule that confirmed an order (the [reason] text of the message). *)
Inductive Reason : Type :=
  | refill_pattern | high_execution_ratio | large_volume | with_partials | hidden_liquidity.

(** A message handed to [telegram_bots[topic].send_message]: the topic and
    the order as the message text shows it. *)
Record Notification : Type := {
  topic : Topic;
  subject : IcebergOrder;
  reason : option Reason
}.

Record TradeInfo : Type := {
  ti_timestamp : Q;
  ti_price : Q;
  ti_size : Q;
  ti_is_bid : bool
}.

Record Thresholds : Type := {
  th_trigger_size : Q;
  th_max_visible_size : Q;
  th_min_visible_size : Q;
  th_volume_threshold : Q;
  th_avg_order_size : Q
}.

(** Attributes set once in [__init__] and never assigned again. *)
Definition trigger_size_percentage : Q := 10.
Definition max_visible_percentage : Q := 150.
Definition min_visible_percentage : Q := 10.
Definition volume_threshold_percentage : Q := 30.
Definition alert_execution_ratio_threshold : Q := 5.
Definition alert_total_filled_threshold : Q := 80.
Definition time_window : Q := 6000.
Definition execution_threshold : Q := 0.7.
Definition iceberg_score_threshold : Q := 0.6.
Definition volume_sample_interval : Q := 60.
Definition recent_trades_maxlen : nat := 200.

(** The dictionaries [potential_icebergs] and [confirmed_icebergs] hold the
    very objects of [active_orders]; only their key sets are kept.
    [order_book_snapshot] is split into its two sides. *)

Record RealMBOIcebergDetector : Type := {
  alias : string;
  size_multiplier : Q;
  pips : Q;
  market_metrics : MarketMetrics;
  active_orders : gmap string IcebergOrder;
  potential_icebergs : gset string;
  confirmed_icebergs : gset string;
  completed_icebergs : gmap string IcebergOrder;
  orders_by_price : list (Q * list string);
  recent_trades : list TradeInfo;
  order_book_bids : list (Q * Q);
  order_book_asks : list (Q * Q);
  best_bid : option Q;
  best_ask : option Q;
  total_icebergs_detected : Z;
  total_icebergs_completed : Z;
  recent_volume : Q;
  last_volume_sample : Q
}.

Definition set_market_metrics (v : MarketMetrics) (o : RealMBOIcebergDetector) : RealMBOIcebergDetector :=
  {| alias := alias o; size_multiplier := size_multiplier o; pips := pips o;
     market_metrics := v; active_orders := active_orders o;
     potential_icebergs := potential_icebergs o;
     confirmed_icebergs := confirmed_icebergs o;
     completed_icebergs := completed_icebergs o; orders_by_price := orders_by_price o;
     recent_trades := recent_trades o; order_book_bids := order_book_bids o;
     order_book_asks := order_book_asks o; best_bid := best_bid o;
     best_ask := best_ask o; total_icebergs_detected := total_icebergs_detected o;
     total_icebergs_completed := total_icebergs_completed o;
     recent_volume := recent_volume o; last_volume_sample := last_volume_sample o |}.

Definition set_active_orders (v : gmap string IcebergOrder) (o : RealMBOIcebergDetector) : RealMBOIcebergDetector :=
  {| alias := alias o; size_multiplier := size_multiplier o; pips := pips o;
     market_metrics := market_metrics o; active_orders := v;
     potential_icebergs := potential_icebergs o;
     confirmed_icebergs := confirmed_icebergs o;
     completed_icebergs := completed_icebergs o; orders_by_price := orders_by_price o;
     recent_trades := recent_trades o; order_book_bids := order_book_bids o;
     order_book_asks := order_book_asks o; best_bid := best_bid o;
     best_ask := best_ask o; total_icebergs_detected := total_icebergs_detected o;
     total_icebergs_completed := total_icebergs_completed o;
     recent_volume := recent_volume o; last_volume_sample := last_volume_sample o |}.

Definition set_potential_icebergs (v : gset string) (o : RealMBOIcebergDetector) : RealMBOIcebergDetector :=
  {| alias := alias o; size_multiplier := size_multiplier o; pips := pips o;
     market_metrics := market_metrics o; active_orders := active_orders o;
     potential_icebergs := v; confirmed_icebergs := confirmed_icebergs o;
     completed_icebergs := completed_icebergs o; orders_by_price := orders_by_price o;
     recent_trades := recent_trades o; order_book_bids := order_book_bids o;
     order_book_asks := order_book_asks o; best_bid := best_bid o;
     best_ask := best_ask o; total_icebergs_detected := total_icebergs_detected o;
     total_icebergs_completed := total_icebergs_completed o;
     recent_volume := recent_volume o; last_volume_sample := last_volume_sample o |}.

Definition set_confirmed_icebergs (v : gset string) (o : RealMBOIcebergDetector) : RealMBOIcebergDetector :=
  {| alias := alias o; size_multiplier := size_multiplier o; pips := pips o;
     market_metrics := market_metrics o; active_orders := active_orders o;
     potential_icebergs := potential_icebergs o; confirmed_icebergs := v;
     completed_icebergs := completed_icebergs o; orders_by_price := orders_by_price o;
     recent_trades := recent_trades o; order_book_bids := order_book_bids o;
     order_book_asks := order_book_asks o; best_bid := best_bid o;
     best_ask := best_ask o; total_icebergs_detected := total_icebergs_detected o;
     total_icebergs_completed := total_icebergs_completed o;
     recent_volume := recent_volume o; last_volume_sample := last_volume_sample o |}.

Definition set_completed_icebergs (v : gmap string IcebergOrder) (o : RealMBOIcebergDetector) : RealMBOIcebergDetector :=
  {| alias := alias o; size_multiplier := size_multiplier o; pips := pips o;
     market_metrics := market_metrics o; active_orders := active_orders o;
     potential_icebergs := potential_icebergs o;
     confirmed_icebergs := confirmed_icebergs o; completed_icebergs := v;
     orders_by_price := orders_by_price o; recent_trades := recent_trades o;
     order_book_bids := order_book_bids o; order_book_asks := order_book_asks o;
     best_bid := best_bid o; best_ask := best_ask o;
     total_icebergs_detected := total_icebergs_detected o;
     total_icebergs_completed := total_icebergs_completed o;
     recent_volume := recent_volume o; last_volume_sample := last_volume_sample o |}.

Definition set_orders_by_price (v : list (Q * list string)) (o : RealMBOIcebergDetector) : RealMBOIcebergDetector :=
  {| alias := alias o; size_multiplier := size_multiplier o; pips := pips o;
     market_metrics := market_metrics o; active_orders := active_orders o;
     potential_icebergs := potential_icebergs o;
     confirmed_icebergs := confirmed_icebergs o;
     completed_icebergs := completed_icebergs o; orders_by_price := v;
     recent_trades := recent_trades o; order_book_bids := order_book_bids o;
     order_book_asks := order_book_asks o; best_bid := best_bid o;
     best_ask := best_ask o; total_icebergs_detected := total_icebergs_detected o;
     total_icebergs_completed := total_icebergs_completed o;
     recent_volume := recent_volume o; last_volume_sample := last_volume_sample o |}.

Definition set_recent_trades (v : list TradeInfo) (o : RealMBOIcebergDetector) : RealMBOIcebergDetector :=
  {| alias := alias o; size_multiplier := size_multiplier o; pips := pips o;
     market_metrics := market_metrics o; active_orders := active_orders o;
     potential_icebergs := potential_icebergs o;
     confirmed_icebergs := confirmed_icebergs o;
     completed_icebergs := completed_icebergs o; orders_by_price := orders_by_price o;
     recent_trades := v; order_book_bids := order_book_bids o;
     order_book_asks := order_book_asks o; best_bid := best_bid o;
     best_ask := best_ask o; total_icebergs_detected := total_icebergs_detected o;
     total_icebergs_completed := total_icebergs_completed o;
     recent_volume := recent_volume o; last_volume_sample := last_volume_sample o |}.

Definition set_order_book_bids (v : list (Q * Q)) (o : RealMBOIcebergDetector) : RealMBOIcebergDetector :=
  {| alias := alias o; size_multiplier := size_multiplier o; pips := pips o;
     market_metrics := market_metrics o; active_orders := active_orders o;
     potential_icebergs := potential_icebergs o;
     confirmed_icebergs := confirmed_icebergs o;
     completed_icebergs := completed_icebergs o; orders_by_price := orders_by_price o;
     recent_trades := recent_trades o; order_book_bids := v;
     order_book_asks := order_book_asks o; best_bid := best_bid o;
     best_ask := best_ask o; total_icebergs_detected := total_icebergs_detected o;
     total_icebergs_completed := total_icebergs_completed o;
     recent_volume := recent_volume o; last_volume_sample := last_volume_sample o |}.

Definition set_order_book_asks (v : list (Q * Q)) (o : RealMBOIcebergDetector) : RealMBOIcebergDetector :=
  {| alias := alias o; size_multiplier := size_multiplier o; pips := pips o;
     market_metrics := market_metrics o; active_orders := active_orders o;
     potential_icebergs := potential_icebergs o;
     confirmed_icebergs := confirmed_icebergs o;
     completed_icebergs := completed_icebergs o; orders_by_price := orders_by_price o;
     recent_trades := recent_trades o; order_book_bids := order_book_bids o;
     order_book_asks := v; best_bid := best_bid o; best_ask := best_ask o;
     total_icebergs_detected := total_icebergs_detected o;
     total_icebergs_completed := total_icebergs_completed o;
     recent_volume := recent_volume o; last_volume_sample := last_volume_sample o |}.

Definition set_best_bid (v : option Q) (o : RealMBOIcebergDetector) : RealMBOIcebergDetector :=
  {| alias := alias o; size_multiplier := size_multiplier o; pips := pips o;
     market_metrics := market_metrics o; active_orders := active_orders o;
     potential_icebergs := potential_icebergs o;
     confirmed_icebergs := confirmed_icebergs o;
     completed_icebergs := completed_icebergs o; orders_by_price := orders_by_price o;
     recent_trades := recent_trades o; order_book_bids := order_book_bids o;
     order_book_asks := order_book_asks o; best_bid := v; best_ask := best_ask o;
     total_icebergs_detected := total_icebergs_detected o;
     total_icebergs_completed := total_icebergs_completed o;
     recent_volume := recent_volume o; last_volume_sample := last_volume_sample o |}.

Definition set_best_ask (v : option Q) (o : RealMBOIcebergDetector) : RealMBOIcebergDetector :=
  {| alias := alias o; size_multiplier := size_multiplier o; pips := pips o;
     market_metrics := market_metrics o; active_orders := active_orders o;
     potential_icebergs := potential_icebergs o;
     confirmed_icebergs := confirmed_icebergs o;
     completed_icebergs := completed_icebergs o; orders_by_price := orders_by_price o;
     recent_trades := recent_trades o; order_book_bids := order_book_bids o;
     order_book_asks := order_book_asks o; best_bid := best_bid o; best_ask := v;
     total_icebergs_detected := total_icebergs_detected o;
     total_icebergs_completed := total_icebergs_completed o;
     recent_volume := recent_volume o; last_volume_sample := last_volume_sample o |}.

Definition set_total_icebergs_detected (v : Z) (o : RealMBOIcebergDetector) : RealMBOIcebergDetector :=
  {| alias := alias o; size_multiplier := size_multiplier o; pips := pips o;
     market_metrics := market_metrics o; active_orders := active_orders o;
     potential_icebergs := potential_icebergs o;
     confirmed_icebergs := confirmed_icebergs o;
     completed_icebergs := completed_icebergs o; orders_by_price := orders_by_price o;
     recent_trades := recent_trades o; order_book_bids := order_book_bids o;
     order_book_asks := order_book_asks o; best_bid := best_bid o;
     best_ask := best_ask o; total_icebergs_detected := v;
     total_icebergs_completed := total_icebergs_completed o;
     recent_volume := recent_volume o; last_volume_sample := last_volume_sample o |}.

Definition set_total_icebergs_completed (v : Z) (o : RealMBOIcebergDetector) : RealMBOIcebergDetector :=
  {| alias := alias o; size_multiplier := size_multiplier o; pips := pips o;
     market_metrics := market_metrics o; active_orders := active_orders o;
     potential_icebergs := potential_icebergs o;
     confirmed_icebergs := confirmed_icebergs o;
     completed_icebergs := completed_icebergs o; orders_by_price := orders_by_price o;
     recent_trades := recent_trades o; order_book_bids := order_book_bids o;
     order_book_asks := order_book_asks o; best_bid := best_bid o;
     best_ask := best_ask o; total_icebergs_detected := total_icebergs_detected o;
     total_icebergs_completed := v; recent_volume := recent_volume o;
     last_volume_sample := last_volume_sample o |}.

Definition set_recent_volume (v : Q) (o : RealMBOIcebergDetector) : RealMBOIcebergDetector :=
  {| alias := alias o; size_multiplier := size_multiplier o; pips := pips o;
     market_metrics := market_metrics o; active_orders := active_orders o;
     potential_icebergs := potential_icebergs o;
     confirmed_icebergs := confirmed_icebergs o;
     completed_icebergs := completed_icebergs o; orders_by_price := orders_by_price o;
     recent_trades := recent_trades o; order_book_bids := order_book_bids o;
     order_book_asks := order_book_asks o; best_bid := best_bid o;
     best_ask := best_ask o; total_icebergs_detected := total_icebergs_detected o;
     total_icebergs_completed := total_icebergs_completed o; recent_volume := v;
     last_volume_sample := last_volume_sample o |}.

Definition set_last_volume_sample (v : Q) (o : RealMBOIcebergDetector) : RealMBOIcebergDetector :=
  {| alias := alias o; size_multiplier := size_multiplier o; pips := pips o;
     market_metrics := market_metrics o; active_orders := active_orders o;
     potential_icebergs := potential_icebergs o;
     confirmed_icebergs := confirmed_icebergs o;
     completed_icebergs := completed_icebergs o; orders_by_price := orders_by_price o;
     recent_trades := recent_trades o; order_book_bids := order_book_bids o;
     order_book_asks := order_book_asks o; best_bid := best_bid o;
     best_ask := best_ask o; total_icebergs_detected := total_icebergs_detected o;
     total_icebergs_completed := total_icebergs_completed o;
     recent_volume := recent_volume o; last_volume_sample := v |}.

(** [RealMBOIcebergDetector.__init__]; [last_volume_sample] is the clock
    reading at construction. *)
Definition RealMBOIcebergDetector_init (alias : string) (size_multiplier pips now : Q)
    : RealMBOIcebergDetector :=
  {| alias := alias; size_multiplier := size_multiplier; pips := pips;
     market_metrics := MarketMetrics_init 100; active_orders := ∅;
     potential_icebergs := ∅; confirmed_icebergs := ∅; completed_icebergs := ∅;
     orders_by_price := nil; recent_trades := nil; order_book_bids := nil;
     order_book_asks := nil; best_bid := None; best_ask := None;
     total_icebergs_detected := 0%Z; total_icebergs_completed := 0%Z;
     recent_volume := 0; last_volume_sample := now |}.

(** Dictionary operations on a price-keyed association list. *)
Section PriceDict.
Context {V : Type}.

Fixpoint dict_get (k : Q) (m : list (Q * V)) : option V :=
  match m with
  | nil => None
  | (k', v) :: m' => if Py.eqb k k' then Some v else dict_get k m'
  end.

Fixpoint dict_set (k : Q) (v : V) (m : list (Q * V)) : list (Q * V) :=
  match m with
  | nil => (k, v) :: nil
  | (k', v') :: m' => if Py.eqb k k' then (k', v) :: m' else (k', v') :: dict_set k v m'
  end.

Fixpoint dict_del (k : Q) (m : list (Q * V)) : list (Q * V) :=
  match m with
  | nil => nil
  | (k', v') :: m' => if Py.eqb k k' then m' else (k', v') :: dict_del k m'
  end.
End PriceDict.

(** [list.remove(x)] on a list that contains [x]: the first occurrence goes. *)
Fixpoint list_remove (x : string) (l : list string) : list string :=
  match l with
  | nil => nil
  | y :: l' => if String.eqb x y then l' else y :: list_remove x l'
  end.

Definition list_mem (x : string) (l : list string) : bool := existsb (String.eqb x) l.

(** [self.orders_by_price[price].append(order_id)] on the [defaultdict(list)]. *)
Definition level_append (price : Q) (order_id : string) (m : list (Q * list string))
    : list (Q * list string) :=
  match dict_get price m with
  | Some ids => dict_set price (ids ++ order_id :: nil) m
  | None => dict_set price (order_id :: nil) m
  end.

(** The guarded removal used by replace, cancel and cleanup:
    [if price in d and order_id in d[price]: d[price].remove(order_id);
     if not d[price]: del d[price]]. *)
Definition level_remove (price : Q) (order_id : string) (m : list (Q * list string))
    : list (Q * list string) :=
  match dict_get price m with
  | Some ids =>
      if list_mem order_id ids then
        match list_remove order_id ids with
        | nil => dict_del price m
        | ids' => dict_set price ids' m
        end
      else m
  | None => m
  end.

(** [size / self.size_multiplier if self.size_multiplier > 0 else size] *)
Definition normalize_size (size_multiplier size : Q) : Q :=
  if Py.ltb 0 size_multiplier then size / size_multiplier else size.

(** [RealMBOIcebergDetector.get_dynamic_thresholds].  The percentile asked
    for is 75, for which the index is always in range (lemma
    [get_percentile_order_size_75] below), so the lookup cannot raise. *)
Definition get_dynamic_thresholds (self : RealMBOIcebergDetector) : Thresholds :=
  let avg_order_size := get_avg_order_size (market_metrics self) in
  let volume_rate := get_volume_rate (market_metrics self) in
  let percentile_size :=
    match get_percentile_order_size 75 (market_metrics self) with
    | Some x => x
    | None => 0
    end in
  let trigger_size :=
    Py.max (avg_order_size * (trigger_size_percentage / 100)) (percentile_size * 0.5) in
  let max_visible_size := avg_order_size * (max_visible_percentage / 100) in
  let min_visible_size := avg_order_size * (min_visible_percentage / 100) in
  let volume_threshold := volume_rate * (volume_threshold_percentage / 100) in
  let trigger_size := Py.max (Py.min trigger_size 500) 20 in
  let max_visible_size := Py.max (Py.min max_visible_size 1000) 50 in
  let min_visible_size := Py.max (Py.min min_visible_size 100) 10 in
  {| th_trigger_size := trigger_size; th_max_visible_size := max_visible_size;
     th_min_visible_size := min_visible_size; th_volume_threshold := volume_threshold;
     th_avg_order_size := avg_order_size |}.

(** [max(d.keys())] and [min(d.keys())] of a non-empty dictionary. *)
Definition max_key (m : list (Q * Q)) : option Q :=
  match m with
  | nil => None
  | (k, _) :: m' => Some (fold_left (fun acc kv => Py.max acc (fst kv)) m' k)
  end.

Definition min_key (m : list (Q * Q)) : option Q :=
  match m with
  | nil => None
  | (k, _) :: m' => Some (fold_left (fun acc kv => Py.min acc (fst kv)) m' k)
  end.

(** [RealMBOIcebergDetector.update_depth] *)
Definition update_depth (is_bid : bool) (price size : Q) (self : RealMBOIcebergDetector)
    : RealMBOIcebergDetector :=
  let upd (book : list (Q * Q)) :=
    if Py.ltb 0 size then dict_set price size book
    else match dict_get price book with
         | Some _ => dict_del price book
         | None => book
         end in
  let self :=
    if is_bid then set_order_book_bids (upd (order_book_bids self)) self
    else set_order_book_asks (upd (order_book_asks self)) self in
  let self :=
    match max_key (order_book_bids self) with
    | Some k => set_best_bid (Some k) self
    | None => self
    end in
  match min_key (order_book_asks self) with
  | Some k => set_best_ask (Some k) self
  | None => self
  end.

(** [RealMBOIcebergDetector._get_distance_from_best]; a best price that is
    [None] or zero is falsy. *)
Definition truthy (x : option Q) : option Q :=
  match x with
  | Some v => if Py.eqb v 0 then None else Some v
  | None => None
  end.

Definition _get_distance_from_best (price : Q) (is_bid : bool)
    (self : RealMBOIcebergDetector) : Q :=
  if Py.ltb 0 (pips self) then
    match is_bid, truthy (best_bid self), truthy (best_ask self) with
    | true, Some b, _ => Qabs (price - b) / pips self
    | false, _, Some a => Qabs (price - a) / pips self
    | _, _, _ => 0
    end
  else 0.

(** [RealMBOIcebergDetector.process_new_order] *)
Definition process_new_order (order_id : string) (is_bid : bool) (price size : Q)
    (trader_id : option string) (now : Q) (self : RealMBOIcebergDetector)
    : RealMBOIcebergDetector :=
  let timestamp := now in
  let actual_size := normalize_size (size_multiplier self) size in
  let self := set_market_metrics (add_order actual_size now (market_metrics self)) self in
  let thresholds := get_dynamic_thresholds self in
  if Py.leb (th_min_visible_size thresholds) actual_size then
    let iceberg_order :=
      IcebergOrder_init order_id price actual_size is_bid timestamp trader_id in
    let self := set_active_orders (<[order_id := iceberg_order]> (active_orders self)) self in
    let self :=
      set_orders_by_price (level_append price order_id (orders_by_price self)) self in
    let distance_pips := _get_distance_from_best price is_bid self in
    if Py.leb (th_trigger_size thresholds) actual_size
       && Py.leb actual_size (th_max_visible_size thresholds)
       && Py.leb distance_pips 50
    then set_potential_icebergs ({[order_id]} ∪ potential_icebergs self) self
    else self
  else self.

(** While a method works on [order = self.active_orders[order_id]] the order
    is carried next to the detector and stored back under the key it was
    read from, which is what mutation of the shared object amounts to. *)
Definition Analysis : Type := RealMBOIcebergDetector * IcebergOrder * list Notification.

(** [RealMBOIcebergDetector._confirm_iceberg], with the message of
    [_send_iceberg_detection_notification]. *)
Definition _confirm_iceberg (order : IcebergOrder) (why : Reason) (now : Q)
    (self : RealMBOIcebergDetector) : Analysis :=
  let order := set_is_confirmed_iceberg true order in
  let order := set_iceberg_start_time (Some now) order in
  let order := set_last_reported_filled (total_filled order) order in
  let self :=
    set_confirmed_icebergs ({[order_id order]} ∪ confirmed_icebergs self) self in
  let self := set_total_icebergs_detected (total_icebergs_detected self + 1)%Z self in
  (self, order, {| topic := detections; subject := order; reason := Some why |} :: nil).

(** One [if <pattern> and not order.is_confirmed_iceberg: self._confirm_iceberg(...)]. *)
Definition confirm_when (pattern : IcebergOrder -> bool) (why : Reason) (now : Q)
    (st : Analysis) : Analysis :=
  let '(self, order, out) := st in
  if pattern order && negb (is_confirmed_iceberg order) then
    let '(self, order, msgs) := _confirm_iceberg order why now self in
    (self, order, out ++ msgs)
  else st.

(** [RealMBOIcebergDetector._analyze_iceberg_pattern_percentage]; the score
    and the ratio are read once, before the patterns. *)
Definition _analyze_iceberg_pattern_percentage (order : IcebergOrder) (now : Q)
    (self : RealMBOIcebergDetector) : Analysis :=
  let iceberg_score := get_iceberg_score order in
  let execution_ratio := get_execution_ratio order in
  let should_alert :=
    Py.leb alert_execution_ratio_threshold execution_ratio
    || Py.leb alert_total_filled_threshold (total_filled order) in
  if negb should_alert then (self, order, nil)
  else
    let st : Analysis := (self, order, nil) in
    let st :=
      confirm_when (fun o => (1 <=? refill_count o)%Z && Py.leb 0.4 iceberg_score)
        refill_pattern now st in
    let st :=
      confirm_when
        (fun o => Py.leb alert_execution_ratio_threshold execution_ratio
                  && Py.leb (min_size_seen o * 0.8) (current_size o))
        high_execution_ratio now st in
    let st :=
      confirm_when
        (fun o => Py.leb alert_total_filled_threshold (total_filled o)
                  && (2 <=? size_decrease_count o)%Z)
        large_volume now st in
    let st :=
      confirm_when
        (fun o => Py.leb alert_total_filled_threshold (total_filled o)
                  && (3 <=? size_decrease_count o)%Z)
        with_partials now st in
    confirm_when
      (fun o => Py.leb alert_execution_ratio_threshold execution_ratio
                && Py.leb (initial_size o * 0.6) (current_size o))
      hidden_liquidity now st.

(** [RealMBOIcebergDetector.process_replace_order] *)
Definition process_replace_order (order_id : string) (price size now : Q)
    (self : RealMBOIcebergDetector) : RealMBOIcebergDetector * list Notification :=
  match active_orders self !! order_id with
  | None => (self, nil)
  | Some order =>
      let timestamp := now in
      let actual_size := normalize_size (size_multiplier self) size in
      let old_price := current_price order in
      let price_changed := negb (Py.eqb price old_price) in
      let self :=
        if price_changed then
          let self :=
            set_orders_by_price
              (level_remove old_price order_id (orders_by_price self)) self in
          set_orders_by_price (level_append price order_id (orders_by_price self)) self
        else self in
      let order :=
        add_replace_event actual_size timestamp
          (if price_changed then Some price else None) order in
      let '(self, order, out) := _analyze_iceberg_pattern_percentage order timestamp self in
      (set_active_orders (<[order_id := order]> (active_orders self)) self, out)
  end.

(** [RealMBOIcebergDetector._handle_iceberg_near_completion], with the message
    of [_send_iceberg_execution_update]. *)
Definition _handle_iceberg_near_completion (order : IcebergOrder)
    : IcebergOrder * list Notification :=
  if is_confirmed_iceberg order && Py.leb execution_threshold (execution_percentage order)
  then
    if Py.leb 20 (total_filled order - last_reported_filled order) then
      (set_last_reported_filled (total_filled order) order,
       {| topic := updates; subject := order; reason := None |} :: nil)
    else (order, nil)
  else (order, nil).

(** [RealMBOIcebergDetector.process_order_execution] *)
Definition process_order_execution (order_id : string) (executed_size now : Q)
    (self : RealMBOIcebergDetector) : RealMBOIcebergDetector * list Notification :=
  match active_orders self !! order_id with
  | None => (self, nil)
  | Some order =>
      let timestamp := now in
      let order := add_execution executed_size timestamp order in
      let '(order, out) :=
        if is_confirmed_iceberg order
           && (Py.leb alert_execution_ratio_threshold (get_execution_ratio order)
               || Py.leb alert_total_filled_threshold (total_filled order))
        then
          if Py.leb execution_threshold (execution_percentage order)
          then _handle_iceberg_near_completion order
          else (order, nil)
        else (order, nil) in
      (set_active_orders (<[order_id := order]> (active_orders self)) self, out)
  end.

(** The loop [for price in order.price_history: <guarded removal>]. *)
Definition remove_from_levels (order_id : string) (prices : list Q)
    (m : list (Q * list string)) : list (Q * list string) :=
  fold_left (fun m price => level_remove price order_id m) prices m.

(** [RealMBOIcebergDetector._cleanup_order] *)
Definition _cleanup_order (order_id : string) (self : RealMBOIcebergDetector)
    : RealMBOIcebergDetector :=
  let self :=
    match active_orders self !! order_id with
    | Some order =>
        let self :=
          set_orders_by_price
            (remove_from_levels order_id (price_history order) (orders_by_price self))
            self in
        set_active_orders (delete order_id (active_orders self)) self
    | None => self
    end in
  let self := set_potential_icebergs (potential_icebergs self ∖ {[order_id]}) self in
  set_confirmed_icebergs (confirmed_icebergs self ∖ {[order_id]}) self.

(** [RealMBOIcebergDetector.process_cancel_order], with the message of
    [_send_iceberg_completion_notification]. *)
Definition process_cancel_order (order_id : string) (now : Q)
    (self : RealMBOIcebergDetector) : RealMBOIcebergDetector * list Notification :=
  match active_orders self !! order_id with
  | None => (self, nil)
  | Some order =>
      let self :=
        set_orders_by_price
          (remove_from_levels order_id (price_history order) (orders_by_price self))
          self in
      let '(self, out) :=
        if is_confirmed_iceberg order then
          let order := set_completion_time (Some now) order in
          let self :=
            set_active_orders (<[order_id := order]> (active_orders self)) self in
          let self :=
            set_completed_icebergs (<[order_id := order]> (completed_icebergs self))
              self in
          let self :=
            set_total_icebergs_completed (total_icebergs_completed self + 1)%Z self in
          (self, {| topic := full_executions; subject := order; reason := None |} :: nil)
        else (self, nil) in
      (_cleanup_order order_id self, out)
  end.

(** [RealMBOIcebergDetector.process_order_execution] called for each matched
    order of [_match_trade_to_orders_v2]: [potential_orders] lists the keys of
    the matched objects, read again at each turn since the fills mutate them. *)
Fixpoint match_loop (execution_per_order now : Q) (potential_orders : list string)
    (st : RealMBOIcebergDetector * list Notification)
    : RealMBOIcebergDetector * list Notification :=
  match potential_orders with
  | nil => st
  | key :: rest =>
      let '(self, out) := st in
      match active_orders self !! key with
      | Some order =>
          let actual_execution := Py.min execution_per_order (current_size order) in
          if Py.ltb 0 actual_execution then
            let '(self, msgs) :=
              process_order_execution (order_id order) actual_execution now self in
            match_loop execution_per_order now rest (self, out ++ msgs)
          else match_loop execution_per_order now rest st
      | None => match_loop execution_per_order now rest st
      end
  end.

(** [RealMBOIcebergDetector._match_trade_to_orders_v2] *)
Definition _match_trade_to_orders_v2 (trade : TradeInfo) (now : Q)
    (self : RealMBOIcebergDetector) : RealMBOIcebergDetector * list Notification :=
  let trade_price := ti_price trade in
  let trade_size := ti_size trade in
  let trade_is_bid := ti_is_bid trade in
  match dict_get trade_price (orders_by_price self) with
  | Some ids =>
      let potential_orders :=
        List.filter
          (fun order_id =>
             match active_orders self !! order_id with
             | Some order => negb (Bool.eqb (is_bid order) trade_is_bid)
             | None => false
             end) ids in
      match potential_orders with
      | nil => (self, nil)
      | _ =>
          let execution_per_order := trade_size / Py.len potential_orders in
          match_loop execution_per_order now potential_orders (self, nil)
      end
  | None => (self, nil)
  end.

(** [RealMBOIcebergDetector.add_trade] *)
Definition add_trade (price size : Q) (is_bid : bool) (now : Q)
    (self : RealMBOIcebergDetector) : RealMBOIcebergDetector * list Notification :=
  let timestamp := now in
  let trade_info :=
    {| ti_timestamp := timestamp; ti_price := price; ti_size := size;
       ti_is_bid := is_bid |} in
  let self :=
    set_recent_trades
      (Py.deque_append recent_trades_maxlen trade_info (recent_trades self)) self in
  let self := set_market_metrics (add_trade_size size now (market_metrics self)) self in
  let self := set_recent_volume (recent_volume self + size) self in
  let self :=
    if Py.leb volume_sample_interval (timestamp - last_volume_sample self) then
      let self :=
        set_market_metrics (add_volume_sample (recent_volume self) (market_metrics self))
          self in
      let self := set_recent_volume 0 self in
      set_last_volume_sample timestamp self
    else self in
  _match_trade_to_orders_v2 trade_info now self.

(** [RealMBOIcebergDetector.cleanup_old_orders] *)
Definition cleanup_old_orders (now : Q) (self : RealMBOIcebergDetector)
    : RealMBOIcebergDetector :=
  let current_time := now in
  let expired_orders :=
    List.map fst
      (List.filter (fun kv => Py.ltb time_window (current_time - last_update (snd kv)))
         (map_to_list (active_orders self))) in
  fold_left (fun self order_id => _cleanup_order order_id self) expired_orders self.

(** *** Module-level handlers, for the subscribed instrument

    The calls into the Bookmap order books ([bm.on_depth], [bm.on_new_order],
    ...) and the logging touch no detector state and are left out. *)

(** A Python string or [None] used as a condition. *)
Definition truthy_id (x : option string) : option string :=
  match x with
  | Some s => if String.eqb s "" then None else Some s
  | None => None
  end.

(** The two [if order_id and order_id in detector.active_orders:
    detector.process_order_execution(order_id, actual_size)] of [handle_trades]. *)
Definition direct_execution (order_id : option string) (actual_size now : Q)
    (st : RealMBOIcebergDetector * list Notification)
    : RealMBOIcebergDetector * list Notification :=
  let '(detector, out) := st in
  match truthy_id order_id with
  | Some oid =>
      match active_orders detector !! oid with
      | Some _ =>
          let '(detector, msgs) := process_order_execution oid actual_size now detector in
          (detector, out ++ msgs)
      | None => st
      end
  | None => st
  end.

(** [handle_trades] *)
Definition handle_trades (price size : Q) (is_bid : bool)
    (aggressor_order_id passive_order_id : option string) (now : Q)
    (detector : RealMBOIcebergDetector) : RealMBOIcebergDetector * list Notification :=
  let actual_size := normalize_size (size_multiplier detector) size in
  let st := add_trade price actual_size is_bid now detector in
  let st := direct_execution passive_order_id actual_size now st in
  direct_execution aggressor_order_id actual_size now st.

(** [handle_mbo_event] *)
Definition handle_mbo_event (event_type order_id : string) (price size : Q)
    (trader_id : option string) (now : Q) (detector : RealMBOIcebergDetector)
    : RealMBOIcebergDetector * list Notification :=
  if String.eqb event_type "ASK_NEW" then
    (process_new_order order_id false price size trader_id now detector, nil)
  else if String.eqb event_type "BID_NEW" then
    (process_new_order order_id true price size trader_id now detector, nil)
  else if String.eqb event_type "REPLACE" then
    process_replace_order order_id price size now detector
  else if String.eqb event_type "CANCEL" then
    process_cancel_order order_id now detector
  else (detector, nil).

(** [handle_depth_info] and [on_interval] *)
Definition handle_depth_info (is_bid : bool) (price size : Q)
    (detector : RealMBOIcebergDetector) : RealMBOIcebergDetector :=
  update_depth is_bid price size detector.

Definition on_interval (now : Q) (detector : RealMBOIcebergDetector)
    : RealMBOIcebergDetector :=
  cleanup_old_orders now detector.

(** *** The event stream of one instrument *)

Inductive Event : Type :=
  | MboEvent (event_type order_id : string) (price size : Q) (trader_id : option string)
  | TradeEvent (price size : Q) (is_bid : bool)
      (aggressor_order_id passive_order_id : option string)
  | DepthEvent (is_bid : bool) (price size : Q)
  | IntervalEvent.

(** One callback of the feed adapter, at clock reading [now]. *)
Definition handle (now : Q) (ev : Event) (detector : RealMBOIcebergDetector)
    : RealMBOIcebergDetector * list Notification :=
  match ev with
  | MboEvent event_type order_id price size trader_id =>
      handle_mbo_event event_type order_id price size trader_id now detector
  | TradeEvent price size is_bid aggressor_order_id passive_order_id =>
      handle_trades price size is_bid aggressor_order_id passive_order_id now detector
  | DepthEvent is_bid price size => (handle_depth_info is_bid price size detector, nil)
  | IntervalEvent => (on_interval now detector, nil)
  end.

(** The callbacks of a whole stream, with everything sent along the way. *)
Fixpoint run (evs : list (Q * Event)) (detector : RealMBOIcebergDetector)
    : RealMBOIcebergDetector * list Notification :=
  match evs with
  | nil => (detector, nil)
  | (now, ev) :: rest =>
      let '(detector, out) := handle now ev detector in
      let '(detector, out') := run rest detector in
      (detector, out ++ out')
  end.

End V2.

(** ** [icev3.py] *)

Module V3.

(** Entry of the [replace_events] log; ['new_p'] is the argument as given. *)
Record ReplaceEvent : Type := {
  re_ts : Q;
  re_old_s : Q;
  re_new_s : Q;
  re_old_p : Q;
  re_new_p : option Q
}.

(** *** class IcebergOrder *)

Record IcebergOrder : Type := {
  order_id : string;
  trader_id : option string;
  initial_size : Q;
  current_size : Q;
  max_visible_size : Q;
  is_bid : bool;
  timestamp : Q;
  last_update : Q;
  last_reported_filled : Q;
  price_history : list Q;
  current_price : Q;
  price_changes : Z;
  total_filled : Q;
  active_filled : Q;
  passive_filled : Q;
  refill_count : Z;
  size_decrease_count : Z;
  replace_events : list ReplaceEvent;
  is_confirmed_iceberg : bool;
  iceberg_start_time : option Q;
  completion_time : option Q;
  min_size_seen : Q;
  execution_percentage : Q
}.

Definition set_current_size (v : Q) (o : IcebergOrder) : IcebergOrder :=
  {| order_id := order_id o; trader_id := trader_id o; initial_size := initial_size o;
     current_size := v; max_visible_size := max_visible_size o; is_bid := is_bid o;
     timestamp := timestamp o; last_update := last_update o;
     last_reported_filled := last_reported_filled o; price_history := price_history o;
     current_price := current_price o; price_changes := price_changes o;
     total_filled := total_filled o; active_filled := active_filled o;
     passive_filled := passive_filled o; refill_count := refill_count o;
     size_decrease_count := size_decrease_count o; replace_events := replace_events o;
     is_confirmed_iceberg := is_confirmed_iceberg o;
     iceberg_start_time := iceberg_start_time o; completion_time := completion_time o;
     min_size_seen := min_size_seen o; execution_percentage := execution_percentage o |}.

Definition set_max_visible_size (v : Q) (o : IcebergOrder) : IcebergOrder :=
  {| order_id := order_id o; trader_id := trader_id o; initial_size := initial_size o;
     current_size := current_size o; max_visible_size := v; is_bid := is_bid o;
     timestamp := timestamp o; last_update := last_update o;
     last_reported_filled := last_reported_filled o; price_history := price_history o;
     current_price := current_price o; price_changes := price_changes o;
     total_filled := total_filled o; active_filled := active_filled o;
     passive_filled := passive_filled o; refill_count := refill_count o;
     size_decrease_count := size_decrease_count o; replace_events := replace_events o;
     is_confirmed_iceberg := is_confirmed_iceberg o;
     iceberg_start_time := iceberg_start_time o; completion_time := completion_time o;
     min_size_seen := min_size_seen o; execution_percentage := execution_percentage o |}.

Definition set_last_update (v : Q) (o : IcebergOrder) : IcebergOrder :=
  {| order_id := order_id o; trader_id := trader_id o; initial_size := initial_size o;
     current_size := current_size o; max_visible_size := max_visible_size o;
     is_bid := is_bid o; timestamp := timestamp o; last_update := v;
     last_reported_filled := last_reported_filled o; price_history := price_history o;
     current_price := current_price o; price_changes := price_changes o;
     total_filled := total_filled o; active_filled := active_filled o;
     passive_filled := passive_filled o; refill_count := refill_count o;
     size_decrease_count := size_decrease_count o; replace_events := replace_events o;
     is_confirmed_iceberg := is_confirmed_iceberg o;
     iceberg_start_time := iceberg_start_time o; completion_time := completion_time o;
     min_size_seen := min_size_seen o; execution_percentage := execution_percentage o |}.

Definition set_price_history (v : list Q) (o : IcebergOrder) : IcebergOrder :=
  {| order_id := order_id o; trader_id := trader_id o; initial_size := initial_size o;
     current_size := current_size o; max_visible_size := max_visible_size o;
     is_bid := is_bid o; timestamp := timestamp o; last_update := last_update o;
     last_reported_filled := last_reported_filled o; price_history := v;
     current_price := current_price o; price_changes := price_changes o;
     total_filled := total_filled o; active_filled := active_filled o;
     passive_filled := passive_filled o; refill_count := refill_count o;
     size_decrease_count := size_decrease_count o; replace_events := replace_events o;
     is_confirmed_iceberg := is_confirmed_iceberg o;
     iceberg_start_time := iceberg_start_time o; completion_time := completion_time o;
     min_size_seen := min_size_seen o; execution_percentage := execution_percentage o |}.

Definition set_current_price (v : Q) (o : IcebergOrder) : IcebergOrder :=
  {| order_id := order_id o; trader_id := trader_id o; initial_size := initial_size o;
     current_size := current_size o; max_visible_size := max_visible_size o;
     is_bid := is_bid o; timestamp := timestamp o; last_update := last_update o;
     last_reported_filled := last_reported_filled o; price_history := price_history o;
     current_price := v; price_changes := price_changes o;
     total_filled := total_filled o; active_filled := active_filled o;
     passive_filled := passive_filled o; refill_count := refill_count o;
     size_decrease_count := size_decrease_count o; replace_events := replace_events o;
     is_confirmed_iceberg := is_confirmed_iceberg o;
     iceberg_start_time := iceberg_start_time o; completion_time := completion_time o;
     min_size_seen := min_size_seen o; execution_percentage := execution_percentage o |}.

Definition set_price_changes (v : Z) (o : IcebergOrder) : IcebergOrder :=
  {| order_id := order_id o; trader_id := trader_id o; initial_size := initial_size o;
     current_size := current_size o; max_visible_size := max_visible_size o;
     is_bid := is_bid o; timestamp := timestamp o; last_update := last_update o;
     last_reported_filled := last_reported_filled o; price_history := price_history o;
     current_price := current_price o; price_changes := v;
     total_filled := total_filled o; active_filled := active_filled o;
     passive_filled := passive_filled o; refill_count := refill_count o;
     size_decrease_count := size_decrease_count o; replace_events := replace_events o;
     is_confirmed_iceberg := is_confirmed_iceberg o;
     iceberg_start_time := iceberg_start_time o; completion_time := completion_time o;
     min_size_seen := min_size_seen o; execution_percentage := execution_percentage o |}.

Definition set_total_filled (v : Q) (o : IcebergOrder) : IcebergOrder :=
  {| order_id := order_id o; trader_id := trader_id o; initial_size := initial_size o;
     current_size := current_size o; max_visible_size := max_visible_size o;
     is_bid := is_bid o; timestamp := timestamp o; last_update := last_update o;
     last_reported_filled := last_reported_filled o; price_history := price_history o;
     current_price := current_price o; price_changes := price_changes o;
     total_filled := v; active_filled := active_filled o;
     passive_filled := passive_filled o; refill_count := refill_count o;
     size_decrease_count := size_decrease_count o; replace_events := replace_events o;
     is_confirmed_iceberg := is_confirmed_iceberg o;
     iceberg_start_time := iceberg_start_time o; completion_time := completion_time o;
     min_size_seen := min_size_seen o; execution_percentage := execution_percentage o |}.

Definition set_active_filled (v : Q) (o : IcebergOrder) : IcebergOrder :=
  {| order_id := order_id o; trader_id := trader_id o; initial_size := initial_size o;
     current_size := current_size o; max_visible_size := max_visible_size o;
     is_bid := is_bid o; timestamp := timestamp o; last_update := last_update o;
     last_reported_filled := last_reported_filled o; price_history := price_history o;
     current_price := current_price o; price_changes := price_changes o;
     total_filled := total_filled o; active_filled := v;
     passive_filled := passive_filled o; refill_count := refill_count o;
     size_decrease_count := size_decrease_count o; replace_events := replace_events o;
     is_confirmed_iceberg := is_confirmed_iceberg o;
     iceberg_start_time := iceberg_start_time o; completion_time := completion_time o;
     min_size_seen := min_size_seen o; execution_percentage := execution_percentage o |}.

Definition set_passive_filled (v : Q) (o : IcebergOrder) : IcebergOrder :=
  {| order_id := order_id o; trader_id := trader_id o; initial_size := initial_size o;
     current_size := current_size o; max_visible_size := max_visible_size o;
     is_bid := is_bid o; timestamp := timestamp o; last_update := last_update o;
     last_reported_filled := last_reported_filled o; price_history := price_history o;
     current_price := current_price o; price_changes := price_changes o;
     total_filled := total_filled o; active_filled := active_filled o;
     passive_filled := v; refill_count := refill_count o;
     size_decrease_count := size_decrease_count o; replace_events := replace_events o;
     is_confirmed_iceberg := is_confirmed_iceberg o;
     iceberg_start_time := iceberg_start_time o; completion_time := completion_time o;
     min_size_seen := min_size_seen o; execution_percentage := execution_percentage o |}.

Definition set_refill_count (v : Z) (o : IcebergOrder) : IcebergOrder :=
  {| order_id := order_id o; trader_id := trader_id o; initial_size := initial_size o;
     current_size := current_size o; max_visible_size := max_visible_size o;
     is_bid := is_bid o; timestamp := timestamp o; last_update := last_update o;
     last_reported_filled := last_reported_filled o; price_history := price_history o;
     current_price := current_price o; price_changes := price_changes o;
     total_filled := total_filled o; active_filled := active_filled o;
     passive_filled := passive_filled o; refill_count := v;
     size_decrease_count := size_decrease_count o; replace_events := replace_events o;
     is_confirmed_iceberg := is_confirmed_iceberg o;
     iceberg_start_time := iceberg_start_time o; completion_time := completion_time o;
     min_size_seen := min_size_seen o; execution_percentage := execution_percentage o |}.

Definition set_size_decrease_count (v : Z) (o : IcebergOrder) : IcebergOrder :=
  {| order_id := order_id o; trader_id := trader_id o; initial_size := initial_size o;
     current_size := current_size o; max_visible_size := max_visible_size o;
     is_bid := is_bid o; timestamp := timestamp o; last_update := last_update o;
     last_reported_filled := last_reported_filled o; price_history := price_history o;
     current_price := current_price o; price_changes := price_changes o;
     total_filled := total_filled o; active_filled := active_filled o;
     passive_filled := passive_filled o; refill_count := refill_count o;
     size_decrease_count := v; replace_events := replace_events o;
     is_confirmed_iceberg := is_confirmed_iceberg o;
     iceberg_start_time := iceberg_start_time o; completion_time := completion_time o;
     min_size_seen := min_size_seen o; execution_percentage := execution_percentage o |}.

Definition set_replace_events (v : list ReplaceEvent) (o : IcebergOrder) : IcebergOrder :=
  {| order_id := order_id o; trader_id := trader_id o; initial_size := initial_size o;
     current_size := current_size o; max_visible_size := max_visible_size o;
     is_bid := is_bid o; timestamp := timestamp o; last_update := last_update o;
     last_reported_filled := last_reported_filled o; price_history := price_history o;
     current_price := current_price o; price_changes := price_changes o;
     total_filled := total_filled o; active_filled := active_filled o;
     passive_filled := passive_filled o; refill_count := refill_count o;
     size_decrease_count := size_decrease_count o; replace_events := v;
     is_confirmed_iceberg := is_confirmed_iceberg o;
     iceberg_start_time := iceberg_start_time o; completion_time := completion_time o;
     min_size_seen := min_size_seen o; execution_percentage := execution_percentage o |}.

Definition set_min_size_seen (v : Q) (o : IcebergOrder) : IcebergOrder :=
  {| order_id := order_id o; trader_id := trader_id o; initial_size := initial_size o;
     current_size := current_size o; max_visible_size := max_visible_size o;
     is_bid := is_bid o; timestamp := timestamp o; last_update := last_update o;
     last_reported_filled := last_reported_filled o; price_history := price_history o;
     current_price := current_price o; price_changes := price_changes o;
     total_filled := total_filled o; active_filled := active_filled o;
     passive_filled := passive_filled o; refill_count := refill_count o;
     size_decrease_count := size_decrease_count o; replace_events := replace_events o;
     is_confirmed_iceberg := is_confirmed_iceberg o;
     iceberg_start_time := iceberg_start_time o; completion_time := completion_time o;
     min_size_seen := v; execution_percentage := execution_percentage o |}.

Definition set_execution_percentage (v : Q) (o : IcebergOrder) : IcebergOrder :=
  {| order_id := order_id o; trader_id := trader_id o; initial_size := initial_size o;
     current_size := current_size o; max_visible_size := max_visible_size o;
     is_bid := is_bid o; timestamp := timestamp o; last_update := last_update o;
     last_reported_filled := last_reported_filled o; price_history := price_history o;
     current_price := current_price o; price_changes := price_changes o;
     total_filled := total_filled o; active_filled := active_filled o;
     passive_filled := passive_filled o; refill_count := refill_count o;
     size_decrease_count := size_decrease_count o; replace_events := replace_events o;
     is_confirmed_iceberg := is_confirmed_iceberg o;
     iceberg_start_time := iceberg_start_time o; completion_time := completion_time o;
     min_size_seen := min_size_seen o; execution_percentage := v |}.

Definition set_last_reported_filled (v : Q) (o : IcebergOrder) : IcebergOrder :=
  {| order_id := order_id o; trader_id := trader_id o; initial_size := initial_size o;
     current_size := current_size o; max_visible_size := max_visible_size o;
     is_bid := is_bid o; timestamp := timestamp o; last_update := last_update o;
     last_reported_filled := v; price_history := price_history o;
     current_price := current_price o; price_changes := price_changes o;
     total_filled := total_filled o; active_filled := active_filled o;
     passive_filled := passive_filled o; refill_count := refill_count o;
     size_decrease_count := size_decrease_count o; replace_events := replace_events o;
     is_confirmed_iceberg := is_confirmed_iceberg o;
     iceberg_start_time := iceberg_start_time o; completion_time := completion_time o;
     min_size_seen := min_size_seen o; execution_percentage := execution_percentage o |}.

Definition set_is_confirmed_iceberg (v : bool) (o : IcebergOrder) : IcebergOrder :=
  {| order_id := order_id o; trader_id := trader_id o; initial_size := initial_size o;
     current_size := current_size o; max_visible_size := max_visible_size o;
     is_bid := is_bid o; timestamp := timestamp o; last_update := last_update o;
     last_reported_filled := last_reported_filled o; price_history := price_history o;
     current_price := current_price o; price_changes := price_changes o;
     total_filled := total_filled o; active_filled := active_filled o;
     passive_filled := passive_filled o; refill_count := refill_count o;
     size_decrease_count := size_decrease_count o; replace_events := replace_events o;
     is_confirmed_iceberg := v; iceberg_start_time := iceberg_start_time o;
     completion_time := completion_time o; min_size_seen := min_size_seen o;
     execution_percentage := execution_percentage o |}.

Definition set_iceberg_start_time (v : option Q) (o : IcebergOrder) : IcebergOrder :=
  {| order_id := order_id o; trader_id := trader_id o; initial_size := initial_size o;
     current_size := current_size o; max_visible_size := max_visible_size o;
     is_bid := is_bid o; timestamp := timestamp o; last_update := last_update o;
     last_reported_filled := last_reported_filled o; price_history := price_history o;
     current_price := current_price o; price_changes := price_changes o;
     total_filled := total_filled o; active_filled := active_filled o;
     passive_filled := passive_filled o; refill_count := refill_count o;
     size_decrease_count := size_decrease_count o; replace_events := replace_events o;
     is_confirmed_iceberg := is_confirmed_iceberg o; iceberg_start_time := v;
     completion_time := completion_time o; min_size_seen := min_size_seen o;
     execution_percentage := execution_percentage o |}.

Definition set_completion_time (v : option Q) (o : IcebergOrder) : IcebergOrder :=
  {| order_id := order_id o; trader_id := trader_id o; initial_size := initial_size o;
     current_size := current_size o; max_visible_size := max_visible_size o;
     is_bid := is_bid o; timestamp := timestamp o; last_update := last_update o;
     last_reported_filled := last_reported_filled o; price_history := price_history o;
     current_price := current_price o; price_changes := price_changes o;
     total_filled := total_filled o; active_filled := active_filled o;
     passive_filled := passive_filled o; refill_count := refill_count o;
     size_decrease_count := size_decrease_count o; replace_events := replace_events o;
     is_confirmed_iceberg := is_confirmed_iceberg o;
     iceberg_start_time := iceberg_start_time o; completion_time := v;
     min_size_seen := min_size_seen o; execution_percentage := execution_percentage o |}.

(** [IcebergOrder.__init__] *)
Definition IcebergOrder_init (order_id : string) (price initial_size : Q) (is_bid : bool)
    (timestamp : Q) (trader_id : option string) : IcebergOrder :=
  {| order_id := order_id; trader_id := trader_id; initial_size := initial_size;
     current_size := initial_size; max_visible_size := initial_size; is_bid := is_bid;
     timestamp := timestamp; last_update := timestamp; last_reported_filled := 0;
     price_history := price :: nil; current_price := price; price_changes := 0%Z;
     total_filled := 0; active_filled := 0; passive_filled := 0; refill_count := 0%Z;
     size_decrease_count := 0%Z; replace_events := nil; is_confirmed_iceberg := false;
     iceberg_start_time := None; completion_time := None; min_size_seen := initial_size;
     execution_percentage := 0 |}.

(** [IcebergOrder.add_replace_event] *)
Definition add_replace_event (new_size timestamp : Q) (new_price : option Q)
    (self : IcebergOrder) : IcebergOrder :=
  let old_size := current_size self in
  let old_price := current_price self in
  let size_change := new_size - old_size in
  let self :=
    match new_price with
    | Some p =>
        if negb (Py.eqb p old_price) then
          let self := set_current_price p self in
          let self :=
            if negb (Py.mem p (price_history self))
            then set_price_history (price_history self ++ p :: nil) self
            else self in
          set_price_changes (price_changes self + 1)%Z self
        else self
    | None => self
    end in
  let self := set_replace_events
      (replace_events self ++
       {| re_ts := timestamp; re_old_s := old_size; re_new_s := new_size;
          re_old_p := old_price; re_new_p := new_price |} :: nil) self in
  let self :=
    if Py.ltb size_change 0
    then set_size_decrease_count (size_decrease_count self + 1)%Z self
    else self in
  let self :=
    if Py.ltb new_size (min_size_seen self) then set_min_size_seen new_size self else self in
  let self :=
    if Py.ltb (max_visible_size self) new_size then set_max_visible_size new_size self
    else self in
  let self :=
    if Py.ltb 0 size_change && Py.ltb old_size (initial_size self)
    then set_refill_count (refill_count self + 1)%Z self
    else self in
  let self := set_current_size new_size self in
  set_last_update timestamp self.

(** [IcebergOrder.add_execution]; [is_active = False] is the default. *)
Definition add_execution (filled_size timestamp : Q) (is_active : bool)
    (self : IcebergOrder) : IcebergOrder :=
  let self :=
    if is_active then set_active_filled (active_filled self + filled_size) self
    else set_passive_filled (passive_filled self + filled_size) self in
  let self := set_total_filled (total_filled self + filled_size) self in
  let self := set_last_update timestamp self in
  let est_total :=
    Py.max (total_filled self + current_size self) (max_visible_size self) in
  if Py.ltb 0 est_total
  then set_execution_percentage (total_filled self / est_total) self
  else self.

(** [IcebergOrder.get_execution_ratio] *)
Definition get_execution_ratio (self : IcebergOrder) : Q :=
  if Py.ltb 0 (max_visible_size self)
  then total_filled self / max_visible_size self
  else 0.

(** [IcebergOrder.get_iceberg_score] *)
Definition get_iceberg_score (self : IcebergOrder) : Q :=
  let score := 0 in
  let score :=
    if Py.ltb 0 (max_visible_size self)
       && Py.ltb 0.3 (min_size_seen self / max_visible_size self)
    then score + 0.3 else score in
  let score :=
    if (2 <=? refill_count self)%Z
    then score + Py.min 0.4 (inject_Z (refill_count self) * 0.1)
    else score in
  let exec_ratio := get_execution_ratio self in
  let score :=
    if Py.ltb 1.5 exec_ratio then score + Py.min 0.3 (exec_ratio * 0.1) else score in
  Py.min score 1.

(** *** class RealMBOIcebergDetector

    As for the other file, the detector is a record passed through its
    methods, [time.time()] is the argument [now], and the calls to
    [_send_notification] are returned as a list of messages, each with the
    state of the order at the call.  [confirmed_icebergs] maps an identifier
    to the order object that [active_orders] holds as well; its keys are
    kept. *)

Inductive Topic : Type := detections | updates | full_executions.

Record Notification : Type := {
  topic : Topic;
  subject : IcebergOrder;
  reason : string
}.

Record RealMBOIcebergDetector : Type := {
  alias : string;
  size_multiplier : Q;
  pips : Q;
  active_orders : gmap string IcebergOrder;
  confirmed_icebergs : gset string;
  orders_by_price : list (Q * list string);
  best_bid : option Q;
  best_ask : option Q
}.

Definition set_active_orders (v : gmap string IcebergOrder) (o : RealMBOIcebergDetector)
    : RealMBOIcebergDetector :=
  {| alias := alias o; size_multiplier := size_multiplier o; pips := pips o;
     active_orders := v; confirmed_icebergs := confirmed_icebergs o;
     orders_by_price := orders_by_price o; best_bid := best_bid o; best_ask := best_ask o |}.

Definition set_confirmed_icebergs (v : gset string) (o : RealMBOIcebergDetector)
    : RealMBOIcebergDetector :=
  {| alias := alias o; size_multiplier := size_multiplier o; pips := pips o;
     active_orders := active_orders o; confirmed_icebergs := v;
     orders_by_price := orders_by_price o; best_bid := best_bid o; best_ask := best_ask o |}.

Definition set_orders_by_price (v : list (Q * list string)) (o : RealMBOIcebergDetector)
    : RealMBOIcebergDetector :=
  {| alias := alias o; size_multiplier := size_multiplier o; pips := pips o;
     active_orders := active_orders o; confirmed_icebergs := confirmed_icebergs o;
     orders_by_price := v; best_bid := best_bid o; best_ask := best_ask o |}.

Definition set_best_bid (v : option Q) (o : RealMBOIcebergDetector)
    : RealMBOIcebergDetector :=
  {| alias := alias o; size_multiplier := size_multiplier o; pips := pips o;
     active_orders := active_orders o; confirmed_icebergs := confirmed_icebergs o;
     orders_by_price := orders_by_price o; best_bid := v; best_ask := best_ask o |}.

Definition set_best_ask (v : option Q) (o : RealMBOIcebergDetector)
    : RealMBOIcebergDetector :=
  {| alias := alias o; size_multiplier := size_multiplier o; pips := pips o;
     active_orders := active_orders o; confirmed_icebergs := confirmed_icebergs o;
     orders_by_price := orders_by_price o; best_bid := best_bid o; best_ask := v |}.

Definition alert_execution_ratio_threshold : Q := 40.
Definition alert_total_filled_threshold : Q := 80.

(** [RealMBOIcebergDetector.__init__] *)
Definition RealMBOIcebergDetector_init (alias : string) (size_multiplier pips : Q)
    : RealMBOIcebergDetector :=
  {| alias := alias; size_multiplier := size_multiplier; pips := pips;
     active_orders := ∅; confirmed_icebergs := ∅; orders_by_price := nil;
     best_bid := None; best_ask := None |}.

(** [RealMBOIcebergDetector.update_depth] *)
Definition update_depth (is_bid : bool) (price size : Q) (self : RealMBOIcebergDetector)
    : RealMBOIcebergDetector :=
  if is_bid then set_best_bid (Some price) self else set_best_ask (Some price) self.

(** The guarded removal of this file:
    [if price in d and order_id in d[price]: d[price].remove(order_id)];
    a level that becomes empty stays in the dictionary. *)
Definition level_discard (price : Q) (order_id : string) (m : list (Q * list string))
    : list (Q * list string) :=
  match V2.dict_get price m with
  | Some ids =>
      if V2.list_mem order_id ids
      then V2.dict_set price (V2.list_remove order_id ids) m
      else m
  | None => m
  end.

(** [RealMBOIcebergDetector.process_new_order] *)
Definition process_new_order (order_id : string) (is_bid : bool) (price size : Q)
    (trader_id : option string) (now : Q) (self : RealMBOIcebergDetector)
    : RealMBOIcebergDetector :=
  let actual_size := V2.normalize_size (size_multiplier self) size in
  let order := IcebergOrder_init order_id price actual_size is_bid now trader_id in
  let self := set_active_orders (<[order_id := order]> (active_orders self)) self in
  set_orders_by_price (V2.level_append price order_id (orders_by_price self)) self.

(** [RealMBOIcebergDetector._analyze_iceberg]; the order worked on is carried
    next to the detector, as in the other file. *)
Definition _analyze_iceberg (order : IcebergOrder) (now : Q) (self : RealMBOIcebergDetector)
    : RealMBOIcebergDetector * IcebergOrder * list Notification :=
  if is_confirmed_iceberg order then (self, order, nil)
  else
    let ratio := get_execution_ratio order in
    if Py.leb alert_execution_ratio_threshold ratio
       || Py.leb alert_total_filled_threshold (total_filled order)
    then
      let order := set_is_confirmed_iceberg true order in
      let order := set_iceberg_start_time (Some now) order in
      let order := set_last_reported_filled (total_filled order) order in
      let self :=
        set_confirmed_icebergs ({[order_id order]} ∪ confirmed_icebergs self) self in
      (self, order,
       {| topic := detections; subject := order; reason := "Initial V3 Detection" |} :: nil)
    else (self, order, nil).

(** [RealMBOIcebergDetector.process_replace_order] *)
Definition process_replace_order (order_id : string) (price size now : Q)
    (self : RealMBOIcebergDetector) : RealMBOIcebergDetector * list Notification :=
  match active_orders self !! order_id with
  | None => (self, nil)
  | Some order =>
      let actual_size := V2.normalize_size (size_multiplier self) size in
      let self :=
        if negb (Py.eqb price (current_price order)) then
          let self :=
            set_orders_by_price
              (level_discard (current_price order) order_id (orders_by_price self)) self in
          set_orders_by_price (V2.level_append price order_id (orders_by_price self)) self
        else self in
      let order := add_replace_event actual_size now (Some price) order in
      let '(self, order, out) := _analyze_iceberg order now self in
      (set_active_orders (<[order_id := order]> (active_orders self)) self, out)
  end.

(** [RealMBOIcebergDetector.process_order_execution]; the message shows the
    order before [last_reported_filled] is brought up to date. *)
Definition process_order_execution (order_id : string) (executed_size : Q)
    (is_active : bool) (now : Q) (self : RealMBOIcebergDetector)
    : RealMBOIcebergDetector * list Notification :=
  match active_orders self !! order_id with
  | None => (self, nil)
  | Some order =>
      let order := add_execution executed_size now is_active order in
      let '(order, out) :=
        if is_confirmed_iceberg order then
          if Py.leb 25 (total_filled order - last_reported_filled order) then
            (set_last_reported_filled (total_filled order) order,
             {| topic := updates; subject := order; reason := "Execution Update" |} :: nil)
          else (order, nil)
        else (order, nil) in
      (set_active_orders (<[order_id := order]> (active_orders self)) self, out)
  end.

(** [RealMBOIcebergDetector.process_cancel_order]; [confirmed_icebergs] is
    not touched. *)
Definition process_cancel_order (order_id : string) (now : Q)
    (self : RealMBOIcebergDetector) : RealMBOIcebergDetector * list Notification :=
  match active_orders self !! order_id with
  | None => (self, nil)
  | Some order =>
      let '(order, out) :=
        if is_confirmed_iceberg order then
          let order := set_completion_time (Some now) order in
          (order,
           {| topic := full_executions; subject := order; reason := "Full Execution" |}
           :: nil)
        else (order, nil) in
      let self :=
        set_orders_by_price
          (fold_left (fun m p => level_discard p order_id m) (price_history order)
             (orders_by_price self)) self in
      (set_active_orders (delete order_id (active_orders self)) self, out)
  end.

(** One [if order_id in detector.active_orders:
    detector.process_order_execution(order_id, actual_size, is_active=...)] of
    [handle_trades]; an identifier that is [None] is in no dictionary. *)
Definition direct_execution (order_id : option string) (actual_size : Q)
    (is_active : bool) (now : Q) (st : RealMBOIcebergDetector * list Notification)
    : RealMBOIcebergDetector * list Notification :=
  let '(detector, out) := st in
  match order_id with
  | Some oid =>
      match active_orders detector !! oid with
      | Some _ =>
          let '(detector, msgs) :=
            process_order_execution oid actual_size is_active now detector in
          (detector, out ++ msgs)
      | None => st
      end
  | None => st
  end.

(** [handle_trades], for the subscribed instrument *)
Definition handle_trades (price size : Q) (is_bid : bool)
    (aggressor_order_id passive_order_id : option string) (now : Q)
    (detector : RealMBOIcebergDetector) : RealMBOIcebergDetector * list Notification :=
  let actual_size := V2.normalize_size (size_multiplier detector) size in
  let st := direct_execution passive_order_id actual_size false now (detector, nil) in
  direct_execution aggressor_order_id actual_size true now st.

(** [handle_mbo_event]; of the two event types that reach
    [process_new_order], ["BID" in event_type] holds of ["BID_NEW"] only. *)
Definition handle_mbo_event (event_type order_id : string) (price size : Q)
    (trader_id : option string) (now : Q) (detector : RealMBOIcebergDetector)
    : RealMBOIcebergDetector * list Notification :=
  if String.eqb event_type "ASK_NEW" || String.eqb event_type "BID_NEW" then
    (process_new_order order_id (String.eqb event_type "BID_NEW") price size trader_id
       now detector, nil)
  else if String.eqb event_type "REPLACE" then
    process_replace_order order_id price size now detector
  else if String.eqb event_type "CANCEL" then
    process_cancel_order order_id now detector
  else (detector, nil).

(** The two callbacks that [main] registers. *)
Inductive Event : Type :=
  | MboEvent (event_type order_id : string) (price size : Q) (trader_id : option string)
  | TradeEvent (price size : Q) (is_bid : bool)
      (aggressor_order_id passive_order_id : option string).

Definition handle (now : Q) (ev : Event) (detector : RealMBOIcebergDetector)
    : RealMBOIcebergDetector * list Notification :=
  match ev with
  | MboEvent event_type order_id price size trader_id =>
      handle_mbo_event event_type order_id price size trader_id now detector
  | TradeEvent price size is_bid aggressor_order_id passive_order_id =>
      handle_trades price size is_bid aggressor_order_id passive_order_id now detector
  end.

Fixpoint run (evs : list (Q * Event)) (detector : RealMBOIcebergDetector)
    : RealMBOIcebergDetector * list Notification :=
  match evs with
  | nil => (detector, nil)
  | (now, ev) :: rest =>
      let '(detector, out) := handle now ev detector in
      let '(detector, out') := run rest detector in
      (detector, out ++ out')
  end.

End V3.

(** ** The specification's formulas, as the specification words them *)

Module Spec.

(** Fills recorded after the last replace event of a sequence. *)
Fixpoint fills_since_last_replace (evs : list V2.OrderEvent) : Q :=
  match evs with
  | nil => 0
  | V2.Replace _ _ _ :: rest => fills_since_last_replace rest
  | V2.Execution f _ :: rest =>
      if existsb (fun e => match e with V2.Replace _ _ _ => true | _ => false end) rest
      then fills_since_last_replace rest
      else f + fills_since_last_replace rest
  end.

(** "[current_size] equals [initial_size] plus net of all replace-driven size
    deltas minus all recorded fills since last replace." *)
Definition current_size (o : V2.IcebergOrder) (evs : list V2.OrderEvent) : Q :=
  V2.initial_size o + V2.net_replace_deltas o - fills_since_last_replace evs.

(** "[iceberg_score] = weighted sum, capped at 1.0: +0.3 if [min_size_seen /
    max_visible_size > 0.3]; + up to 0.4 for [refill_count] (0.1 per refill,
    capped); + up to 0.3 for execution ratio above 1.5 (0.1 per unit, capped)." *)
Definition iceberg_score (o : V2.IcebergOrder) : Q :=
  let size_term :=
    if Py.ltb 0 (V2.max_visible_size o)
       && Py.ltb 0.3 (V2.min_size_seen o / V2.max_visible_size o)
    then 0.3 else 0 in
  let refill_term := Py.min 0.4 (inject_Z (V2.refill_count o) * 0.1) in
  let ratio_term :=
    if Py.ltb 1.5 (V2.get_execution_ratio o)
    then Py.min 0.3 (V2.get_execution_ratio o * 0.1) else 0 in
  Py.min (size_term + refill_term + ratio_term) 1.

(** "[percentileOrderSize(p)] sorts a snapshot of the order-size window and
    selects the element at [floor(p/100 * n)] clamped to [[0, n-1]]; returns a
    floor constant if the window is empty." *)
Definition percentile_order_size (p : Q) (window : list Q) : Q :=
  match window with
  | nil => 100
  | _ =>
      let n := Z.of_nat (length window) in
      let i := Z.max 0 (Z.min (Qfloor (p / 100 * inject_Z n)) (n - 1)) in
      nth (Z.to_nat i) (Py.sorted window) 0
  end.

(** Two order objects of the two files in the same state: every attribute
    they share has the same value. *)
Definition same_state (a : V2.IcebergOrder) (b : V3.IcebergOrder) : Prop :=
  V2.order_id a = V3.order_id b /\ V2.trader_id a = V3.trader_id b /\
  V2.initial_size a = V3.initial_size b /\ V2.current_size a = V3.current_size b /\
  V2.max_visible_size a = V3.max_visible_size b /\ V2.is_bid a = V3.is_bid b /\
  V2.timestamp a = V3.timestamp b /\ V2.last_update a = V3.last_update b /\
  V2.last_reported_filled a = V3.last_reported_filled b /\
  V2.price_history a = V3.price_history b /\ V2.current_price a = V3.current_price b /\
  V2.price_changes a = V3.price_changes b /\ V2.total_filled a = V3.total_filled b /\
  V2.refill_count a = V3.refill_count b /\
  V2.size_decrease_count a = V3.size_decrease_count b /\
  V2.is_confirmed_iceberg a = V3.is_confirmed_iceberg b /\
  V2.iceberg_start_time a = V3.iceberg_start_time b /\
  V2.completion_time a = V3.completion_time b /\
  V2.min_size_seen a = V3.min_size_seen b /\
  V2.execution_percentage a = V3.execution_percentage b.

End Spec.

(** ** Notions used in the statements *)

Module Aux.
Import V2.

(** The successive steps of [add_replace_event], named one by one. *)
Definition replace_price (new_price : option Q) (self : IcebergOrder) : IcebergOrder :=
  match new_price with
  | Some p =>
      if negb (Py.eqb p (current_price self)) then
        let self := set_current_price p self in
        let self :=
          if negb (Py.mem p (price_history self))
          then set_price_history (price_history self ++ p :: nil) self
          else self in
        set_price_changes (price_changes self + 1)%Z self
      else self
  | None => self
  end.

Definition replace_log (entry : ReplaceEvent) (self : IcebergOrder) : IcebergOrder :=
  set_replace_events (replace_events self ++ entry :: nil) self.

Definition replace_decrease (size_change timestamp : Q) (self : IcebergOrder)
    : IcebergOrder :=
  if Py.ltb size_change 0 then
    let execution_size := Qabs size_change in
    let self := add_execution execution_size timestamp self in
    set_size_decrease_count (size_decrease_count self + 1)%Z self
  else self.

Definition replace_min (new_size : Q) (self : IcebergOrder) : IcebergOrder :=
  if Py.ltb new_size (min_size_seen self) then set_min_size_seen new_size self else self.

Definition replace_max (new_size : Q) (self : IcebergOrder) : IcebergOrder :=
  if Py.ltb (max_visible_size self) new_size then set_max_visible_size new_size self
  else self.

Definition replace_refill (size_change old_size : Q) (self : IcebergOrder) : IcebergOrder :=
  if Py.ltb 0 size_change && Py.ltb old_size (initial_size self) then
    let self := set_refill_count (refill_count self + 1)%Z self in
    set_consecutive_refills (consecutive_refills self + 1)%Z self
  else set_consecutive_refills 0%Z self.

Definition replace_entry (new_size timestamp : Q) (new_price : option Q)
    (self : IcebergOrder) : ReplaceEvent :=
  {| re_timestamp := timestamp; re_old_size := current_size self;
     re_new_size := new_size; re_size_change := new_size - current_size self;
     re_old_price := current_price self;
     re_new_price :=
       match new_price with
       | Some p => if Py.eqb p 0 then current_price self else p
       | None => current_price self
       end;
     re_price_changed :=
       match new_price with
       | Some p => negb (Py.eqb p (current_price self))
       | None => false
       end |}.

(** Groups of attributes that the steps of a replace keep together. *)
Definition identity_of (o : IcebergOrder) : string * Q * bool * Q :=
  (order_id o, initial_size o, is_confirmed_iceberg o, last_reported_filled o).
Definition prices_of (o : IcebergOrder) : list Q * Q := (price_history o, current_price o).
Definition fills_of (o : IcebergOrder) : Q * Q := (total_filled o, execution_percentage o).
Definition extent_of (o : IcebergOrder) : Q * Q := (current_size o, max_visible_size o).

(** What a replace does to the two price attributes. *)
Definition price_step (p : option Q) (history : list Q) (current : Q) : list Q * Q :=
  match p with
  | Some q =>
      if Py.eqb q current then (history, current)
      else if Py.mem q history then (history, q)
      else (history ++ q :: nil, q)
  | None => (history, current)
  end.

(** The invariant of the two price attributes. *)
Definition prices_ok (history : list Q) (current : Q) : Prop :=
  NoDupA Qeq history /\ InA Qeq current history.

Definition replace_sizes_nonneg (evs : list OrderEvent) : Prop :=
  forall n t p, In (Replace n t p) evs -> 0 <= n.

(** The score of [get_iceberg_score] as a capped sum of three terms; the
    refill term counts only from the second refill on. *)
Definition score_terms (min_size_seen max_visible_size total_filled : Q)
    (refill_count : Z) : Q :=
  let size_term :=
    if Py.ltb 0 max_visible_size && Py.ltb 0.3 (min_size_seen / max_visible_size)
    then 0.3 else 0 in
  let refill_term :=
    if (2 <=? refill_count)%Z then Py.min 0.4 (inject_Z refill_count * 0.1) else 0 in
  let ratio := if Py.ltb 0 max_visible_size then total_filled / max_visible_size else 0 in
  let ratio_term := if Py.ltb 1.5 ratio then Py.min 0.3 (ratio * 0.1) else 0 in
  Py.min (size_term + refill_term + ratio_term) 1.

(** Every order is stored under its own identifier. *)
Definition key_consistent (d : RealMBOIcebergDetector) : Prop :=
  forall k o, active_orders d !! k = Some o -> order_id o = k.

(** From [d] to [d'] no order appeared and none changed its identifier or its
    confirmation flag. *)
Definition flags_kept (d d' : RealMBOIcebergDetector) : Prop :=
  forall k o', active_orders d' !! k = Some o' ->
    exists o, active_orders d !! k = Some o /\ order_id o' = order_id o /\
              is_confirmed_iceberg o' = is_confirmed_iceberg o.

Definition is_detection_for (oid : string) (n : Notification) : bool :=
  match topic n with
  | detections => String.eqb (order_id (subject n)) oid
  | _ => false
  end.

(** Number of detection messages about [oid] in a log. *)
Definition detections_for (oid : string) (out : list Notification) : nat :=
  length (List.filter (is_detection_for oid) out).

(** 1 while [oid] is tracked and not yet confirmed, 0 otherwise. *)
Definition unconfirmed (oid : string) (d : RealMBOIcebergDetector) : nat :=
  match active_orders d !! oid with
  | Some o => if is_confirmed_iceberg o then 0%nat else 1%nat
  | None => 0%nat
  end.

(** The event is a new-order event for [oid]. *)
Definition creates (oid : string) (ev : Event) : bool :=
  match ev with
  | MboEvent event_type order_id _ _ _ =>
      (String.eqb event_type "ASK_NEW" || String.eqb event_type "BID_NEW")
      && String.eqb order_id oid
  | _ => false
  end.

(** The conditions under which a progress message is sent, on the order as
    the message shows it. *)
Definition emission_ok (o : IcebergOrder) : Prop :=
  is_confirmed_iceberg o = true /\
  0.7 <= execution_percentage o /\
  20 <= total_filled o - last_reported_filled o.

(** A message other than a detection; if it is a progress message, it meets
    the sending conditions and its order is tracked and confirmed in [d]. *)
Definition quiet_or_update (d : RealMBOIcebergDetector) (n : Notification) : Prop :=
  topic n <> detections /\
  (topic n = updates ->
   emission_ok (subject n) /\
   exists o, active_orders d !! order_id (subject n) = Some o /\
             is_confirmed_iceberg o = true).

(** Every confirmed tracked order has a detection message in the log. *)
Definition confirmed_were_announced (d : RealMBOIcebergDetector)
    (log : list Notification) : Prop :=
  forall k o, active_orders d !! k = Some o -> is_confirmed_iceberg o = true ->
    exists m, In m log /\ topic m = detections /\ order_id (subject m) = k.

(** A trade's order identifier that names no tracked order. *)
Definition names_no_tracked_order (d : RealMBOIcebergDetector) (x : option string) : Prop :=
  match truthy_id x with
  | Some oid => active_orders d !! oid = None
  | None => True
  end.

(** A step that keeps the flags and sends only such messages. *)
Definition steady (d d' : RealMBOIcebergDetector) (out : list Notification) : Prop :=
  flags_kept d d' /\ Forall (quiet_or_update d) out.

(** State of [_analyze_iceberg_pattern_percentage] on [order] in detector
    [self]: either nothing happened yet, or the order, unconfirmed before, is
    now confirmed and exactly one detection message, showing it, was sent. *)
Definition analysis_ok (self : RealMBOIcebergDetector) (order : IcebergOrder)
    (st : Analysis) : Prop :=
  let '(self', order', out) := st in
  active_orders self' = active_orders self /\
  order_id order' = order_id order /\
  current_size order' = current_size order /\
  ((out = nil /\ order' = order) \/
   (is_confirmed_iceberg order = false /\ is_confirmed_iceberg order' = true /\
    exists why, out = {| topic := detections; subject := order'; reason := Some why |} :: nil)).

(** The four facts carried along a stream, for one callback. *)
Definition step_ok (ev : Event) (d d' : RealMBOIcebergDetector) (out : list Notification)
    : Prop :=
  key_consistent d' /\
  (forall oid, creates oid ev = false ->
     (detections_for oid out + unconfirmed oid d' <= unconfirmed oid d)%nat) /\
  (forall log, confirmed_were_announced d log -> confirmed_were_announced d' (log ++ out)) /\
  (forall n, In n out -> topic n = updates ->
     emission_ok (subject n) /\
     exists o, active_orders d !! order_id (subject n) = Some o /\
               is_confirmed_iceberg o = true).

(** No event of the stream is a new-order event for [oid]. *)
Definition never_creates (oid : string) (evs : list (Q * Event)) : bool :=
  forallb (fun x => negb (creates oid (snd x))) evs.

(** Further groups of attributes followed through a replace. *)
Definition bounds_of (o : IcebergOrder) : Q * Q := (min_size_seen o, max_visible_size o).
Definition counters_of (o : IcebergOrder) : Z * Z * Z :=
  (refill_count o, size_decrease_count o, price_changes o).

(** The sizes and fills carried by a sequence of order events are not
    negative. *)
Definition sizes_nonneg (evs : list OrderEvent) : Prop :=
  forall ev, In ev evs ->
    match ev with
    | Replace n _ _ => 0 <= n
    | Execution f _ => 0 <= f
    end.

Definition count_replaces (evs : list OrderEvent) : nat :=
  length (List.filter (fun ev => match ev with Replace _ _ _ => true | _ => false end) evs).

Definition count_executions (evs : list OrderEvent) : nat :=
  length (List.filter (fun ev => match ev with Execution _ _ => true | _ => false end) evs).

(** What non-negative inputs keep true of the fill accounting. *)
Definition fills_sound (o : IcebergOrder) : Prop :=
  0 <= current_size o /\ 0 <= total_filled o /\ 0 <= execution_percentage o <= 1.

(** Counters and log lengths of an order, as integers. *)
Definition tallies_of (o : IcebergOrder) : Z * Z * Z * Z * Z * Z :=
  (refill_count o, size_decrease_count o, price_changes o,
   Z.of_nat (length (replace_events o)), Z.of_nat (length (execution_events o)),
   Z.of_nat (length (price_history o))).

(** The bookkeeping kept by the counters and logs of an order after
    [replaces] replace events and [executions] execution events. *)
Definition tallies_sound (replaces executions : Z) (o : IcebergOrder) : Prop :=
  Z.of_nat (length (replace_events o)) = replaces /\
  Z.of_nat (length (execution_events o)) = (executions + size_decrease_count o)%Z /\
  (0 <= refill_count o)%Z /\ (0 <= size_decrease_count o)%Z /\
  (refill_count o + size_decrease_count o <= replaces)%Z /\
  (0 <= price_changes o <= replaces)%Z /\
  (1 <= Z.of_nat (length (price_history o)) <= 1 + price_changes o)%Z.

(** The calls that feed a [MarketMetrics] object. *)
Inductive MetricsCall : Type :=
  | AddOrder (size now : Q)
  | AddTrade (size now : Q)
  | AddVolumeSample (volume : Q).

Definition apply_call (c : MetricsCall) (m : MarketMetrics) : MarketMetrics :=
  match c with
  | AddOrder size now => add_order size now m
  | AddTrade size now => add_trade_size size now m
  | AddVolumeSample volume => add_volume_sample volume m
  end.

Definition apply_calls (cs : list MetricsCall) (m : MarketMetrics) : MarketMetrics :=
  fold_left (fun m c => apply_call c m) cs m.

(** The cached aggregates of a [MarketMetrics] object. *)
Definition cached_of (m : MarketMetrics) : Q * Q * Q * Q :=
  (_avg_order_size m, _avg_trade_size m, _volume_rate m, _last_update m).

(** The windows and settings of a [MarketMetrics] object. *)
Definition windows_of (m : MarketMetrics)
    : nat * list Q * list Q * list Q * list Q * Q :=
  (window_size m, order_sizes m, trade_sizes m, volume_history m, timestamp_history m,
   _update_interval m).

(** What the windows of a metrics object satisfy at all times. *)
Definition windows_bounded (m : MarketMetrics) : Prop :=
  (length (order_sizes m) <= window_size m)%nat /\
  (length (trade_sizes m) <= window_size m)%nat /\
  (length (volume_history m) <= volume_history_maxlen)%nat /\
  length (timestamp_history m) = length (order_sizes m).

(** Everything in a detector but the tracked orders, the market metrics, the
    trade window and the volume sampling. *)
Definition registers_of (d : RealMBOIcebergDetector) :=
  (potential_icebergs d, confirmed_icebergs d, completed_icebergs d, orders_by_price d,
   (best_bid d, best_ask d), (order_book_bids d, order_book_asks d),
   (total_icebergs_detected d, total_icebergs_completed d),
   (alias d, size_multiplier d, pips d)).

(** An order with its fill accounting blanked: [total_filled], the execution
    log, [execution_percentage], [last_update] and [last_reported_filled]. *)
Definition unfilled (o : IcebergOrder) : IcebergOrder :=
  set_last_reported_filled 0
    (set_last_update 0
       (set_execution_percentage 0 (set_execution_events nil (set_total_filled 0 o)))).

(** From [d] to [d'] only fill accounting moved: the same orders are tracked,
    each unchanged outside its fill accounting, the registers are the same,
    and the messages sent are progress messages. *)
Definition only_fills_moved (d d' : RealMBOIcebergDetector) (out : list Notification)
    : Prop :=
  registers_of d' = registers_of d /\
  (forall k, unfilled <$> active_orders d' !! k = unfilled <$> active_orders d !! k) /\
  Forall (fun n => topic n = updates) out.

(** The registers of a detector agree with its tracked orders. *)
Definition registry_sound (d : RealMBOIcebergDetector) : Prop :=
  key_consistent d /\
  potential_icebergs d ⊆ dom (active_orders d) /\
  confirmed_icebergs d ⊆ dom (active_orders d) /\
  (forall k o, active_orders d !! k = Some o -> is_confirmed_iceberg o = true ->
               k ∈ confirmed_icebergs d).

Definition topic_eqb (a b : Topic) : bool :=
  match a, b with
  | detections, detections | updates, updates | full_executions, full_executions => true
  | _, _ => false
  end.

(** Number of messages sent to one topic. *)
Definition count_topic (t : Topic) (out : list Notification) : nat :=
  length (List.filter (fun n => topic_eqb (topic n) t) out).

(** What one callback does to the two counters of a detector. *)
Definition counters_follow (d d' : RealMBOIcebergDetector) (out : list Notification)
    : Prop :=
  total_icebergs_detected d'
  = (total_icebergs_detected d + Z.of_nat (count_topic detections out))%Z /\
  total_icebergs_completed d'
  = (total_icebergs_completed d + Z.of_nat (count_topic full_executions out))%Z.

(** The registers during [_analyze_iceberg_pattern_percentage]: untouched
    until the one confirmation, which registers the order and counts it. *)
Definition analysis_counts (self : RealMBOIcebergDetector) (order : IcebergOrder)
    (st : Analysis) : Prop :=
  let '(self', order', out) := st in
  potential_icebergs self' = potential_icebergs self /\
  completed_icebergs self' = completed_icebergs self /\
  total_icebergs_completed self' = total_icebergs_completed self /\
  orders_by_price self' = orders_by_price self /\
  ((out = nil /\ confirmed_icebergs self' = confirmed_icebergs self /\
    total_icebergs_detected self' = total_icebergs_detected self) \/
   (length out = 1%nat /\ count_topic detections out = 1%nat /\
    count_topic full_executions out = 0%nat /\
    confirmed_icebergs self' = {[order_id order]} ∪ confirmed_icebergs self /\
    total_icebergs_detected self' = (total_icebergs_detected self + 1)%Z)).

(** [order_id] is in the list that the price index holds for [price]. *)
Definition listed_at (price : Q) (order_id : string) (m : list (Q * list string))
    : Prop :=
  exists ids, dict_get price m = Some ids /\ In order_id ids.

Definition levels_nonempty (m : list (Q * list string)) : Prop :=
  Forall (fun kv => snd kv <> nil) m.

(** The price index serves the tracked orders: each is listed at its current
    price, and no level is left empty. *)
Definition index_sound (d : RealMBOIcebergDetector) : Prop :=
  (forall k o, active_orders d !! k = Some o ->
     listed_at (current_price o) k (orders_by_price d)) /\
  levels_nonempty (orders_by_price d).

(** From index [m] to [m'] the listings of every order but [oid] are kept. *)
Definition others_kept (oid : string) (m m' : list (Q * list string)) : Prop :=
  (forall q j, j <> oid -> listed_at q j m -> listed_at q j m') /\
  (levels_nonempty m -> levels_nonempty m').

(** *** The detector of [icev3.py] *)

(** What holds of an order tracked under key [k]. *)
Definition v3_order_ok (k : string) (o : V3.IcebergOrder) : Prop :=
  V3.order_id o = k /\
  V3.min_size_seen o <= V3.current_size o <= V3.max_visible_size o.

Definition v3_sound (d : V3.RealMBOIcebergDetector) : Prop :=
  forall k o, V3.active_orders d !! k = Some o ->
    v3_order_ok k o /\
    (V3.is_confirmed_iceberg o = true -> k ∈ V3.confirmed_icebergs d) /\
    listed_at (V3.current_price o) k (V3.orders_by_price d).

(** What a message sent at clock reading [now] shows. *)
Definition v3_message_ok (now : Q) (n : V3.Notification) : Prop :=
  V3.is_confirmed_iceberg (V3.subject n) = true /\
  match V3.topic n with
  | V3.detections =>
      V3.last_reported_filled (V3.subject n) = V3.total_filled (V3.subject n) /\
      V3.iceberg_start_time (V3.subject n) = Some now /\
      (40 <= V3.get_execution_ratio (V3.subject n) \/ 80 <= V3.total_filled (V3.subject n))
  | V3.updates =>
      25 <= V3.total_filled (V3.subject n) - V3.last_reported_filled (V3.subject n)
  | V3.full_executions => V3.completion_time (V3.subject n) = Some now
  end.

(** The topics a callback may write to. *)
Definition v3_topic_allowed (ev : V3.Event) (t : V3.Topic) : bool :=
  match ev, t with
  | V3.MboEvent event_type _ _ _ _, V3.detections => String.eqb event_type "REPLACE"
  | V3.MboEvent event_type _ _ _ _, V3.full_executions => String.eqb event_type "CANCEL"
  | V3.MboEvent _ _ _ _ _, V3.updates => false
  | V3.TradeEvent _ _ _ _ _, V3.updates => true
  | V3.TradeEvent _ _ _ _ _, _ => false
  end.

(** The attributes that the confirmation flag and the report marks do not
    touch. *)
Definition v3_core (o : V3.IcebergOrder) :=
  (V3.order_id o, (V3.total_filled o, V3.active_filled o, V3.passive_filled o),
   (V3.min_size_seen o, V3.current_size o, V3.max_visible_size o), V3.current_price o).

(** One callback of [icev3.py]: the tracked orders stay sound, no identifier
    leaves [confirmed_icebergs], and every message is justified and goes to a
    topic the callback may write to. *)
Definition v3_step_ok (now : Q) (ev : V3.Event) (d d' : V3.RealMBOIcebergDetector)
    (out : list V3.Notification) : Prop :=
  (v3_sound d -> v3_sound d') /\
  V3.confirmed_icebergs d ⊆ V3.confirmed_icebergs d' /\
  Forall (fun n => v3_message_ok now n /\ v3_topic_allowed ev (V3.topic n) = true) out.

(** The visible size after the replace events of a sequence that starts at
    visible size [size]. *)
Fixpoint last_replace_size (size : Q) (evs : list OrderEvent) : Q :=
  match evs with
  | nil => size
  | Replace new_size _ _ :: rest => last_replace_size new_size rest
  | Execution _ _ :: rest => last_replace_size size rest
  end.

(** The changes of the visible size made by the replace events, one after
    the other, as exact numbers. *)
Fixpoint replace_deltas (size : Q) (evs : list OrderEvent) : list Q :=
  match evs with
  | nil => nil
  | Replace new_size _ _ :: rest => (new_size - size) :: replace_deltas new_size rest
  | Execution _ _ :: rest => replace_deltas size rest
  end.

(** The replace events of a sequence: clock reading, visible size before,
    visible size after. *)
Fixpoint replace_calls (size : Q) (evs : list OrderEvent) : list (Q * Q * Q) :=
  match evs with
  | nil => nil
  | Replace new_size timestamp _ :: rest =>
      (timestamp, size, new_size) :: replace_calls new_size rest
  | Execution _ _ :: rest => replace_calls size rest
  end.

End Aux.
Import Aux.

(** ** A concrete stream, used to exercise the statements *)

Module Scenario.
Import V2.

Definition fresh : RealMBOIcebergDetector := RealMBOIcebergDetector_init "XAUUSD" 1 0.01 0.

(** A sell order of size 40 at price 100 ... *)
Definition creation : list (Q * Event) :=
  (10, MboEvent "ASK_NEW" "A" 100 40 None) :: nil.

(** ... that drops to 10 and is refilled to 40, three times over ... *)
Definition refills : list (Q * Event) :=
  (11, MboEvent "REPLACE" "A" 100 10 None) ::
  (12, MboEvent "REPLACE" "A" 100 40 None) ::
  (13, MboEvent "REPLACE" "A" 100 10 None) ::
  (14, MboEvent "REPLACE" "A" 100 40 None) ::
  (15, MboEvent "REPLACE" "A" 100 10 None) :: nil.

(** ... and then takes a buy trade of 20 that names it as the passive side. *)
Definition trade : list (Q * Event) :=
  (16, TradeEvent 100 20 true None (Some "A")) :: nil.

(** The identifier of the order is used again for a new order, which goes
    through the same refills. *)
Definition renewal : list (Q * Event) :=
  (20, MboEvent "ASK_NEW" "A" 100 40 None) :: nil.

Definition second_refills : list (Q * Event) :=
  (21, MboEvent "REPLACE" "A" 100 10 None) ::
  (22, MboEvent "REPLACE" "A" 100 40 None) ::
  (23, MboEvent "REPLACE" "A" 100 10 None) ::
  (24, MboEvent "REPLACE" "A" 100 40 None) ::
  (25, MboEvent "REPLACE" "A" 100 10 None) :: nil.

End Scenario.

(** ** Facts about the Python primitives *)

Lemma leb_true (x y : Q) : Py.leb x y = true <-> x <= y.
Proof. apply Qle_bool_iff. Qed.

Lemma leb_false (x y : Q) : Py.leb x y = false <-> y < x.
Proof.
  unfold Py.leb. split; intros H.
  - apply Qnot_le_lt. intros Hle. apply Qle_bool_iff in Hle. congruence.
  - destruct (Qle_bool x y) eqn:E; [|reflexivity].
    apply Qle_bool_iff in E. lra.
Qed.

Lemma ltb_true (x y : Q) : Py.ltb x y = true <-> x < y.
Proof.
  unfold Py.ltb. rewrite negb_true_iff. apply (leb_false y x).
Qed.

Lemma ltb_false (x y : Q) : Py.ltb x y = false <-> y <= x.
Proof.
  unfold Py.ltb. rewrite negb_false_iff. apply Qle_bool_iff.
Qed.

Lemma eqb_true (x y : Q) : Py.eqb x y = true <-> x == y.
Proof. apply Qeq_bool_iff. Qed.

Lemma eqb_false (x y : Q) : Py.eqb x y = false <-> ~ x == y.
Proof.
  unfold Py.eqb. split; intros H.
  - intros E. apply Qeq_bool_iff in E. congruence.
  - destruct (Qeq_bool x y) eqn:E; [|reflexivity]. apply Qeq_bool_iff in E. tauto.
Qed.

(** Case analysis on every numeric comparison in sight. *)
Ltac cmp_cases :=
  repeat match goal with
  | |- context [Py.leb ?x ?y] =>
      let E := fresh "E" in
      destruct (Py.leb x y) eqn:E;
      [apply leb_true in E | apply leb_false in E]
  | |- context [Py.ltb ?x ?y] =>
      let E := fresh "E" in
      destruct (Py.ltb x y) eqn:E;
      [apply ltb_true in E | apply ltb_false in E]
  end.

Lemma min_spec (a b : Q) : (b < a /\ Py.min a b = b) \/ (a <= b /\ Py.min a b = a).
Proof. unfold Py.min. cmp_cases; auto. Qed.

Lemma max_spec (a b : Q) : (a < b /\ Py.max a b = b) \/ (b <= a /\ Py.max a b = a).
Proof. unfold Py.max. cmp_cases; auto. Qed.

Lemma max_lower_r (a b : Q) : b <= Py.max a b.
Proof. destruct (max_spec a b) as [[? ->]|[? ->]]; lra. Qed.

Lemma sum_from (l : list Q) (a : Q) : fold_left Qplus l a == a + Py.sum l.
Proof.
  unfold Py.sum. revert a.
  induction l as [|x l IH]; intros a; simpl.
  - lra.
  - rewrite (IH (a + x)), (IH (0 + x)). lra.
Qed.

Lemma sum_snoc (l : list Q) (x : Q) : Py.sum (l ++ x :: nil) == Py.sum l + x.
Proof. unfold Py.sum. rewrite fold_left_app. simpl. reflexivity. Qed.

(** *** Rounding to the nearest double *)

Lemma float_pow_pos (z : Z) : 0 < 2 ^ z.
Proof. apply Qpower_0_lt. reflexivity. Qed.

Lemma pow2_plus (a b : Z) : 2 ^ (a + b) == 2 ^ a * 2 ^ b.
Proof. apply Qpower_plus. discriminate. Qed.

Lemma pow2_le (a b : Z) : (a <= b)%Z -> 2 ^ a <= 2 ^ b.
Proof.
  intros H. replace b with (a + (b - a))%Z by lia. rewrite pow2_plus.
  assert (H1 : 1 <= 2 ^ (b - a)).
  { rewrite <- (Zpower_Qpower 2 (b - a)) by lia.
    change 1 with (inject_Z 1). rewrite <- Zle_Qle.
    pose proof (Z.pow_pos_nonneg 2 (b - a)). lia. }
  pose proof (float_pow_pos a). nra.
Qed.

Lemma round_half_even_bounds (x : Q) :
  (Qfloor x <= Py.round_half_even x <= Qfloor x + 1)%Z.
Proof.
  unfold Py.round_half_even.
  destruct (Qcompare _ _); [destruct (Z.even _)|..]; lia.
Qed.

Lemma round_half_even_monotone (x y : Q) :
  x <= y -> (Py.round_half_even x <= Py.round_half_even y)%Z.
Proof.
  intros Hxy. pose proof (Qfloor_resp_le _ _ Hxy) as Hf.
  pose proof (round_half_even_bounds x) as Bx.
  pose proof (round_half_even_bounds y) as By.
  destruct (Z.eq_dec (Qfloor x) (Qfloor y)) as [E|E]; [|lia].
  unfold Py.round_half_even in *. rewrite E in *.
  destruct (Qcompare (x - inject_Z (Qfloor y)) (1 # 2)) eqn:Cx;
    destruct (Qcompare (y - inject_Z (Qfloor y)) (1 # 2)) eqn:Cy;
    try (destruct (Z.even (Qfloor y))); try lia;
    exfalso;
    repeat match goal with
    | H : Qcompare ?a ?b = Eq |- _ => apply (proj2 (Qeq_alt a b)) in H
    | H : Qcompare ?a ?b = Lt |- _ => apply (proj2 (Qlt_alt a b)) in H
    | H : Qcompare ?a ?b = Gt |- _ => apply (proj2 (Qgt_alt a b)) in H
    end; lra.
Qed.

Lemma round_half_even_lower (x : Q) (z : Z) :
  inject_Z z <= x -> (z <= Py.round_half_even x)%Z.
Proof.
  intros H. pose proof (round_half_even_bounds x).
  apply Qfloor_resp_le in H. rewrite Qfloor_Z in H. lia.
Qed.

Lemma round_half_even_upper (x : Q) (z : Z) :
  x <= inject_Z z -> (Py.round_half_even x <= z)%Z.
Proof.
  intros H. pose proof (round_half_even_monotone x (inject_Z z) H) as M.
  assert (E : Py.round_half_even (inject_Z z) = z).
  { unfold Py.round_half_even. rewrite Qfloor_Z.
    assert (C : Qcompare (inject_Z z - inject_Z z) (1 # 2) = Lt)
      by (apply (proj1 (Qlt_alt _ _)); lra).
    rewrite C. reflexivity. }
  lia.
Qed.

Lemma exponent_spec (x : Q) :
  0 < x -> 2 ^ Py.exponent x <= x /\ x < 2 ^ (Py.exponent x + 1).
Proof.
  intros Hx. destruct x as [a b]. unfold Py.exponent. cbn [Qnum Qden].
  assert (Ha : (0 < a)%Z) by (unfold Qlt in Hx; cbn in Hx; lia).
  set (la := Z.log2 a). set (lb := Z.log2 (Z.pos b)).
  pose proof (Z.log2_nonneg a) as Hla. pose proof (Z.log2_nonneg (Z.pos b)) as Hlb.
  fold la in Hla. fold lb in Hlb.
  destruct (Z.log2_spec a Ha) as [A1 A2]. fold la in A1, A2.
  destruct (Z.log2_spec (Z.pos b) (Pos2Z.is_pos b)) as [B1 B2]. fold lb in B1, B2.
  assert (QA1 : 2 ^ la <= inject_Z a).
  { rewrite <- (Zpower_Qpower 2 la) by lia. rewrite <- Zle_Qle. exact A1. }
  assert (QA2 : inject_Z a < 2 ^ (la + 1)).
  { rewrite <- (Zpower_Qpower 2 (la + 1)) by lia. rewrite <- Zlt_Qlt.
    unfold Z.succ in A2. exact A2. }
  assert (QB1 : 2 ^ lb <= inject_Z (Z.pos b)).
  { rewrite <- (Zpower_Qpower 2 lb) by lia. rewrite <- Zle_Qle. exact B1. }
  assert (QB2 : inject_Z (Z.pos b) < 2 ^ (lb + 1)).
  { rewrite <- (Zpower_Qpower 2 (lb + 1)) by lia. rewrite <- Zlt_Qlt.
    unfold Z.succ in B2. exact B2. }
  assert (Hq : a # b == inject_Z a / inject_Z (Z.pos b)) by apply Qmake_Qdiv.
  assert (HB : 0 < inject_Z (Z.pos b)) by (rewrite <- (Zlt_Qlt 0); lia).
  assert (Hx' : (a # b) * inject_Z (Z.pos b) == inject_Z a).
  { rewrite Hq. field. lra. }
  set (x := a # b) in *.
  pose proof (float_pow_pos (la - lb)) as P0.
  pose proof (float_pow_pos lb) as P1.
  assert (E1 : 2 ^ (la - lb + 1) * 2 ^ lb == 2 ^ (la + 1)).
  { rewrite <- pow2_plus. replace (la - lb + 1 + lb)%Z with (la + 1)%Z by lia. reflexivity. }
  assert (E2 : 2 ^ (la - lb - 1) * 2 ^ (lb + 1) == 2 ^ la).
  { rewrite <- pow2_plus. replace (la - lb - 1 + (lb + 1))%Z with la by lia. reflexivity. }
  assert (Hup : x < 2 ^ (la - lb + 1)).
  { pose proof (float_pow_pos (la - lb + 1)). nra. }
  assert (Hlo : 2 ^ (la - lb - 1) <= x).
  { pose proof (float_pow_pos (la - lb - 1)). pose proof (float_pow_pos (lb + 1)). nra. }
  destruct (Qle_bool (2 ^ (la - lb)) x) eqn:E.
  - apply Qle_bool_iff in E. split; assumption.
  - assert (x < 2 ^ (la - lb)).
    { apply Qnot_le_lt. intros H. apply Qle_bool_iff in H. congruence. }
    replace (la - lb - 1 + 1)%Z with (la - lb)%Z by lia. split; assumption.
Qed.

Lemma float_zero (x : Q) : x == 0 -> Py.float x = 0.
Proof.
  intros H. unfold Py.float. rewrite (proj1 (Qeq_alt x 0) H). reflexivity.
Qed.

Lemma float_positive (x : Q) :
  0 < x ->
  Py.float x
  = inject_Z (Py.round_half_even (x / 2 ^ (Py.exponent x - 52))) * 2 ^ (Py.exponent x - 52).
Proof.
  intros H. unfold Py.float. rewrite (proj1 (Qgt_alt x 0) H). reflexivity.
Qed.

(** The significand of a positive number lies in [[2^52, 2^53)] before it is
    rounded. *)
Lemma significand_bounds (x : Q) :
  0 < x ->
  2 ^ 52 <= x / 2 ^ (Py.exponent x - 52) /\ x / 2 ^ (Py.exponent x - 52) < 2 ^ 53.
Proof.
  intros Hx. destruct (exponent_spec x Hx) as [H1 H2].
  set (E := Py.exponent x) in *.
  pose proof (float_pow_pos (E - 52)) as P.
  assert (E1 : 2 ^ 52 * 2 ^ (E - 52) == 2 ^ E).
  { rewrite <- pow2_plus. replace (52 + (E - 52))%Z with E by lia. reflexivity. }
  assert (E2 : 2 ^ 53 * 2 ^ (E - 52) == 2 ^ (E + 1)).
  { rewrite <- pow2_plus. replace (53 + (E - 52))%Z with (E + 1)%Z by lia. reflexivity. }
  split.
  - apply Qle_shift_div_l; [exact P | lra].
  - apply Qlt_shift_div_r; [exact P | lra].
Qed.

(** A positive number and the double nearest to it lie in the same binade. *)
Lemma float_binade (x : Q) :
  0 < x -> 2 ^ Py.exponent x <= Py.float x /\ Py.float x <= 2 ^ (Py.exponent x + 1).
Proof.
  intros Hx. rewrite (float_positive x Hx).
  destruct (significand_bounds x Hx) as [H1 H2].
  set (E := Py.exponent x) in *. set (s := x / 2 ^ (E - 52)) in *.
  pose proof (float_pow_pos (E - 52)) as P.
  assert (E1 : 2 ^ 52 * 2 ^ (E - 52) == 2 ^ E).
  { rewrite <- pow2_plus. replace (52 + (E - 52))%Z with E by lia. reflexivity. }
  assert (E2 : 2 ^ 53 * 2 ^ (E - 52) == 2 ^ (E + 1)).
  { rewrite <- pow2_plus. replace (53 + (E - 52))%Z with (E + 1)%Z by lia. reflexivity. }
  assert (L : inject_Z (2 ^ 52) <= inject_Z (Py.round_half_even s)).
  { rewrite <- Zle_Qle. apply round_half_even_lower.
    rewrite (Zpower_Qpower 2 52) by lia. exact H1. }
  assert (U : inject_Z (Py.round_half_even s) <= inject_Z (2 ^ 53)).
  { rewrite <- Zle_Qle. apply round_half_even_upper.
    rewrite (Zpower_Qpower 2 53) by lia. apply Qlt_le_weak. exact H2. }
  rewrite (Zpower_Qpower 2 52) in L by lia. rewrite (Zpower_Qpower 2 53) in U by lia.
  change (inject_Z 2) with 2 in L, U.
  split; nra.
Qed.

Lemma float_nonneg (x : Q) : 0 <= x -> 0 <= Py.float x.
Proof.
  intros H. destruct (Qlt_le_dec 0 x) as [Hx|Hx].
  - destruct (float_binade x Hx) as [L _]. pose proof (float_pow_pos (Py.exponent x)). lra.
  - rewrite float_zero by lra. lra.
Qed.

(** Rounding to the nearest double is monotone. *)
Lemma float_monotone (x y : Q) : 0 <= x -> x <= y -> Py.float x <= Py.float y.
Proof.
  intros H0 Hxy. destruct (Qlt_le_dec 0 x) as [Hx|Hx].
  2: { rewrite (float_zero x) by lra. apply float_nonneg. lra. }
  assert (Hy : 0 < y) by lra.
  destruct (exponent_spec x Hx) as [X1 X2]. destruct (exponent_spec y Hy) as [Y1 Y2].
  destruct (float_binade x Hx) as [FX1 FX2]. destruct (float_binade y Hy) as [FY1 FY2].
  destruct (Z_lt_le_dec (Py.exponent y) (Py.exponent x)) as [Hlt|Hle].
  - pose proof (pow2_le (Py.exponent y + 1) (Py.exponent x) ltac:(lia)). lra.
  - destruct (Z.eq_dec (Py.exponent x) (Py.exponent y)) as [E|E].
    + rewrite (float_positive x Hx), (float_positive y Hy), E.
      pose proof (float_pow_pos (Py.exponent y - 52)) as P.
      apply Qmult_le_compat_r; [|lra].
      rewrite <- Zle_Qle. apply round_half_even_monotone.
      apply Qmult_le_compat_r; [exact Hxy|].
      apply Qlt_le_weak, Qinv_lt_0_compat, P.
    + pose proof (pow2_le (Py.exponent x + 1) (Py.exponent y) ltac:(lia)). lra.
Qed.

Lemma exponent_unique (x : Q) (e : Z) :
  0 < x -> 2 ^ e <= x -> x < 2 ^ (e + 1) -> Py.exponent x = e.
Proof.
  intros Hx H1 H2. destruct (exponent_spec x Hx) as [X1 X2].
  destruct (Z.lt_trichotomy (Py.exponent x) e) as [H|[H|H]]; [|exact H|].
  - pose proof (pow2_le (Py.exponent x + 1) e ltac:(lia)). lra.
  - pose proof (pow2_le (e + 1) (Py.exponent x) ltac:(lia)). lra.
Qed.

Lemma round_half_even_compat (x y : Q) :
  x == y -> Py.round_half_even x = Py.round_half_even y.
Proof.
  intros H. unfold Py.round_half_even. rewrite (Qfloor_comp _ _ H).
  assert (E : x - inject_Z (Qfloor y) == y - inject_Z (Qfloor y)) by (rewrite H; reflexivity).
  rewrite (Qcompare_comp _ _ E (1 # 2) (1 # 2) (Qeq_refl _)). reflexivity.
Qed.

Lemma float_positive_compat (x y : Q) : 0 < x -> x == y -> Py.float x == Py.float y.
Proof.
  intros Hx H. assert (Hy : 0 < y) by lra.
  destruct (exponent_spec y Hy) as [Y1 Y2].
  assert (E : Py.exponent x = Py.exponent y) by (apply exponent_unique; lra).
  rewrite (float_positive x Hx), (float_positive y Hy), E.
  rewrite (round_half_even_compat (x / 2 ^ (Py.exponent y - 52))
             (y / 2 ^ (Py.exponent y - 52))) by (rewrite H; reflexivity).
  reflexivity.
Qed.

Lemma float_negative (x : Q) : x < 0 -> Py.float x == - Py.float (- x).
Proof.
  intros H. assert (Hn : 0 < - x) by lra.
  rewrite (float_positive (- x) Hn). unfold Py.float.
  rewrite (proj1 (Qlt_alt x 0) H). reflexivity.
Qed.

(** Numbers that are equal are rounded to the same double. *)
Lemma float_compat (x y : Q) : x == y -> Py.float x == Py.float y.
Proof.
  intros H. destruct (Q_dec x 0) as [[Hx|Hx]|Hx].
  - rewrite (float_negative x Hx), (float_negative y) by lra.
    apply Qopp_comp, float_positive_compat; [lra | rewrite H; reflexivity].
  - apply float_positive_compat; assumption.
  - rewrite (float_zero x Hx), (float_zero y) by lra. reflexivity.
Qed.
(** ** Facts about one order object *)

Ltac break_ifs :=
  repeat match goal with
  | |- context [if ?c then _ else _] => destruct c eqn:?
  end.

Section OrderFacts.
Import V2.

Lemma add_execution_total_filled f t o :
  total_filled (add_execution f t o) = total_filled o + f.
Proof. unfold add_execution. break_ifs; reflexivity. Qed.

Lemma add_execution_current_size f t o :
  current_size (add_execution f t o) = current_size o.
Proof. unfold add_execution. break_ifs; reflexivity. Qed.

Lemma add_execution_replace_events f t o :
  replace_events (add_execution f t o) = replace_events o.
Proof. unfold add_execution. break_ifs; reflexivity. Qed.

Lemma add_execution_initial_size f t o :
  initial_size (add_execution f t o) = initial_size o.
Proof. unfold add_execution. break_ifs; reflexivity. Qed.

Lemma add_execution_prices f t o :
  price_history (add_execution f t o) = price_history o /\
  current_price (add_execution f t o) = current_price o.
Proof. unfold add_execution. break_ifs; split; reflexivity. Qed.

Lemma add_execution_identity f t o :
  order_id (add_execution f t o) = order_id o /\
  is_confirmed_iceberg (add_execution f t o) = is_confirmed_iceberg o /\
  last_reported_filled (add_execution f t o) = last_reported_filled o.
Proof. unfold add_execution. break_ifs; repeat split; reflexivity. Qed.

Lemma add_replace_event_stages n t p o :
  add_replace_event n t p o
  = set_last_update t
      (set_current_size n
         (replace_refill (n - current_size o) (current_size o)
            (replace_max n
               (replace_min n
                  (replace_decrease (n - current_size o) t
                     (replace_log (replace_entry n t p o) (replace_price p o))))))).
Proof. reflexivity. Qed.

Ltac stage_keeps :=
  unfold identity_of, prices_of, fills_of, extent_of, replace_price, replace_log,
    replace_decrease, replace_min, replace_max, replace_refill, add_execution;
  repeat match goal with
  | |- context [match ?p with Some _ => _ | None => _ end] => destruct p
  end;
  break_ifs; repeat split; reflexivity.

Lemma replace_price_keeps p o :
  identity_of (replace_price p o) = identity_of o /\
  fills_of (replace_price p o) = fills_of o /\
  extent_of (replace_price p o) = extent_of o /\
  replace_events (replace_price p o) = replace_events o.
Proof. stage_keeps. Qed.

Lemma replace_price_prices p o :
  prices_of (replace_price p o) = price_step p (price_history o) (current_price o).
Proof.
  unfold prices_of, replace_price, price_step. destruct p as [q|]; [|reflexivity].
  destruct (Py.eqb q (current_price o)); cbn [negb]; [reflexivity|].
  cbn [price_history set_current_price].
  destruct (Py.mem q (price_history o)); reflexivity.
Qed.

Lemma replace_log_keeps e o :
  identity_of (replace_log e o) = identity_of o /\
  fills_of (replace_log e o) = fills_of o /\
  extent_of (replace_log e o) = extent_of o /\
  prices_of (replace_log e o) = prices_of o.
Proof. stage_keeps. Qed.

Lemma replace_decrease_keeps c t o :
  identity_of (replace_decrease c t o) = identity_of o /\
  prices_of (replace_decrease c t o) = prices_of o /\
  extent_of (replace_decrease c t o) = extent_of o /\
  replace_events (replace_decrease c t o) = replace_events o.
Proof. stage_keeps. Qed.

Lemma replace_decrease_fills c t o :
  (0 <= c -> fills_of (replace_decrease c t o) = fills_of o) /\
  (c < 0 -> total_filled (replace_decrease c t o) = total_filled o + Qabs c).
Proof.
  unfold replace_decrease. destruct (Py.ltb c 0) eqn:E.
  - apply ltb_true in E. split; [intros; lra|]. intros _.
    cbv zeta. cbn [total_filled set_size_decrease_count].
    apply add_execution_total_filled.
  - apply ltb_false in E. split; [reflexivity | intros; lra].
Qed.

Lemma replace_min_keeps n o :
  identity_of (replace_min n o) = identity_of o /\
  fills_of (replace_min n o) = fills_of o /\
  prices_of (replace_min n o) = prices_of o /\
  replace_events (replace_min n o) = replace_events o.
Proof. stage_keeps. Qed.

Lemma replace_max_keeps n o :
  identity_of (replace_max n o) = identity_of o /\
  fills_of (replace_max n o) = fills_of o /\
  prices_of (replace_max n o) = prices_of o /\
  replace_events (replace_max n o) = replace_events o.
Proof. stage_keeps. Qed.

Lemma replace_refill_keeps c s o :
  identity_of (replace_refill c s o) = identity_of o /\
  fills_of (replace_refill c s o) = fills_of o /\
  prices_of (replace_refill c s o) = prices_of o /\
  replace_events (replace_refill c s o) = replace_events o.
Proof. stage_keeps. Qed.

(** What a replace does, group by group. *)
Lemma add_replace_event_summary n t p o :
  let o' := add_replace_event n t p o in
  identity_of o' = identity_of o /\
  prices_of o' = price_step p (price_history o) (current_price o) /\
  replace_events o' = replace_events o ++ replace_entry n t p o :: nil /\
  (current_size o <= n -> fills_of o' = fills_of o) /\
  (n < current_size o ->
   total_filled o' = total_filled o + Qabs (n - current_size o)).
Proof.
  intros o'. subst o'. rewrite add_replace_event_stages.
  set (s1 := replace_price p o).
  set (s2 := replace_log (replace_entry n t p o) s1).
  set (s3 := replace_decrease (n - current_size o) t s2).
  set (s4 := replace_min n s3). set (s5 := replace_max n s4).
  set (s6 := replace_refill (n - current_size o) (current_size o) s5).
  change (identity_of s6 = identity_of o /\
          prices_of s6 = price_step p (price_history o) (current_price o) /\
          replace_events s6 = replace_events o ++ replace_entry n t p o :: nil /\
          (current_size o <= n -> fills_of s6 = fills_of o) /\
          (n < current_size o ->
           total_filled s6 = total_filled o + Qabs (n - current_size o))).
  destruct (replace_refill_keeps (n - current_size o) (current_size o) s5)
    as (I6 & F6 & P6 & L6).
  destruct (replace_max_keeps n s4) as (I5 & F5 & P5 & L5).
  destruct (replace_min_keeps n s3) as (I4 & F4 & P4 & L4).
  destruct (replace_decrease_keeps (n - current_size o) t s2) as (I3 & P3 & _ & L3).
  destruct (replace_decrease_fills (n - current_size o) t s2) as (F3 & F3').
  destruct (replace_log_keeps (replace_entry n t p o) s1) as (I2 & F2 & _ & P2).
  destruct (replace_price_keeps p o) as (I1 & F1 & _ & L1).
  fold s1 in I1, F1, L1. fold s2 in I2, F2, P2. fold s3 in I3, P3, L3, F3, F3'.
  fold s4 in I4, F4, P4, L4. fold s5 in I5, F5, P5, L5. fold s6 in I6, F6, P6, L6.
  assert (F12 : fills_of s2 = fills_of o) by congruence.
  split; [congruence|].
  split; [rewrite P6, P5, P4, P3, P2; apply replace_price_prices|].
  split; [rewrite L6, L5, L4, L3; unfold s2, replace_log;
          cbn [replace_events set_replace_events]; fold s1; rewrite L1; reflexivity|].
  split.
  - intros Hle. rewrite F6, F5, F4, F3, F12; [reflexivity | lra].
  - intros Hlt.
    assert (E : total_filled s6 = total_filled s3)
      by exact (f_equal fst (eq_trans F6 (eq_trans F5 F4))).
    rewrite E, F3' by lra.
    rewrite (f_equal fst F12 : total_filled s2 = total_filled o). reflexivity.
Qed.

Lemma add_replace_event_current_size n t p o :
  current_size (add_replace_event n t p o) = n.
Proof. reflexivity. Qed.

Lemma add_replace_event_initial_size n t p o :
  initial_size (add_replace_event n t p o) = initial_size o.
Proof.
  destruct (add_replace_event_summary n t p o) as (I & _).
  exact (f_equal (fun x => snd (fst (fst x))) I).
Qed.

Lemma add_replace_event_replace_events n t p o :
  exists ev,
    replace_events (add_replace_event n t p o) = replace_events o ++ ev :: nil /\
    re_size_change ev = n - current_size o.
Proof.
  destruct (add_replace_event_summary n t p o) as (_ & _ & L & _).
  exists (replace_entry n t p o). split; [exact L | reflexivity].
Qed.

Lemma add_replace_event_identity n t p o :
  order_id (add_replace_event n t p o) = order_id o /\
  is_confirmed_iceberg (add_replace_event n t p o) = is_confirmed_iceberg o /\
  last_reported_filled (add_replace_event n t p o) = last_reported_filled o.
Proof.
  destruct (add_replace_event_summary n t p o) as (I & _).
  split; [exact (f_equal (fun x => fst (fst (fst x))) I)|].
  split; [exact (f_equal (fun x => snd (fst x)) I) | exact (f_equal snd I)].
Qed.

Lemma add_replace_event_prices n t p o :
  price_history (add_replace_event n t p o)
  = fst (price_step p (price_history o) (current_price o)) /\
  current_price (add_replace_event n t p o)
  = snd (price_step p (price_history o) (current_price o)).
Proof.
  destruct (add_replace_event_summary n t p o) as (_ & P & _).
  split; [exact (f_equal fst P) | exact (f_equal snd P)].
Qed.

Lemma apply_events_snoc evs ev o :
  apply_events (evs ++ ev :: nil) o = apply_event ev (apply_events evs o).
Proof. unfold apply_events. rewrite fold_left_app. reflexivity. Qed.

Lemma apply_events_initial_size evs o :
  initial_size (apply_events evs o) = initial_size o.
Proof.
  revert o. induction evs as [|ev evs IH]; intros o; [reflexivity|].
  cbn [apply_events fold_left]. fold (apply_events evs (apply_event ev o)).
  rewrite IH. destruct ev; cbn [apply_event].
  - apply add_replace_event_initial_size.
  - apply add_execution_initial_size.
Qed.

(** The size telescopes over the replace log. *)
Lemma current_size_telescopes evs o :
  current_size o == initial_size o + net_replace_deltas o ->
  current_size (apply_events evs o)
  == initial_size (apply_events evs o) + net_replace_deltas (apply_events evs o).
Proof.
  revert o. induction evs as [|ev evs IH]; intros o Ho; [exact Ho|].
  cbn [apply_events fold_left]. fold (apply_events evs (apply_event ev o)).
  apply IH. destruct ev as [n t p|f t]; cbn [apply_event].
  - rewrite add_replace_event_current_size, add_replace_event_initial_size.
    destruct (add_replace_event_replace_events n t p o) as (ev & Hlog & Hd).
    unfold net_replace_deltas in *. rewrite Hlog, map_app.
    cbn [List.map]. rewrite sum_snoc, Hd. lra.
  - rewrite add_execution_current_size, add_execution_initial_size.
    unfold net_replace_deltas in *. rewrite add_execution_replace_events. exact Ho.
Qed.

Lemma current_size_nonneg evs o :
  0 <= current_size o -> replace_sizes_nonneg evs -> 0 <= current_size (apply_events evs o).
Proof.
  revert o. induction evs as [|ev evs IH]; intros o Ho Hevs; [exact Ho|].
  cbn [apply_events fold_left]. fold (apply_events evs (apply_event ev o)).
  apply IH.
  - destruct ev as [n t p|f t]; cbn [apply_event].
    + rewrite add_replace_event_current_size. apply (Hevs n t p). left. reflexivity.
    + rewrite add_execution_current_size. exact Ho.
  - intros n t p Hin. apply (Hevs n t p). right. exact Hin.
Qed.

End OrderFacts.

Section PriceHistory.
Import V2.

Lemma mem_false_not_InA (q : Q) (l : list Q) : Py.mem q l = false -> ~ InA Qeq q l.
Proof.
  unfold Py.mem. induction l as [|x l IH]; simpl; intros H Hin.
  - inversion Hin.
  - apply orb_false_iff in H. destruct H as [Hx Hl].
    apply eqb_false in Hx. inversion Hin; subst; [tauto | exact (IH Hl H0)].
Qed.

Lemma mem_true_InA (q : Q) (l : list Q) : Py.mem q l = true -> InA Qeq q l.
Proof.
  unfold Py.mem. induction l as [|x l IH]; simpl; intros H; [discriminate|].
  apply orb_true_iff in H. destruct H as [Hx|Hl].
  - apply InA_cons_hd. apply eqb_true. exact Hx.
  - apply InA_cons_tl. exact (IH Hl).
Qed.

Lemma NoDupA_snoc (q : Q) (l : list Q) :
  NoDupA Qeq l -> ~ InA Qeq q l -> NoDupA Qeq (l ++ q :: nil).
Proof.
  intros Hl Hq. apply NoDupA_app; [exact Q_Setoid | exact Hl | |].
  - constructor; [|constructor]. intros H. inversion H.
  - intros x Hx Hx'. apply Hq. inversion Hx'; subst.
    + rewrite <- H0. exact Hx.
    + inversion H0.
Qed.

Lemma price_step_ok p history current :
  prices_ok history current ->
  prices_ok (fst (price_step p history current)) (snd (price_step p history current)).
Proof.
  intros [Hnd Hin]. unfold price_step.
  destruct p as [q|]; [|split; assumption].
  destruct (Py.eqb q current); [split; assumption|].
  destruct (Py.mem q history) eqn:Hm; simpl.
  - split; [exact Hnd | apply mem_true_InA; exact Hm].
  - split.
    + apply NoDupA_snoc; [exact Hnd | apply mem_false_not_InA; exact Hm].
    + apply InA_app_iff. right. apply InA_cons_hd. reflexivity.
Qed.

Lemma apply_event_prices_ok ev o :
  prices_ok (price_history o) (current_price o) ->
  prices_ok (price_history (apply_event ev o)) (current_price (apply_event ev o)).
Proof.
  intros H. destruct ev as [n t p|f t]; cbn [apply_event].
  - destruct (add_replace_event_prices n t p o) as [-> ->].
    apply price_step_ok, H.
  - destruct (add_execution_prices f t o) as [-> ->]. exact H.
Qed.

Lemma apply_events_prices_ok evs o :
  prices_ok (price_history o) (current_price o) ->
  prices_ok (price_history (apply_events evs o)) (current_price (apply_events evs o)).
Proof.
  revert o. induction evs as [|ev evs IH]; intros o H; [exact H|].
  cbn [apply_events fold_left]. fold (apply_events evs (apply_event ev o)).
  apply IH, apply_event_prices_ok, H.
Qed.

Lemma apply_events_last_price evs o :
  last (price_history o) = Some (current_price o) ->
  no_revisit (price_history o) (current_price o) evs = true ->
  last (price_history (apply_events evs o)) = Some (current_price (apply_events evs o)).
Proof.
  revert o. induction evs as [|ev evs IH]; intros o Hlast Hnr; [exact Hlast|].
  cbn [apply_events fold_left]. fold (apply_events evs (apply_event ev o)).
  destruct ev as [n t p|f t]; cbn [apply_event no_revisit] in *.
  - destruct (add_replace_event_prices n t p o) as [E1 E2].
    unfold price_step in E1, E2.
    destruct p as [q|].
    + destruct (Py.eqb q (current_price o)); cbn [fst snd] in E1, E2.
      * apply IH; rewrite ?E1, ?E2; assumption.
      * apply andb_true_iff in Hnr. destruct Hnr as [Hm Hnr].
        apply negb_true_iff in Hm. rewrite Hm in E1, E2. cbn [fst snd] in E1, E2.
        apply IH; rewrite ?E1, ?E2.
        -- apply last_snoc.
        -- exact Hnr.
    + cbn [fst snd] in E1, E2. apply IH; rewrite ?E1, ?E2; assumption.
  - destruct (add_execution_prices f t o) as [E1 E2].
    apply IH; rewrite ?E1, ?E2; assumption.
Qed.

End PriceHistory.

(** ** Claims about one order object *)

(** C9. [IcebergOrder.add_execution], in both files, leaves every attribute
    other than the fill accounting ([total_filled], the execution log or the
    active/passive split, [execution_percentage]) and [last_update] as it
    was: the visible size, its bounds, the price attributes and all counters
    are unchanged by a fill. *)
Theorem add_execution_frame :
  (forall (filled_size timestamp : Q) (o : V2.IcebergOrder),
     let o' := V2.add_execution filled_size timestamp o in
     V2.current_size o' = V2.current_size o /\
     V2.min_size_seen o' = V2.min_size_seen o /\
     V2.max_visible_size o' = V2.max_visible_size o /\
     V2.price_history o' = V2.price_history o /\
     V2.current_price o' = V2.current_price o /\
     V2.price_changes o' = V2.price_changes o /\
     V2.refill_count o' = V2.refill_count o /\
     V2.consecutive_refills o' = V2.consecutive_refills o /\
     V2.size_decrease_count o' = V2.size_decrease_count o /\
     V2.replace_events o' = V2.replace_events o /\
     V2.initial_size o' = V2.initial_size o /\
     V2.price o' = V2.price o /\
     V2.order_id o' = V2.order_id o /\
     V2.trader_id o' = V2.trader_id o /\
     V2.is_bid o' = V2.is_bid o /\
     V2.timestamp o' = V2.timestamp o /\
     V2.last_reported_filled o' = V2.last_reported_filled o /\
     V2.is_confirmed_iceberg o' = V2.is_confirmed_iceberg o /\
     V2.iceberg_start_time o' = V2.iceberg_start_time o /\
     V2.completion_time o' = V2.completion_time o) /\
  (forall (filled_size timestamp : Q) (is_active : bool) (o : V3.IcebergOrder),
     let o' := V3.add_execution filled_size timestamp is_active o in
     V3.current_size o' = V3.current_size o /\
     V3.min_size_seen o' = V3.min_size_seen o /\
     V3.max_visible_size o' = V3.max_visible_size o /\
     V3.price_history o' = V3.price_history o /\
     V3.current_price o' = V3.current_price o /\
     V3.price_changes o' = V3.price_changes o /\
     V3.refill_count o' = V3.refill_count o /\
     V3.size_decrease_count o' = V3.size_decrease_count o /\
     V3.replace_events o' = V3.replace_events o /\
     V3.initial_size o' = V3.initial_size o /\
     V3.order_id o' = V3.order_id o /\
     V3.trader_id o' = V3.trader_id o /\
     V3.is_bid o' = V3.is_bid o /\
     V3.timestamp o' = V3.timestamp o /\
     V3.last_reported_filled o' = V3.last_reported_filled o /\
     V3.is_confirmed_iceberg o' = V3.is_confirmed_iceberg o /\
     V3.iceberg_start_time o' = V3.iceberg_start_time o /\
     V3.completion_time o' = V3.completion_time o).
Proof.
  split.
  - intros f t o. unfold V2.add_execution. break_ifs; cbn; repeat split.
  - intros f t a o. unfold V3.add_execution. break_ifs; cbn; repeat split.
Qed.

Section SizeFacts.
Import V2.

Lemma apply_events_current_size evs o :
  current_size (apply_events evs o) = last_replace_size (current_size o) evs.
Proof.
  revert o. induction evs as [|ev evs IH]; intros o; [reflexivity|].
  cbn [apply_events fold_left]. fold (apply_events evs (apply_event ev o)).
  rewrite IH. destruct ev as [n t p|f t]; cbn [apply_event last_replace_size].
  - rewrite add_replace_event_current_size. reflexivity.
  - rewrite add_execution_current_size. reflexivity.
Qed.

Lemma sum_cons (x : Q) (l : list Q) : Py.sum (x :: l) == x + Py.sum l.
Proof. unfold Py.sum. cbn [fold_left]. rewrite sum_from. unfold Py.sum. lra. Qed.

Lemma last_replace_size_telescopes size evs :
  last_replace_size size evs == size + Py.sum (replace_deltas size evs).
Proof.
  revert size. induction evs as [|ev evs IH]; intros size.
  - cbn. unfold Py.sum. cbn. lra.
  - destruct ev as [n t p|f t]; cbn [last_replace_size replace_deltas].
    + rewrite IH, sum_cons. lra.
    + apply IH.
Qed.

End SizeFacts.

(** C2, as the code has it.  For every order and every sequence of replace
    and execution events, [current_size] is the size given by the latest
    replace event, and [initial_size] when there was none: the fills recorded
    by [add_execution] are not subtracted from it.  Taken as exact numbers,
    that size is [initial_size] plus the net of the size changes made by the
    replace events.  [current_size] is non-negative when the initial size and
    every replace size are. *)
Theorem current_size_is_initial_plus_replace_deltas :
  forall (order_id : string) (price initial_size : Q) (is_bid : bool) (timestamp : Q)
         (trader_id : option string) (evs : list V2.OrderEvent),
    let o := V2.apply_events evs
               (V2.IcebergOrder_init order_id price initial_size is_bid timestamp trader_id) in
    V2.initial_size o = initial_size /\
    V2.current_size o = last_replace_size initial_size evs /\
    last_replace_size initial_size evs
    == initial_size + Py.sum (replace_deltas initial_size evs) /\
    (0 <= initial_size -> replace_sizes_nonneg evs -> 0 <= V2.current_size o).
Proof.
  intros oid price init b ts tr evs o. subst o.
  set (o0 := V2.IcebergOrder_init oid price init b ts tr).
  split; [rewrite apply_events_initial_size; reflexivity|].
  split; [rewrite apply_events_current_size; reflexivity|].
  split; [apply last_replace_size_telescopes|].
  intros Hpos Hevs. apply current_size_nonneg; [exact Hpos | exact Hevs].
Qed.

Lemma current_size_is_initial_plus_replace_deltas_witness :
  let evs := V2.Replace 10 1 None :: V2.Execution 5 2 :: V2.Replace 25 3 None
             :: V2.Execution 7 4 :: nil in
  let o := V2.apply_events evs (V2.IcebergOrder_init "A" 100 40 true 0 None) in
  V2.initial_size o = 40 /\
  V2.current_size o = 25 /\
  25 == 40 + ((10 - 40) + (25 - 10)) /\
  0 <= V2.current_size o.
Proof.
  intros evs o.
  destruct (current_size_is_initial_plus_replace_deltas "A" 100 40 true 0 None evs)
    as (H1 & H2 & H3 & H4).
  split; [exact H1|]. split; [exact H2|]. split; [reflexivity|].
  apply H4.
  - lra.
  - intros n t p Hin. simpl in Hin.
    destruct Hin as [E|[E|[E|[E|[]]]]]; inversion E; subst; lra.
Defined.

(** C2 as stated fails: a fill recorded after the last replace is not
    subtracted from [current_size]. *)
Lemma current_size_ignores_fills :
  let evs := V2.Execution 30 1 :: nil in
  let o := V2.apply_events evs (V2.IcebergOrder_init "A" 100 100 true 0 None) in
  V2.current_size o == 100 /\ Spec.current_size o evs == 70 /\
  ~ (V2.current_size o == Spec.current_size o evs /\ 0 <= V2.current_size o).
Proof.
  vm_compute. split; [reflexivity|]. split; [reflexivity|].
  intros [H _]. discriminate H.
Qed.

(** C5, as the code has it.  For every order and every sequence of events,
    [price_history] has no duplicate price and [current_price] is one of its
    elements; it is the last element when every price change of the sequence
    goes to a price not visited before. *)
Theorem price_history_distinct_and_holds_current :
  forall (order_id : string) (price initial_size : Q) (is_bid : bool) (timestamp : Q)
         (trader_id : option string) (evs : list V2.OrderEvent),
    let o := V2.apply_events evs
               (V2.IcebergOrder_init order_id price initial_size is_bid timestamp trader_id) in
    NoDupA Qeq (V2.price_history o) /\
    InA Qeq (V2.current_price o) (V2.price_history o) /\
    (V2.no_revisit (price :: nil) price evs = true ->
     last (V2.price_history o) = Some (V2.current_price o)).
Proof.
  intros oid price init b ts tr evs o. subst o.
  set (o0 := V2.IcebergOrder_init oid price init b ts tr).
  assert (H0 : prices_ok (V2.price_history o0) (V2.current_price o0)).
  { split; simpl.
    - constructor; [|constructor]. intros H. inversion H.
    - apply InA_cons_hd. reflexivity. }
  destruct (apply_events_prices_ok evs o0 H0) as [Hnd Hin].
  split; [exact Hnd|]. split; [exact Hin|].
  intros Hnr. apply apply_events_last_price; [reflexivity | exact Hnr].
Qed.

Lemma price_history_distinct_and_holds_current_witness :
  let evs := V2.Replace 10 1 (Some 101) :: V2.Execution 5 2
             :: V2.Replace 10 3 (Some 101) :: V2.Replace 10 4 (Some 102) :: nil in
  let o := V2.apply_events evs (V2.IcebergOrder_init "A" 100 40 true 0 None) in
  V2.no_revisit (100 :: nil) 100 evs = true /\
  last (V2.price_history o) = Some (V2.current_price o).
Proof.
  intros evs o.
  assert (Hnr : V2.no_revisit (100 :: nil) 100 evs = true) by (vm_compute; reflexivity).
  split; [exact Hnr|].
  destruct (price_history_distinct_and_holds_current "A" 100 40 true 0 None evs)
    as (_ & _ & H).
  exact (H Hnr).
Defined.

(** C5 as stated fails: after a replace that returns to a price visited
    before, [current_price] is not the last element of [price_history]. *)
Lemma current_price_not_last_after_revisit :
  let evs := V2.Replace 40 1 (Some 101) :: V2.Replace 40 2 (Some 100) :: nil in
  let o := V2.apply_events evs (V2.IcebergOrder_init "A" 100 40 true 0 None) in
  V2.price_history o = 100 :: 101 :: nil /\ V2.current_price o = 100 /\
  ~ (NoDupA Qeq (V2.price_history o) /\
     exists p, last (V2.price_history o) = Some p /\ p == V2.current_price o).
Proof.
  vm_compute. split; [reflexivity|]. split; [reflexivity|].
  intros [_ (p & Hp & H)]. injection Hp as <-. discriminate H.
Qed.

(** ** Fill accounting of a replace *)

Section FillFacts.
Import V2.

(** The two fill attributes after an execution. *)
Lemma add_execution_fills f t o :
  fills_of (add_execution f t o)
  = (total_filled o + f,
     if Py.ltb 0 (Py.max (total_filled o + f + current_size o) (max_visible_size o))
     then (total_filled o + f)
          / Py.max (total_filled o + f + current_size o) (max_visible_size o)
     else execution_percentage o).
Proof.
  unfold fills_of, add_execution. cbv zeta.
  cbn [total_filled current_size max_visible_size set_last_update set_total_filled
       set_execution_events].
  break_ifs; reflexivity.
Qed.

Lemma add_execution_fills_ext f t o1 o2 :
  fills_of o1 = fills_of o2 -> extent_of o1 = extent_of o2 ->
  fills_of (add_execution f t o1) = fills_of (add_execution f t o2).
Proof.
  unfold fills_of at 1 2, extent_of. intros Hf He. rewrite !add_execution_fills.
  injection Hf as -> ->. injection He as -> ->. reflexivity.
Qed.

(** A replace that lowers the size books the difference as an execution. *)
Lemma add_replace_event_fills_decrease n t p o :
  n < current_size o ->
  fills_of (add_replace_event n t p o)
  = fills_of (add_execution (Qabs (n - current_size o)) t o).
Proof.
  intros Hlt. rewrite add_replace_event_stages.
  set (s1 := replace_price p o).
  set (s2 := replace_log (replace_entry n t p o) s1).
  set (s3 := replace_decrease (n - current_size o) t s2).
  set (s4 := replace_min n s3). set (s5 := replace_max n s4).
  set (s6 := replace_refill (n - current_size o) (current_size o) s5).
  change (fills_of (set_last_update t (set_current_size n s6))) with (fills_of s6).
  destruct (replace_refill_keeps (n - current_size o) (current_size o) s5) as (_ & F6 & _).
  destruct (replace_max_keeps n s4) as (_ & F5 & _).
  destruct (replace_min_keeps n s3) as (_ & F4 & _).
  destruct (replace_log_keeps (replace_entry n t p o) s1) as (_ & F2 & E2 & _).
  destruct (replace_price_keeps p o) as (_ & F1 & E1 & _).
  fold s1 in F1, E1. fold s2 in F2, E2. fold s4 in F4. fold s5 in F5. fold s6 in F6.
  rewrite F6, F5, F4.
  assert (F3 : fills_of s3 = fills_of (add_execution (Qabs (n - current_size o)) t s2)).
  { unfold s3, replace_decrease.
    destruct (Py.ltb (n - current_size o) 0) eqn:E; [reflexivity|].
    apply ltb_false in E. lra. }
  rewrite F3. apply add_execution_fills_ext; congruence.
Qed.

End FillFacts.

(** C10, as the code has it.  On orders in the same state, the replace of
    [icev3.py] never touches [total_filled] or [execution_percentage]; the
    replace of [icetomultipletopicsv2slowed.py] agrees with it when the size
    does not decrease; on a decrease it counts the lost size as a fill: it
    adds it to [total_filled] and recomputes [execution_percentage] as
    [total_filled / max(total_filled + current_size, max_visible_size)], with
    the new [total_filled] and the sizes from before the replace, when that
    maximum is positive. *)
Theorem replace_fill_accounting_agrees_unless_decrease :
  forall (a : V2.IcebergOrder) (b : V3.IcebergOrder) (new_size timestamp : Q)
         (new_price : option Q),
    Spec.same_state a b ->
    let a' := V2.add_replace_event new_size timestamp new_price a in
    let b' := V3.add_replace_event new_size timestamp new_price b in
    (V3.total_filled b' = V3.total_filled b /\
     V3.execution_percentage b' = V3.execution_percentage b) /\
    (V2.current_size a <= new_size ->
     V2.total_filled a' = V3.total_filled b' /\
     V2.execution_percentage a' = V3.execution_percentage b') /\
    (new_size < V2.current_size a ->
     let estimated_total :=
       Py.max (V2.total_filled a' + V2.current_size a) (V2.max_visible_size a) in
     V2.total_filled a' == V3.total_filled b' + (V2.current_size a - new_size) /\
     V2.execution_percentage a'
     = (if Py.ltb 0 estimated_total then V2.total_filled a' / estimated_total
        else V3.execution_percentage b')).
Proof.
  intros a b n t p Hs a' b'.
  destruct Hs as (_ & _ & _ & Hcur & _ & _ & _ & _ & _ & _ & _ & _ & Htf & _ & _ & _ & _
                  & _ & _ & Hpct).
  assert (Hb : V3.total_filled b' = V3.total_filled b /\
               V3.execution_percentage b' = V3.execution_percentage b).
  { subst b'. unfold V3.add_replace_event. destruct p; break_ifs; split; reflexivity. }
  destruct Hb as [Hb1 Hb2].
  destruct (add_replace_event_summary n t p a) as (_ & _ & _ & Hkeep & Hdec).
  fold a' in Hkeep, Hdec.
  split; [split; assumption|]. split.
  - intros Hle. rewrite Hb1, Hb2, <- Htf, <- Hpct.
    specialize (Hkeep Hle).
    split; [exact (f_equal fst Hkeep) | exact (f_equal snd Hkeep)].
  - intros Hlt estimated_total. split.
    + rewrite Hb1, <- Htf, (Hdec Hlt). rewrite Qabs_neg by lra. lra.
    + pose proof (add_replace_event_fills_decrease n t p a Hlt) as F.
      fold a' in F. rewrite add_execution_fills in F.
      subst estimated_total. rewrite Hb2, <- Hpct.
      rewrite (f_equal fst F : V2.total_filled a' = _).
      exact (f_equal snd F).
Qed.

Lemma replace_fill_accounting_agrees_unless_decrease_witness :
  let a := V2.IcebergOrder_init "A" 100 40 true 0 None in
  let b := V3.IcebergOrder_init "A" 100 40 true 0 None in
  V2.total_filled (V2.add_replace_event 50 1 None a)
  = V3.total_filled (V3.add_replace_event 50 1 None b) /\
  V2.total_filled (V2.add_replace_event 10 1 None a)
  == V3.total_filled (V3.add_replace_event 10 1 None b) + (40 - 10) /\
  V2.execution_percentage (V2.add_replace_event 10 1 None a) == 3 # 7 /\
  V3.execution_percentage (V3.add_replace_event 10 1 None b) == 0.
Proof.
  intros a b.
  assert (Hs : Spec.same_state a b) by (repeat split; reflexivity).
  split; [|split; [|split]].
  - destruct (replace_fill_accounting_agrees_unless_decrease a b 50 1 None Hs)
      as (_ & H & _).
    apply H. simpl. lra.
  - destruct (replace_fill_accounting_agrees_unless_decrease a b 10 1 None Hs)
      as (_ & _ & H).
    apply H. simpl. lra.
  - destruct (replace_fill_accounting_agrees_unless_decrease a b 10 1 None Hs)
      as (_ & _ & H).
    destruct H as [_ H]; [simpl; lra|]. rewrite H. vm_compute. reflexivity.
  - destruct (replace_fill_accounting_agrees_unless_decrease a b 10 1 None Hs)
      as ((_ & H) & _).
    rewrite H. vm_compute. reflexivity.
Defined.

(** C10 as stated fails: a replace that lowers the size adds the decrease to
    [total_filled] in [icetomultipletopicsv2slowed.py] and not in [icev3.py]. *)
Lemma replace_fill_accounting_differs_on_decrease :
  let a := V2.IcebergOrder_init "A" 100 40 true 0 None in
  let b := V3.IcebergOrder_init "A" 100 40 true 0 None in
  Spec.same_state a b /\
  V2.total_filled (V2.add_replace_event 10 1 None a) == 30 /\
  V3.total_filled (V3.add_replace_event 10 1 None b) == 0 /\
  ~ (V2.total_filled (V2.add_replace_event 10 1 None a)
     == V3.total_filled (V3.add_replace_event 10 1 None b) /\
     V2.execution_percentage (V2.add_replace_event 10 1 None a)
     == V3.execution_percentage (V3.add_replace_event 10 1 None b)).
Proof.
  intros a b. split; [repeat split; reflexivity|].
  vm_compute. split; [reflexivity|]. split; [reflexivity|].
  intros [H _]. discriminate H.
Qed.

(** ** The iceberg score *)

Lemma score_terms_bounds mn mx tf rc : 0 <= score_terms mn mx tf rc <= 1.
Proof.
  unfold score_terms.
  set (s := if Py.ltb 0 mx && Py.ltb 0.3 (mn / mx) then 0.3 else 0).
  set (r := if (2 <=? rc)%Z then Py.min 0.4 (inject_Z rc * 0.1) else 0).
  set (ratio := if Py.ltb 0 mx then tf / mx else 0).
  set (e := if Py.ltb 1.5 ratio then Py.min 0.3 (ratio * 0.1) else 0).
  assert (Hs : 0 <= s <= 0.3) by (subst s; break_ifs; lra).
  assert (Hr : 0 <= r <= 0.4).
  { subst r. destruct (2 <=? rc)%Z eqn:E; [|lra].
    apply Z.leb_le in E.
    assert (2 <= inject_Z rc)
      by (change (inject_Z 2 <= inject_Z rc); rewrite <- Zle_Qle; exact E).
    destruct (min_spec 0.4 (inject_Z rc * 0.1)) as [[? ->]|[? ->]]; lra. }
  assert (He : 0 <= e <= 0.3).
  { subst e. destruct (Py.ltb 1.5 ratio) eqn:E; [|lra].
    apply ltb_true in E.
    destruct (min_spec 0.3 (ratio * 0.1)) as [[? ->]|[? ->]]; lra. }
  destruct (min_spec (s + r + e) 1) as [[? ->]|[? ->]]; lra.
Qed.

Lemma min_compat_l (a a' b : Q) : a == a' -> Py.min a b == Py.min a' b.
Proof.
  intros H.
  destruct (min_spec a b) as [[? ->]|[? ->]], (min_spec a' b) as [[? ->]|[? ->]]; lra.
Qed.

Lemma v2_score_is_score_terms (o : V2.IcebergOrder) :
  V2.get_iceberg_score o
  == score_terms (V2.min_size_seen o) (V2.max_visible_size o) (V2.total_filled o)
       (V2.refill_count o).
Proof.
  unfold V2.get_iceberg_score, V2.get_execution_ratio, score_terms. cbv zeta.
  destruct (Py.ltb 0 (V2.max_visible_size o)); cbn [andb];
  destruct (2 <=? V2.refill_count o)%Z;
  repeat match goal with
  | |- context [if Py.ltb ?x ?y then _ else _] =>
      lazymatch x with
      | context [if _ then _ else _] => fail
      | _ => lazymatch y with
             | context [if _ then _ else _] => fail
             | _ => destruct (Py.ltb x y) eqn:?
             end
      end
  end;
  apply min_compat_l; lra.
Qed.

Lemma v3_score_is_score_terms (o : V3.IcebergOrder) :
  V3.get_iceberg_score o
  == score_terms (V3.min_size_seen o) (V3.max_visible_size o) (V3.total_filled o)
       (V3.refill_count o).
Proof.
  unfold V3.get_iceberg_score, V3.get_execution_ratio, score_terms. cbv zeta.
  destruct (Py.ltb 0 (V3.max_visible_size o)); cbn [andb];
  destruct (2 <=? V3.refill_count o)%Z;
  repeat match goal with
  | |- context [if Py.ltb ?x ?y then _ else _] =>
      lazymatch x with
      | context [if _ then _ else _] => fail
      | _ => lazymatch y with
             | context [if _ then _ else _] => fail
             | _ => destruct (Py.ltb x y) eqn:?
             end
      end
  end;
  apply min_compat_l; lra.
Qed.

(** C6, as the code has it.  In both files, for every order state,
    [get_iceberg_score] is the sum, capped at 1, of 0.3 when
    [min_size_seen / max_visible_size > 0.3], of [min(0.4, 0.1 * refill_count)]
    when [refill_count >= 2] (a single refill adds nothing), and of
    [min(0.3, 0.1 * ratio)] when the execution ratio exceeds 1.5; the result
    lies in [[0, 1]]. *)
Theorem iceberg_score_terms_and_bounds :
  (forall o : V2.IcebergOrder,
     V2.get_iceberg_score o
     == score_terms (V2.min_size_seen o) (V2.max_visible_size o) (V2.total_filled o)
          (V2.refill_count o) /\
     0 <= V2.get_iceberg_score o <= 1) /\
  (forall o : V3.IcebergOrder,
     V3.get_iceberg_score o
     == score_terms (V3.min_size_seen o) (V3.max_visible_size o) (V3.total_filled o)
          (V3.refill_count o) /\
     0 <= V3.get_iceberg_score o <= 1).
Proof.
  split; intros o.
  - pose proof (v2_score_is_score_terms o) as E.
    split; [exact E|]. rewrite E. apply score_terms_bounds.
  - pose proof (v3_score_is_score_terms o) as E.
    split; [exact E|]. rewrite E. apply score_terms_bounds.
Qed.

(** C6 as stated fails: after a single refill the score has no refill term,
    where the stated formula adds 0.1. *)
Lemma iceberg_score_single_refill_adds_nothing :
  let o := V2.apply_events (V2.Replace 10 1 None :: V2.Replace 40 2 None :: nil)
             (V2.IcebergOrder_init "A" 100 40 true 0 None) in
  V2.refill_count o = 1%Z /\
  V2.get_iceberg_score o == 0 /\ Spec.iceberg_score o == 0.1 /\
  ~ V2.get_iceberg_score o == Spec.iceberg_score o.
Proof.
  vm_compute. split; [reflexivity|]. split; [reflexivity|]. split; [reflexivity|].
  intros H. discriminate H.
Qed.

(** ** The order-size percentile *)

Section Percentile.
Import V2.

Lemma insert_sorted_perm (x : Q) (l : list Q) :
  Permutation (x :: l) (Py.insert_sorted x l).
Proof.
  induction l as [|y l IH]; simpl; [reflexivity|].
  destruct (Py.ltb x y); [reflexivity|].
  rewrite perm_swap. apply perm_skip. exact IH.
Qed.

Lemma sorted_perm (l : list Q) : Permutation l (Py.sorted l).
Proof.
  induction l as [|x l IH]; simpl; [reflexivity|].
  rewrite <- insert_sorted_perm. apply perm_skip. exact IH.
Qed.

Lemma insert_sorted_HdRel (a x : Q) (l : list Q) :
  a <= x -> HdRel Qle a l -> HdRel Qle a (Py.insert_sorted x l).
Proof.
  intros Hax Hl. destruct l as [|y l]; simpl.
  - constructor. exact Hax.
  - destruct (Py.ltb x y); constructor; [exact Hax|].
    inversion Hl; assumption.
Qed.

Lemma insert_sorted_Sorted (x : Q) (l : list Q) :
  Sorted Qle l -> Sorted Qle (Py.insert_sorted x l).
Proof.
  induction 1 as [|y l Hs IH Hhd]; simpl.
  - repeat constructor.
  - destruct (Py.ltb x y) eqn:E.
    + apply ltb_true in E. repeat constructor; [assumption.. | lra].
    + apply ltb_false in E. constructor; [exact IH|].
      apply insert_sorted_HdRel; assumption.
Qed.

Lemma sorted_Sorted (l : list Q) : Sorted Qle (Py.sorted l).
Proof.
  induction l as [|x l IH]; simpl; [constructor|].
  apply insert_sorted_Sorted, IH.
Qed.

Lemma sorted_length (l : list Q) : length (Py.sorted l) = length l.
Proof. symmetry. apply Permutation_length, sorted_perm. Qed.

Lemma index_in_range {A : Type} (l : list A) (i : Z) :
  (0 <= i < Z.of_nat (length l))%Z ->
  exists x, Py.index l i = Some x /\ nth_error l (Z.to_nat i) = Some x.
Proof.
  intros [H0 Hn]. unfold Py.index.
  destruct (0 <=? i)%Z eqn:E; [|apply Z.leb_gt in E; lia].
  destruct (nth_error l (Z.to_nat i)) as [x|] eqn:Hx.
  - exists x. split; reflexivity.
  - apply nth_error_None in Hx. lia.
Qed.

Lemma int_nonneg (x : Q) : 0 <= x -> Py.int x = Qfloor x /\ (0 <= Qfloor x)%Z.
Proof.
  intros H. unfold Py.int.
  destruct (Py.leb 0 x) eqn:E; [|apply leb_false in E; lra].
  split; [reflexivity|].
  change 0%Z with (Qfloor 0). apply Qfloor_resp_le. exact H.
Qed.

Lemma percentile_nonempty (p : Q) (self : MarketMetrics) :
  0 <= p -> order_sizes self <> nil ->
  let n := Z.of_nat (length (order_sizes self)) in
  exists x,
    nth_error (Py.sorted (order_sizes self))
      (Z.to_nat (Z.min (Qfloor (Py.fmul (Py.fdiv p 100) (inject_Z n))) (n - 1)))
    = Some x /\
    get_percentile_order_size p self = Some (Py.max x 20).
Proof.
  intros Hp Hne n. subst n. unfold get_percentile_order_size.
  destruct (order_sizes self) as [|s0 rest]; [congruence|].
  cbv beta iota zeta. clear Hne.
  set (w := s0 :: rest). set (n := Z.of_nat (length w)).
  assert (Hn : (1 <= n)%Z) by (subst n w; simpl length; lia).
  assert (Hlen : Py.len (Py.sorted w) = inject_Z n).
  { unfold Py.len. rewrite sorted_length. reflexivity. }
  rewrite Hlen.
  assert (Hx : 0 <= Py.fmul (Py.fdiv p 100) (inject_Z n)).
  { unfold Py.fmul, Py.fdiv. apply float_nonneg.
    assert (0 <= inject_Z n)
      by (change (inject_Z 0 <= inject_Z n); rewrite <- Zle_Qle; lia).
    apply Qmult_le_0_compat; [|assumption].
    apply float_nonneg. apply Qle_shift_div_l; lra. }
  destruct (int_nonneg _ Hx) as [Hint Hfl]. rewrite Hint.
  rewrite sorted_length. fold n.
  destruct (index_in_range (Py.sorted w)
              (Z.min (Qfloor (Py.fmul (Py.fdiv p 100) (inject_Z n))) (n - 1)))
    as (x & Hix & Hnth).
  { rewrite sorted_length. fold n. lia. }
  exists x. rewrite Hix. split; [exact Hnth | reflexivity].
Qed.

(** The percentile asked for by [get_dynamic_thresholds] never raises. *)
Lemma get_percentile_order_size_75 (self : MarketMetrics) :
  exists x, get_percentile_order_size 75 self = Some x /\ 20 <= x.
Proof.
  destruct (order_sizes self) as [|s0 rest] eqn:Hw.
  - exists 100. unfold get_percentile_order_size. rewrite Hw. split; [reflexivity | lra].
  - destruct (percentile_nonempty 75 self) as (x & _ & Hx); [lra | congruence |].
    exists (Py.max x 20). split; [exact Hx | apply max_lower_r].
Qed.

End Percentile.

(** For the percentile 75 that [get_dynamic_thresholds] asks for, on the
    windows of at most 100 sizes that the metrics keep, the quotient and the
    product are exact. *)
Lemma default_percentile_index_is_exact (n : nat) :
  (n <= 100)%nat ->
  Py.float (75 / 100) == 75 / 100 /\
  Py.float (75 / 100 * inject_Z (Z.of_nat n)) == 75 / 100 * inject_Z (Z.of_nat n).
Proof.
  intros Hn. split; [vm_compute; reflexivity|].
  assert (H : forallb (fun k => Qeq_bool (Py.float (75 / 100 * inject_Z (Z.of_nat k)))
                                  (75 / 100 * inject_Z (Z.of_nat k))) (seq 0 101) = true)
    by (vm_compute; reflexivity).
  rewrite forallb_forall in H. apply Qeq_bool_iff, H, in_seq. lia.
Qed.

(** C7, as the code has it.  On an empty window [get_percentile_order_size]
    returns 100.  On a window of [n > 0] sizes and for a percentile [p >= 0]
    it sorts a snapshot of the window, takes the element at index
    [min(int(p / 100 * n), n - 1)], where the quotient and the product are
    floats, each rounded to the nearest double, and returns that element
    raised to at least 20.  When the two operations are exact, as they are
    for the default percentile 75 on a window of up to 100 sizes (lemma
    [default_percentile_index_is_exact]), the index is
    [min(floor(p / 100 * n), n - 1)]. *)
Theorem percentile_order_size_is_floored_selection :
  forall (self : V2.MarketMetrics) (p : Q),
    (V2.order_sizes self = nil -> V2.get_percentile_order_size p self = Some 100) /\
    (0 <= p -> V2.order_sizes self <> nil ->
     let n := Z.of_nat (length (V2.order_sizes self)) in
     exists (sorted_sizes : list Q) (x : Q),
       Permutation (V2.order_sizes self) sorted_sizes /\
       Sorted Qle sorted_sizes /\
       nth_error sorted_sizes
         (Z.to_nat (Z.min (Qfloor (Py.float (Py.float (p / 100) * inject_Z n))) (n - 1)))
       = Some x /\
       V2.get_percentile_order_size p self = Some (if Py.ltb x 20 then 20 else x) /\
       (Py.float (p / 100) == p / 100 ->
        Py.float (p / 100 * inject_Z n) == p / 100 * inject_Z n ->
        nth_error sorted_sizes
          (Z.to_nat (Z.min (Qfloor (p / 100 * inject_Z n)) (n - 1))) = Some x)).
Proof.
  intros self p. split.
  - intros Hw. unfold V2.get_percentile_order_size. rewrite Hw. reflexivity.
  - intros Hp Hne n.
    destruct (percentile_nonempty p self Hp Hne) as (x & Hnth & Hres).
    exists (Py.sorted (V2.order_sizes self)), x.
    split; [apply sorted_perm|]. split; [apply sorted_Sorted|].
    split; [exact Hnth|]. split; [exact Hres|].
    intros E1 E2. fold n in Hnth. unfold Py.fmul, Py.fdiv in Hnth.
    assert (E : Py.float (Py.float (p / 100) * inject_Z n) == p / 100 * inject_Z n).
    { rewrite <- E2. apply float_compat. rewrite E1. reflexivity. }
    rewrite <- (Qfloor_comp _ _ E). exact Hnth.
Qed.

Lemma percentile_order_size_is_floored_selection_witness :
  let self := V2.add_order 30 3 (V2.add_order 5 2 (V2.add_order 60 1
                (V2.MarketMetrics_init 100))) in
  exists (sorted_sizes : list Q) (x : Q),
    Permutation (V2.order_sizes self) sorted_sizes /\
    Sorted Qle sorted_sizes /\
    nth_error sorted_sizes (Z.to_nat (Z.min (Qfloor (75 / 100 * inject_Z 3)) (3 - 1)))
    = Some x /\
    V2.get_percentile_order_size 75 self = Some (if Py.ltb x 20 then 20 else x).
Proof.
  intros self.
  destruct (percentile_order_size_is_floored_selection self 75) as [_ H].
  destruct H as (l & x & H1 & H2 & _ & H4 & H5).
  - lra.
  - vm_compute. discriminate.
  - exists l, x. split; [exact H1|]. split; [exact H2|]. split; [|exact H4].
    apply H5; vm_compute; reflexivity.
Defined.

(** The index is not always the floor of the exact product: for the 58th
    percentile of fifty sizes [58 / 100 * 50] is 29, but the float quotient
    lies below 0.58, the float product is 28.999999999999996, and the element
    at index 28 is returned. *)
Lemma percentile_index_can_fall_below_exact_floor :
  let sizes := List.map (fun k => inject_Z (10 * Z.of_nat k)) (seq 1 50) in
  let self :=
    fold_left (fun m s => V2.add_order s 0 m) sizes (V2.MarketMetrics_init 100) in
  V2.order_sizes self = sizes /\
  Qfloor (58 / 100 * 50) = 29%Z /\
  Py.int (Py.fmul (Py.fdiv 58 100) 50) = 28%Z /\
  (exists x, V2.get_percentile_order_size 58 self = Some x /\ x == 290) /\
  Spec.percentile_order_size 58 (V2.order_sizes self) == 300.
Proof.
  vm_compute. split; [reflexivity|]. split; [reflexivity|]. split; [reflexivity|].
  split; [eexists; split; reflexivity | reflexivity].
Qed.

(** C7 as stated fails: the selected element is raised to the floor 20
    before it is returned. *)
Lemma percentile_order_size_raises_small_element :
  let self := V2.add_order 5 1 (V2.MarketMetrics_init 100) in
  V2.order_sizes self = 5 :: nil /\
  Spec.percentile_order_size 75 (V2.order_sizes self) = 5 /\
  V2.get_percentile_order_size 75 self = Some 20 /\
  ~ (exists x, V2.get_percentile_order_size 75 self = Some x /\
               x == Spec.percentile_order_size 75 (V2.order_sizes self)).
Proof.
  vm_compute. split; [reflexivity|]. split; [reflexivity|]. split; [reflexivity|].
  intros (x & Hx & H). injection Hx as <-. discriminate H.
Qed.

(** ** Facts about the detector *)

Import V2.

(** Projections of an updated detector. *)
Ltac dsimpl :=
  cbn [alias size_multiplier pips market_metrics active_orders potential_icebergs
       confirmed_icebergs completed_icebergs orders_by_price recent_trades
       order_book_bids order_book_asks best_bid best_ask total_icebergs_detected
       total_icebergs_completed recent_volume last_volume_sample
       set_market_metrics set_active_orders set_potential_icebergs
       set_confirmed_icebergs set_completed_icebergs set_orders_by_price
       set_recent_trades set_order_book_bids set_order_book_asks set_best_bid
       set_best_ask set_total_icebergs_detected set_total_icebergs_completed
       set_recent_volume set_last_volume_sample fst snd] in *.

Lemma flags_kept_refl d : flags_kept d d.
Proof. intros k o H. exists o. auto. Qed.

Lemma flags_kept_trans d1 d2 d3 : flags_kept d1 d2 -> flags_kept d2 d3 -> flags_kept d1 d3.
Proof.
  intros H12 H23 k o3 H3.
  destruct (H23 k o3 H3) as (o2 & H2 & Hid & Hc).
  destruct (H12 k o2 H2) as (o1 & H1 & Hid' & Hc').
  exists o1. repeat split; congruence.
Qed.

Lemma flags_kept_same_orders d d' : active_orders d' = active_orders d -> flags_kept d d'.
Proof. intros E k o H. rewrite E in H. exists o. auto. Qed.

Lemma flags_kept_key_consistent d d' :
  flags_kept d d' -> key_consistent d -> key_consistent d'.
Proof.
  intros Hk Hd k o' H. destruct (Hk k o' H) as (o & Ho & Hid & _).
  rewrite Hid. exact (Hd k o Ho).
Qed.

Lemma flags_kept_unconfirmed oid d d' :
  flags_kept d d' -> (unconfirmed oid d' <= unconfirmed oid d)%nat.
Proof.
  intros Hk. unfold unconfirmed.
  destruct (active_orders d' !! oid) as [o'|] eqn:E'; [|lia].
  destruct (Hk oid o' E') as (o & -> & _ & ->). lia.
Qed.

Lemma quiet_or_update_back d d' n :
  flags_kept d d' -> quiet_or_update d' n -> quiet_or_update d n.
Proof.
  intros Hk [Hq Hu]. split; [exact Hq|].
  intros Ht. destruct (Hu Ht) as (He & o' & Ho' & Hc).
  split; [exact He|].
  destruct (Hk _ _ Ho') as (o & Ho & _ & Hc').
  exists o. split; [exact Ho | congruence].
Qed.

(** What [process_order_execution] does to a tracked order. *)
Lemma process_order_execution_tracked oid sz now d o :
  active_orders d !! oid = Some o ->
  let filled := add_execution sz now o in
  exists o' out,
    process_order_execution oid sz now d
    = (set_active_orders (<[oid := o']> (active_orders d)) d, out) /\
    ((out = nil /\ o' = filled) \/
     (out = {| topic := updates; subject := filled; reason := None |} :: nil /\
      emission_ok filled /\
      o' = set_last_reported_filled (total_filled filled) filled)).
Proof.
  intros Ho filled. unfold process_order_execution. rewrite Ho. cbv zeta. fold filled.
  unfold _handle_iceberg_near_completion.
  destruct (is_confirmed_iceberg filled) eqn:Hc; cbn [andb];
    [|eexists _, _; split; [reflexivity | left; split; reflexivity]].
  destruct (Py.leb alert_execution_ratio_threshold (get_execution_ratio filled)
            || Py.leb alert_total_filled_threshold (total_filled filled));
    [|eexists _, _; split; [reflexivity | left; split; reflexivity]].
  destruct (Py.leb execution_threshold (execution_percentage filled)) eqn:Hp;
    [|eexists _, _; split; [reflexivity | left; split; reflexivity]].
  destruct (Py.leb 20 (total_filled filled - last_reported_filled filled)) eqn:Hd;
    [|eexists _, _; split; [reflexivity | left; split; reflexivity]].
  eexists _, _. split; [reflexivity|]. right.
  split; [reflexivity|]. split; [|reflexivity].
  apply leb_true in Hp, Hd. unfold execution_threshold in Hp.
  repeat split; assumption.
Qed.

Lemma process_order_execution_untracked oid sz now d :
  active_orders d !! oid = None -> process_order_execution oid sz now d = (d, nil).
Proof. intros Ho. unfold process_order_execution. rewrite Ho. reflexivity. Qed.

(** An execution keeps the flags and sends at most a justified progress
    message. *)
Lemma process_order_execution_steady oid sz now d d' out :
  key_consistent d ->
  process_order_execution oid sz now d = (d', out) ->
  flags_kept d d' /\ Forall (quiet_or_update d) out.
Proof.
  intros Hkc H.
  destruct (active_orders d !! oid) as [o|] eqn:Ho.
  - destruct (process_order_execution_tracked oid sz now d o Ho) as (o' & out' & E & Hcase).
    rewrite E in H. injection H as <- <-.
    destruct (add_execution_identity sz now o) as (Hid & Hc & _).
    assert (Hflags : order_id o' = order_id o /\
                     is_confirmed_iceberg o' = is_confirmed_iceberg o).
    { destruct Hcase as [[_ ->]|(_ & _ & ->)]; cbn; split; assumption. }
    split.
    + intros k x Hx. dsimpl.
      destruct (decide (oid = k)) as [<-|Hne].
      * rewrite lookup_insert_eq in Hx. injection Hx as <-.
        exists o. split; [exact Ho|]. exact Hflags.
      * rewrite lookup_insert_ne in Hx by exact Hne. exists x. auto.
    + destruct Hcase as [[-> _]|(-> & Hem & _)]; constructor; [|constructor].
      split; cbn; [discriminate|]. intros _. split; [exact Hem|].
      exists o. rewrite Hid, (Hkc oid o Ho). split; [exact Ho|].
      destruct Hem as (Hc' & _). congruence.
  - rewrite process_order_execution_untracked in H by exact Ho.
    injection H as <- <-. split; [apply flags_kept_refl | constructor].
Qed.


Lemma steady_refl d : steady d d nil.
Proof. split; [apply flags_kept_refl | constructor]. Qed.

Lemma steady_trans d1 d2 d3 out1 out2 :
  steady d1 d2 out1 -> steady d2 d3 out2 -> steady d1 d3 (out1 ++ out2).
Proof.
  intros [Hk1 Ho1] [Hk2 Ho2]. split; [exact (flags_kept_trans _ _ _ Hk1 Hk2)|].
  apply Forall_app. split; [exact Ho1|].
  eapply Forall_impl; [exact Ho2|].
  intros n Hn. exact (quiet_or_update_back _ _ _ Hk1 Hn).
Qed.

Lemma steady_key_consistent d d' out : steady d d' out -> key_consistent d -> key_consistent d'.
Proof. intros [Hk _]. apply flags_kept_key_consistent, Hk. Qed.

(** A step that leaves [active_orders] alone and sends nothing. *)
Lemma steady_same_orders d d' : active_orders d' = active_orders d -> steady d d' nil.
Proof. intros E. split; [apply flags_kept_same_orders, E | constructor]. Qed.

Lemma match_loop_steady per now l d out :
  key_consistent d ->
  exists d' out', match_loop per now l (d, out) = (d', out ++ out') /\ steady d d' out'.
Proof.
  revert d out. induction l as [|key rest IH]; intros d out Hkc; cbn [match_loop].
  - exists d, nil. rewrite app_nil_r. split; [reflexivity | apply steady_refl].
  - destruct (active_orders d !! key) as [order|] eqn:Ho; [|apply IH, Hkc].
    destruct (Py.ltb 0 (Py.min per (current_size order))); [|apply IH, Hkc].
    destruct (process_order_execution (order_id order) (Py.min per (current_size order))
                now d) as [d1 msgs] eqn:E.
    destruct (process_order_execution_steady _ _ _ _ _ _ Hkc E) as [Hk1 Hm1].
    assert (Hs1 : steady d d1 msgs) by (split; assumption).
    destruct (IH d1 (out ++ msgs) (steady_key_consistent _ _ _ Hs1 Hkc))
      as (d' & out' & E' & Hs').
    exists d', (msgs ++ out'). rewrite E', app_assoc.
    split; [reflexivity | exact (steady_trans _ _ _ _ _ Hs1 Hs')].
Qed.

Lemma _match_trade_to_orders_v2_steady trade now d d' out :
  key_consistent d -> _match_trade_to_orders_v2 trade now d = (d', out) -> steady d d' out.
Proof.
  intros Hkc. unfold _match_trade_to_orders_v2. cbv zeta.
  destruct (dict_get (ti_price trade) (orders_by_price d)) as [ids|];
    [|intros H; injection H as <- <-; apply steady_refl].
  match goal with |- context [match ?l with nil => _ | _ => _ end] => set (po := l) end.
  destruct po as [|k ks] eqn:Hpo; [intros H; injection H as <- <-; apply steady_refl|].
  rewrite <- Hpo. intros H.
  destruct (match_loop_steady (ti_size trade / Py.len po) now po d nil Hkc)
    as (d1 & out1 & E & Hs).
  rewrite E in H. injection H as <- <-. exact Hs.
Qed.

Lemma add_trade_steady price size is_bid now d d' out :
  key_consistent d -> add_trade price size is_bid now d = (d', out) -> steady d d' out.
Proof.
  intros Hkc. unfold add_trade. cbv zeta.
  match goal with |- _match_trade_to_orders_v2 ?t now ?d0 = _ -> _ => set (d1 := d0) end.
  assert (E : active_orders d1 = active_orders d) by (subst d1; break_ifs; reflexivity).
  intros H.
  assert (Hs0 : steady d d1 nil) by (apply steady_same_orders, E).
  apply (steady_trans _ _ _ nil out Hs0).
  exact (_match_trade_to_orders_v2_steady _ _ _ _ _
           (steady_key_consistent _ _ _ Hs0 Hkc) H).
Qed.

Lemma direct_execution_steady x sz now d out :
  key_consistent d ->
  exists d' out', direct_execution x sz now (d, out) = (d', out ++ out') /\ steady d d' out'.
Proof.
  intros Hkc. unfold direct_execution.
  destruct (truthy_id x) as [oid|];
    [|exists d, nil; rewrite app_nil_r; split; [reflexivity | apply steady_refl]].
  destruct (active_orders d !! oid);
    [|exists d, nil; rewrite app_nil_r; split; [reflexivity | apply steady_refl]].
  destruct (process_order_execution oid sz now d) as [d1 msgs] eqn:E.
  exists d1, msgs. split; [reflexivity|].
  destruct (process_order_execution_steady _ _ _ _ _ _ Hkc E). split; assumption.
Qed.

Lemma handle_trades_steady price size is_bid agg pas now d d' out :
  key_consistent d ->
  handle_trades price size is_bid agg pas now d = (d', out) -> steady d d' out.
Proof.
  intros Hkc. unfold handle_trades. cbv zeta.
  destruct (add_trade price (normalize_size (size_multiplier d) size) is_bid now d)
    as [d1 out1] eqn:E1.
  pose proof (add_trade_steady _ _ _ _ _ _ _ Hkc E1) as Hs1.
  pose proof (steady_key_consistent _ _ _ Hs1 Hkc) as Hkc1.
  destruct (direct_execution_steady pas (normalize_size (size_multiplier d) size) now
              d1 out1 Hkc1) as (d2 & out2 & E2 & Hs2).
  rewrite E2.
  pose proof (steady_key_consistent _ _ _ Hs2 Hkc1) as Hkc2.
  destruct (direct_execution_steady agg (normalize_size (size_multiplier d) size) now
              d2 (out1 ++ out2) Hkc2) as (d3 & out3 & E3 & Hs3).
  rewrite E3. intros H. injection H as <- <-.
  rewrite <- app_assoc.
  exact (steady_trans _ _ _ _ _ Hs1 (steady_trans _ _ _ _ _ Hs2 Hs3)).
Qed.

Lemma _cleanup_order_flags_kept oid d : flags_kept d (_cleanup_order oid d).
Proof.
  unfold _cleanup_order.
  destruct (active_orders d !! oid) as [o|]; [|apply flags_kept_same_orders; reflexivity].
  intros k o' H. dsimpl.
  destruct (decide (oid = k)) as [<-|Hne].
  - rewrite lookup_delete_eq in H. discriminate.
  - rewrite lookup_delete_ne in H by exact Hne. exists o'. auto.
Qed.

Lemma cleanup_fold_flags_kept ids d :
  flags_kept d (fold_left (fun self oid => _cleanup_order oid self) ids d).
Proof.
  revert d. induction ids as [|oid ids IH]; intros d; [apply flags_kept_refl|].
  cbn [fold_left]. eapply flags_kept_trans; [apply _cleanup_order_flags_kept | apply IH].
Qed.

Lemma cleanup_old_orders_flags_kept now d : flags_kept d (cleanup_old_orders now d).
Proof. unfold cleanup_old_orders. apply cleanup_fold_flags_kept. Qed.

Lemma update_depth_same_orders is_bid price size d :
  active_orders (update_depth is_bid price size d) = active_orders d.
Proof.
  unfold update_depth. cbv zeta.
  repeat match goal with
  | |- context [match ?x with Some _ => _ | None => _ end] => destruct x
  | |- context [if ?c then _ else _] => destruct c
  end; reflexivity.
Qed.

Lemma process_cancel_order_steady oid now d d' out :
  process_cancel_order oid now d = (d', out) -> steady d d' out.
Proof.
  unfold process_cancel_order.
  destruct (active_orders d !! oid) as [o|] eqn:Ho;
    [|intros H; injection H as <- <-; apply steady_refl].
  cbv zeta. destruct (is_confirmed_iceberg o) eqn:Hc; intros H; injection H as <- <-.
  - split.
    + eapply flags_kept_trans; [|apply _cleanup_order_flags_kept].
      intros k o' H. dsimpl.
      destruct (decide (oid = k)) as [<-|Hne].
      * rewrite lookup_insert_eq in H. injection H as <-. exists o. auto.
      * rewrite lookup_insert_ne in H by exact Hne. exists o'. auto.
    + constructor; [|constructor]. split; cbn; [discriminate | discriminate].
  - split; [|constructor].
    eapply flags_kept_trans; [|apply _cleanup_order_flags_kept].
    apply flags_kept_same_orders. reflexivity.
Qed.

Lemma confirm_when_ok self order pattern why now st :
  analysis_ok self order st -> analysis_ok self order (confirm_when pattern why now st).
Proof.
  destruct st as [[self' order'] out]. unfold analysis_ok, confirm_when.
  intros (Ha & Hid & Hsz & Hcase).
  destruct (pattern order' && negb (is_confirmed_iceberg order')) eqn:E;
    [|repeat split; assumption].
  apply andb_true_iff in E. destruct E as [_ E]. apply negb_true_iff in E.
  destruct Hcase as [[-> ->]|(_ & Hc & _)]; [|congruence].
  cbn. repeat split; try assumption.
  right. split; [exact E|]. split; [reflexivity|]. exists why. reflexivity.
Qed.

Lemma _analyze_iceberg_pattern_percentage_ok order now self :
  analysis_ok self order (_analyze_iceberg_pattern_percentage order now self).
Proof.
  assert (H0 : analysis_ok self order (self, order, nil)).
  { cbn. repeat split. left. split; reflexivity. }
  unfold _analyze_iceberg_pattern_percentage. cbv zeta.
  match goal with |- context [if ?c then _ else _] => destruct c end; [exact H0|].
  repeat apply confirm_when_ok. exact H0.
Qed.

(** What [process_replace_order] does to a tracked order. *)
Lemma process_replace_order_tracked oid price size now d o :
  active_orders d !! oid = Some o ->
  exists d' o' out,
    process_replace_order oid price size now d = (d', out) /\
    active_orders d' = <[oid := o']> (active_orders d) /\
    order_id o' = order_id o /\
    current_size o' = normalize_size (size_multiplier d) size /\
    ((out = nil /\ is_confirmed_iceberg o' = is_confirmed_iceberg o) \/
     (is_confirmed_iceberg o = false /\ is_confirmed_iceberg o' = true /\
      exists why,
        out = {| topic := detections; subject := o'; reason := Some why |} :: nil)).
Proof.
  intros Ho. unfold process_replace_order. rewrite Ho. cbv zeta.
  match goal with
  | |- context [_analyze_iceberg_pattern_percentage ?r now ?s] =>
      set (replaced := r); set (d1 := s)
  end.
  pose proof (_analyze_iceberg_pattern_percentage_ok replaced now d1) as Hok.
  destruct (_analyze_iceberg_pattern_percentage replaced now d1) as [[d2 o'] out].
  destruct Hok as (Ha & Hid & Hsz & Hcase).
  assert (Hd1 : active_orders d1 = active_orders d /\ size_multiplier d1 = size_multiplier d)
    by (subst d1; break_ifs; split; reflexivity).
  destruct Hd1 as [Hd1 Hm].
  destruct (add_replace_event_identity (normalize_size (size_multiplier d) size) now
              (if negb (Py.eqb price (current_price o)) then Some price else None) o)
    as (Hrid & Hrc & _).
  fold replaced in Hrid, Hrc.
  eexists _, o', out. split; [reflexivity|]. dsimpl.
  split; [rewrite Ha, Hd1; reflexivity|].
  split; [congruence|].
  split; [rewrite Hsz; reflexivity|].
  destruct Hcase as [[-> ->]|(Hc & Hc' & Hw)].
  - left. split; [reflexivity | exact Hrc].
  - right. split; [congruence|]. split; [exact Hc' | exact Hw].
Qed.

Lemma process_replace_order_untracked oid price size now d :
  active_orders d !! oid = None -> process_replace_order oid price size now d = (d, nil).
Proof. intros Ho. unfold process_replace_order. rewrite Ho. reflexivity. Qed.

(** What [process_new_order] does to [active_orders]. *)
Lemma process_new_order_orders oid is_bid price size trader now d :
  let d' := process_new_order oid is_bid price size trader now d in
  active_orders d' = active_orders d \/
  exists o, active_orders d' = <[oid := o]> (active_orders d) /\
            order_id o = oid /\ is_confirmed_iceberg o = false.
Proof.
  unfold process_new_order. cbv zeta.
  match goal with |- context [if ?c then _ else _] => destruct c end;
    [|left; reflexivity].
  right. eexists. split; [break_ifs; reflexivity|]. split; reflexivity.
Qed.

Lemma detections_for_app oid out1 out2 :
  detections_for oid (out1 ++ out2)
  = (detections_for oid out1 + detections_for oid out2)%nat.
Proof. unfold detections_for. rewrite List.filter_app, length_app. reflexivity. Qed.

Lemma quiet_no_detections oid d out :
  Forall (quiet_or_update d) out -> detections_for oid out = 0%nat.
Proof.
  unfold detections_for. induction 1 as [|n out [Hn _] _ IH]; [reflexivity|].
  cbn [List.filter]. unfold is_detection_for at 1.
  destruct (topic n); [congruence | exact IH | exact IH].
Qed.

Lemma steady_step_ok ev d d' out : key_consistent d -> steady d d' out -> step_ok ev d d' out.
Proof.
  intros Hkc Hs. pose proof Hs as [Hk Hq]. split; [|split; [|split]].
  - exact (steady_key_consistent _ _ _ Hs Hkc).
  - intros oid _. rewrite (quiet_no_detections oid d out Hq).
    apply flags_kept_unconfirmed, Hk.
  - intros log Hlog k o' Ho' Hc.
    destruct (Hk k o' Ho') as (o & Ho & _ & Hc').
    destruct (Hlog k o Ho) as (m & Hm & Hm'); [congruence|].
    exists m. split; [apply in_or_app; left; exact Hm | exact Hm'].
  - intros n Hn Ht. rewrite Forall_forall in Hq.
    destruct (Hq n) as [_ Hu]; [apply list_elem_of_In; exact Hn|]. exact (Hu Ht).
Qed.

Lemma process_new_order_step_ok event_type oid is_bid price size trader now d :
  (String.eqb event_type "ASK_NEW" || String.eqb event_type "BID_NEW") = true ->
  key_consistent d ->
  step_ok (MboEvent event_type oid price size trader) d
    (process_new_order oid is_bid price size trader now d) nil.
Proof.
  intros Het Hkc.
  destruct (process_new_order_orders oid is_bid price size trader now d)
    as [E|(o & E & Hid & Hc)].
  { apply steady_step_ok; [exact Hkc | apply steady_same_orders, E]. }
  set (d' := process_new_order oid is_bid price size trader now d) in *.
  split; [|split; [|split]].
  - intros k x Hx. rewrite E in Hx.
    destruct (decide (oid = k)) as [<-|Hne].
    + rewrite lookup_insert_eq in Hx. injection Hx as <-. exact Hid.
    + rewrite lookup_insert_ne in Hx by exact Hne. exact (Hkc k x Hx).
  - intros oid' Hcr. cbn [creates] in Hcr. rewrite Het in Hcr. cbn [andb] in Hcr.
    apply String.eqb_neq in Hcr.
    unfold unconfirmed. rewrite E, lookup_insert_ne by exact Hcr. cbn. lia.
  - intros log Hlog k x Hx Hcx. rewrite E in Hx. rewrite app_nil_r.
    destruct (decide (oid = k)) as [<-|Hne].
    + rewrite lookup_insert_eq in Hx. injection Hx as <-. congruence.
    + rewrite lookup_insert_ne in Hx by exact Hne. exact (Hlog k x Hx Hcx).
  - intros n [].
Qed.

Lemma process_replace_order_step_ok event_type oid price size trader now d d' out :
  key_consistent d ->
  process_replace_order oid price size now d = (d', out) ->
  step_ok (MboEvent event_type oid price size trader) d d' out.
Proof.
  intros Hkc H.
  destruct (active_orders d !! oid) as [o|] eqn:Ho.
  2:{ rewrite process_replace_order_untracked in H by exact Ho. injection H as <- <-.
      apply steady_step_ok; [exact Hkc | apply steady_refl]. }
  destruct (process_replace_order_tracked oid price size now d o Ho)
    as (d1 & o' & out1 & E & Ha & Hid & _ & Hcase).
  rewrite E in H. injection H as <- <-.
  pose proof (Hkc oid o Ho) as Hoid.
  split; [|split; [|split]].
  - intros k x Hx. rewrite Ha in Hx.
    destruct (decide (oid = k)) as [<-|Hne].
    + rewrite lookup_insert_eq in Hx. injection Hx as <-. congruence.
    + rewrite lookup_insert_ne in Hx by exact Hne. exact (Hkc k x Hx).
  - intros oid' _. unfold unconfirmed. rewrite Ha.
    destruct (decide (oid = oid')) as [<-|Hne].
    + rewrite lookup_insert_eq, Ho.
      destruct Hcase as [[-> ->]|(-> & -> & why & ->)]; cbn; [lia|].
      unfold detections_for. cbn. destruct (String.eqb (order_id o') oid); cbn; lia.
    + rewrite lookup_insert_ne by exact Hne.
      assert (Hz : detections_for oid' out1 = 0%nat).
      { destruct Hcase as [[-> _]|(_ & _ & why & ->)]; [reflexivity|].
        unfold detections_for. cbn.
        destruct (String.eqb (order_id o') oid') eqn:Es; [|reflexivity].
        apply String.eqb_eq in Es. congruence. }
      rewrite Hz. lia.
  - intros log Hlog k x Hx Hcx. rewrite Ha in Hx.
    destruct (decide (oid = k)) as [<-|Hne].
    + rewrite lookup_insert_eq in Hx. injection Hx as <-.
      destruct Hcase as [[-> Hc]|(_ & _ & why & ->)].
      * rewrite app_nil_r. apply (Hlog oid o Ho). congruence.
      * eexists. split; [apply in_or_app; right; left; reflexivity|].
        split; [reflexivity|]. cbn. congruence.
    + rewrite lookup_insert_ne in Hx by exact Hne.
      destruct (Hlog k x Hx Hcx) as (m & Hm & Hm').
      exists m. split; [apply in_or_app; left; exact Hm | exact Hm'].
  - intros n Hn Ht.
    destruct Hcase as [[-> _]|(_ & _ & why & ->)]; [destruct Hn|].
    destruct Hn as [<-|[]]. discriminate Ht.
Qed.

Lemma handle_step_ok now ev d d' out :
  key_consistent d -> handle now ev d = (d', out) -> step_ok ev d d' out.
Proof.
  intros Hkc H. destruct ev as [et oid price size trader|price size b agg pas|b price size|];
    cbn [handle] in H.
  - unfold handle_mbo_event in H.
    destruct (String.eqb et "ASK_NEW") eqn:E1.
    { injection H as <- <-. apply process_new_order_step_ok; [|exact Hkc].
      rewrite E1. reflexivity. }
    destruct (String.eqb et "BID_NEW") eqn:E2.
    { injection H as <- <-. apply process_new_order_step_ok; [|exact Hkc].
      rewrite E1, E2. reflexivity. }
    destruct (String.eqb et "REPLACE").
    { apply (process_replace_order_step_ok _ _ _ _ _ now); assumption. }
    destruct (String.eqb et "CANCEL").
    { apply steady_step_ok; [exact Hkc|].
      apply (process_cancel_order_steady oid now). exact H. }
    injection H as <- <-. apply steady_step_ok; [exact Hkc | apply steady_refl].
  - apply steady_step_ok; [exact Hkc|].
    exact (handle_trades_steady _ _ _ _ _ _ _ _ _ Hkc H).
  - injection H as <- <-. apply steady_step_ok; [exact Hkc|].
    apply steady_same_orders. apply update_depth_same_orders.
  - injection H as <- <-. apply steady_step_ok; [exact Hkc|].
    split; [apply cleanup_old_orders_flags_kept | constructor].
Qed.

Lemma run_cons now ev rest d :
  run ((now, ev) :: rest) d
  = (fst (run rest (fst (handle now ev d))),
     snd (handle now ev d) ++ snd (run rest (fst (handle now ev d)))).
Proof.
  cbn [run]. destruct (handle now ev d) as [d1 o1]. cbn [fst snd].
  destruct (run rest d1) as [d2 o2]. reflexivity.
Qed.

(** The facts of [step_ok] along a whole stream. *)
Lemma run_ok evs d :
  key_consistent d ->
  key_consistent (fst (run evs d)) /\
  (forall oid, never_creates oid evs = true ->
     (detections_for oid (snd (run evs d)) + unconfirmed oid (fst (run evs d))
      <= unconfirmed oid d)%nat) /\
  (forall log, confirmed_were_announced d log ->
     confirmed_were_announced (fst (run evs d)) (log ++ snd (run evs d)) /\
     forall pre n post, snd (run evs d) = pre ++ n :: post -> topic n = updates ->
       emission_ok (subject n) /\
       exists m, In m (log ++ pre) /\ topic m = detections /\
                 order_id (subject m) = order_id (subject n)).
Proof.
  revert d. induction evs as [|[now ev] rest IH]; intros d Hkc.
  - cbn [run fst snd]. split; [exact Hkc|]. split; [intros; cbn; lia|].
    intros log Hlog. rewrite app_nil_r. split; [exact Hlog|].
    intros pre n post E. destruct pre; discriminate E.
  - rewrite run_cons. cbn [fst snd].
    destruct (handle now ev d) as [d1 o1] eqn:Eh. cbn [fst snd].
    destruct (handle_step_ok now ev d d1 o1 Hkc Eh) as (Hkc1 & Hdet & Hann & Hupd).
    destruct (IH d1 Hkc1) as (Hkc2 & Hdet2 & Hann2).
    split; [exact Hkc2|]. split.
    + intros oid Hnc. cbn [never_creates forallb snd] in Hnc.
      apply andb_true_iff in Hnc. destruct Hnc as [Hc Hnc].
      apply negb_true_iff in Hc.
      rewrite detections_for_app.
      pose proof (Hdet oid Hc). pose proof (Hdet2 oid Hnc). lia.
    + intros log Hlog.
      destruct (Hann2 (log ++ o1) (Hann log Hlog)) as [Hann3 Hupd2].
      rewrite app_assoc. split; [exact Hann3|].
      intros pre n post E Ht.
      apply List.app_eq_app in E. destruct E as (l & [[E1 E2]|[E1 E2]]).
      * destruct l as [|x l].
        -- cbn in E2. rewrite app_nil_r in E1. subst pre.
           rewrite <- (app_nil_r (log ++ o1)).
           apply (Hupd2 nil n post); [symmetry; exact E2 | exact Ht].
        -- cbn in E2. injection E2 as <- E2.
           destruct (Hupd n) as (Hem & o & Ho & Hc); [rewrite E1; apply in_elt | exact Ht|].
           split; [exact Hem|].
           destruct (Hlog _ o Ho Hc) as (m & Hm & Hm').
           exists m. split; [apply in_or_app; left; exact Hm | exact Hm'].
      * subst pre. rewrite app_assoc. apply (Hupd2 l n post); [exact E2 | exact Ht].
Qed.

Lemma init_key_consistent a sm pips t0 :
  key_consistent (RealMBOIcebergDetector_init a sm pips t0).
Proof. intros k o H. cbn in H. rewrite lookup_empty in H. discriminate. Qed.

Lemma init_confirmed_were_announced a sm pips t0 :
  confirmed_were_announced (RealMBOIcebergDetector_init a sm pips t0) nil.
Proof. intros k o H. cbn in H. rewrite lookup_empty in H. discriminate. Qed.

(** ** Claims about the detector *)

(** C3, as the code has it.  The lifetime of an order ends when a new-order
    event uses its identifier again.  Take any stream of callbacks on a fresh
    detector and any later stretch [evs] of it in which no new-order event
    carries the identifier [oid].  Over [evs] at most one detection message
    about [oid] is sent; and if the order is confirmed when [evs] starts, no
    detection message about it is sent and, as long as it is tracked, it is
    still confirmed afterwards. *)
Theorem confirmation_is_permanent_and_announced_once :
  forall (a : string) (size_multiplier pips t0 : Q) (pre evs : list (Q * V2.Event))
         (oid : string),
    never_creates oid evs = true ->
    let d := fst (V2.run pre (V2.RealMBOIcebergDetector_init a size_multiplier pips t0)) in
    let d' := fst (V2.run evs d) in
    let out := snd (V2.run evs d) in
    (detections_for oid out <= 1)%nat /\
    (forall o, V2.active_orders d !! oid = Some o -> V2.is_confirmed_iceberg o = true ->
       detections_for oid out = 0%nat /\
       forall o', V2.active_orders d' !! oid = Some o' ->
                  V2.is_confirmed_iceberg o' = true).
Proof.
  intros a sm pips t0 pre evs oid Hnc d d' out.
  destruct (run_ok pre _ (init_key_consistent a sm pips t0)) as (Hkc & _).
  fold d in Hkc.
  destruct (run_ok evs d Hkc) as (_ & Hdet & _).
  specialize (Hdet oid Hnc). fold d' out in Hdet.
  assert (Hu : (unconfirmed oid d <= 1)%nat).
  { unfold unconfirmed. destruct (active_orders d !! oid) as [o|]; [|lia].
    destruct (is_confirmed_iceberg o); lia. }
  split; [lia|].
  intros o Ho Hc.
  assert (Hu0 : unconfirmed oid d = 0%nat) by (unfold unconfirmed; rewrite Ho, Hc; reflexivity).
  split; [lia|].
  intros o' Ho'. unfold unconfirmed at 1 in Hdet. rewrite Ho' in Hdet.
  destruct (is_confirmed_iceberg o'); [reflexivity | lia].
Qed.

Lemma confirmation_is_permanent_and_announced_once_witness :
  let d := fst (V2.run (Scenario.creation ++ Scenario.refills) Scenario.fresh) in
  never_creates "A" Scenario.trade = true /\
  (exists o, V2.active_orders d !! "A" = Some o /\ V2.is_confirmed_iceberg o = true) /\
  (detections_for "A" (snd (V2.run Scenario.trade d)) <= 1)%nat /\
  detections_for "A" (snd (V2.run Scenario.trade d)) = 0%nat /\
  (forall o', V2.active_orders (fst (V2.run Scenario.trade d)) !! "A" = Some o' ->
              V2.is_confirmed_iceberg o' = true).
Proof.
  intros d.
  assert (H : never_creates "A" Scenario.trade = true) by (vm_compute; reflexivity).
  assert (Hc : option_map V2.is_confirmed_iceberg (V2.active_orders d !! "A") = Some true)
    by (vm_compute; reflexivity).
  destruct (V2.active_orders d !! "A") as [o|] eqn:Ho; [|discriminate Hc].
  cbn [option_map] in Hc. injection Hc as Hc.
  destruct (confirmation_is_permanent_and_announced_once "XAUUSD" 1 0.01 0
              (Scenario.creation ++ Scenario.refills) Scenario.trade "A" H)
    as [Hone Hperm].
  destruct (Hperm o Ho Hc) as [Hzero Hkeep].
  split; [exact H|]. split; [exists o; split; [reflexivity | exact Hc]|].
  split; [exact Hone|]. split; [exact Hzero | exact Hkeep].
Defined.

(** C3 as stated fails: a new-order event for the identifier of a tracked,
    confirmed order puts a fresh order under that identifier, whose flag is
    not set, and the same refills then send a second detection message for
    the identifier. *)
Lemma repeated_new_order_is_detected_twice :
  let first := Scenario.creation ++ Scenario.refills in
  let confirmed_of evs :=
    option_map V2.is_confirmed_iceberg
      (V2.active_orders (fst (V2.run evs Scenario.fresh)) !! "A") in
  confirmed_of first = Some true /\
  confirmed_of (first ++ Scenario.renewal) = Some false /\
  detections_for "A" (snd (V2.run first Scenario.fresh)) = 1%nat /\
  detections_for "A"
    (snd (V2.run (first ++ Scenario.renewal ++ Scenario.second_refills) Scenario.fresh))
  = 2%nat.
Proof. vm_compute. repeat split; reflexivity. Qed.

(** C4.  In every stream of callbacks on a fresh detector, a progress message
    shows an order that is confirmed, whose [execution_percentage] is at
    least 0.7 and whose [total_filled] exceeds [last_reported_filled] by at
    least 20, and a detection message about the same order was sent before
    it.  The call of [process_order_execution] that sends a progress message
    leaves the order with [last_reported_filled] equal to [total_filled]. *)
Theorem progress_only_when_due_and_after_detection :
  (forall (a : string) (size_multiplier pips t0 : Q) (evs : list (Q * V2.Event))
          (pre post : list V2.Notification) (n : V2.Notification),
     snd (V2.run evs (V2.RealMBOIcebergDetector_init a size_multiplier pips t0))
     = pre ++ n :: post ->
     V2.topic n = V2.updates ->
     V2.is_confirmed_iceberg (V2.subject n) = true /\
     0.7 <= V2.execution_percentage (V2.subject n) /\
     20 <= V2.total_filled (V2.subject n) - V2.last_reported_filled (V2.subject n) /\
     exists m, In m pre /\ V2.topic m = V2.detections /\
               V2.order_id (V2.subject m) = V2.order_id (V2.subject n)) /\
  (forall (order_id : string) (executed_size now : Q) (d : V2.RealMBOIcebergDetector)
          (n : V2.Notification),
     In n (snd (V2.process_order_execution order_id executed_size now d)) ->
     V2.topic n = V2.updates /\
     exists o',
       V2.active_orders (fst (V2.process_order_execution order_id executed_size now d))
         !! order_id = Some o' /\
       V2.total_filled o' = V2.total_filled (V2.subject n) /\
       V2.last_reported_filled o' = V2.total_filled o').
Proof.
  split.
  - intros a sm pips t0 evs pre post n E Ht.
    destruct (run_ok evs _ (init_key_consistent a sm pips t0)) as (_ & _ & H).
    destruct (H nil (init_confirmed_were_announced a sm pips t0)) as [_ Hupd].
    destruct (Hupd pre n post E Ht) as ((Hc & Hp & Hd) & m & Hm & Hm').
    repeat split; try assumption. exists m. split; [exact Hm | exact Hm'].
  - intros oid sz now d n Hn.
    destruct (active_orders d !! oid) as [o|] eqn:Ho.
    + destruct (process_order_execution_tracked oid sz now d o Ho)
        as (o' & out & E & [[-> _]|(-> & _ & ->)]); rewrite E in Hn |- *;
        cbn [fst snd] in *; [destruct Hn|].
      destruct Hn as [<-|[]]. split; [reflexivity|].
      eexists. dsimpl. rewrite lookup_insert_eq. split; [reflexivity|].
      split; reflexivity.
    + rewrite process_order_execution_untracked in Hn by exact Ho. destruct Hn.
Qed.

Lemma progress_only_when_due_and_after_detection_witness :
  exists m n,
    snd (V2.run (Scenario.creation ++ Scenario.refills ++ Scenario.trade) Scenario.fresh)
    = m :: n :: nil /\
    V2.topic n = V2.updates /\
    0.7 <= V2.execution_percentage (V2.subject n) /\
    V2.topic m = V2.detections /\
    V2.order_id (V2.subject m) = V2.order_id (V2.subject n).
Proof.
  destruct (snd (V2.run (Scenario.creation ++ Scenario.refills ++ Scenario.trade)
                   Scenario.fresh)) as [|m [|n [|x l]]] eqn:E;
    try (vm_compute in E; discriminate E).
  assert (Ht : V2.topic n = V2.updates).
  { pose proof E as E'. vm_compute in E'. injection E' as _ <-. reflexivity. }
  destruct (proj1 progress_only_when_due_and_after_detection "XAUUSD" 1 0.01 0
              (Scenario.creation ++ Scenario.refills ++ Scenario.trade)
              (m :: nil) nil n E Ht) as (_ & Hp & _ & m' & Hm & Hm1 & Hm2).
  destruct Hm as [<-|[]].
  exists m, n. repeat split; assumption.
Defined.

(** ** Trades that name their passive order *)

(** C1 fails on the code.  A buy trade of 10 at price 100 that names the sell
    order ["A"], resting alone at that price, as its passive side raises
    [total_filled] of ["A"] by 20: once through the even split of [add_trade]
    and once through the direct execution. *)
Theorem handle_trades_counts_named_passive_fill_twice :
  let d := fst (V2.run ((1, V2.MboEvent "ASK_NEW" "A" 100 50 None) :: nil)
                  Scenario.fresh) in
  let d' := fst (V2.handle_trades 100 10 true None (Some "A") 2 d) in
  (exists o, V2.active_orders d !! "A" = Some o /\ V2.total_filled o == 0 /\
             V2.current_size o == 50) /\
  (exists o', V2.active_orders d' !! "A" = Some o' /\ V2.total_filled o' == 20) /\
  V2.normalize_size (V2.size_multiplier d) 10 == 10.
Proof.
  split; [|split].
  - eexists. split; [vm_compute; reflexivity|]. split; reflexivity.
  - eexists. split; [vm_compute; reflexivity|]. reflexivity.
  - reflexivity.
Qed.

(** ** Events that carry a negative size *)

Lemma normalize_size_neg (m s : Q) : s < 0 -> normalize_size m s < 0.
Proof.
  intros Hs. unfold normalize_size. destruct (Py.ltb 0 m) eqn:E; [|exact Hs].
  apply ltb_true in E.
  apply Qlt_shift_div_r; [exact E | lra].
Qed.

Lemma min_visible_at_least_10 (d : RealMBOIcebergDetector) :
  10 <= th_min_visible_size (get_dynamic_thresholds d).
Proof. unfold get_dynamic_thresholds. cbn [th_min_visible_size]. apply max_lower_r. Qed.

(** A new order below the minimum visible size only feeds the metrics. *)
Lemma process_new_order_below_min oid is_bid price size trader now d :
  normalize_size (size_multiplier d) size < 10 ->
  process_new_order oid is_bid price size trader now d
  = set_market_metrics
      (add_order (normalize_size (size_multiplier d) size) now (market_metrics d)) d.
Proof.
  intros Hlt. unfold process_new_order. cbv zeta.
  match goal with |- (if ?c then _ else _) = _ => destruct c eqn:E end; [|reflexivity].
  apply leb_true in E. cbn [size_multiplier set_market_metrics] in E.
  pose proof (min_visible_at_least_10
                (set_market_metrics
                   (add_order (normalize_size (size_multiplier d) size) now
                      (market_metrics d)) d)).
  lra.
Qed.

Lemma min_upper_l (a b : Q) : Py.min a b <= a.
Proof. destruct (min_spec a b) as [[? ->]|[? ->]]; lra. Qed.

(** With nothing to share out, the matching loop fills no order. *)
Lemma match_loop_nonpositive per now l st : per <= 0 -> match_loop per now l st = st.
Proof.
  intros Hper. induction l as [|key rest IH]; [reflexivity|].
  cbn [match_loop]. destruct st as [d out].
  destruct (active_orders d !! key) as [order|]; [|exact IH].
  destruct (Py.ltb 0 (Py.min per (current_size order))) eqn:E; [|exact IH].
  apply ltb_true in E. pose proof (min_upper_l per (current_size order)). lra.
Qed.

Lemma len_positive {A : Type} (x : A) (l : list A) : 0 < Py.len (x :: l).
Proof.
  unfold Py.len. change 0 with (inject_Z 0). rewrite <- Zlt_Qlt. simpl length. lia.
Qed.

Lemma _match_trade_to_orders_v2_negative trade now d :
  ti_size trade < 0 -> _match_trade_to_orders_v2 trade now d = (d, nil).
Proof.
  intros Hs. unfold _match_trade_to_orders_v2. cbv zeta.
  destruct (dict_get (ti_price trade) (orders_by_price d)) as [ids|]; [|reflexivity].
  match goal with |- context [match ?l with nil => _ | _ => _ end] => set (po := l) end.
  destruct po as [|k ks] eqn:Hpo; [reflexivity|].
  apply match_loop_nonpositive.
  apply Qlt_le_weak, Qlt_shift_div_r; [apply len_positive | lra].
Qed.

Lemma add_trade_negative price size is_bid now d :
  size < 0 ->
  exists d1, add_trade price size is_bid now d = (d1, nil) /\
             active_orders d1 = active_orders d.
Proof.
  intros Hs. unfold add_trade. cbv zeta.
  rewrite _match_trade_to_orders_v2_negative by exact Hs.
  eexists. split; [reflexivity|]. break_ifs; reflexivity.
Qed.

Lemma direct_execution_unnamed x sz now d out :
  names_no_tracked_order d x -> direct_execution x sz now (d, out) = (d, out).
Proof.
  unfold names_no_tracked_order, direct_execution.
  destruct (truthy_id x) as [oid|]; [|reflexivity]. intros ->. reflexivity.
Qed.

(** C8, as the code has it.  No callback checks the sign of a size.  A
    new-order event of negative size is kept out of tracking by the minimum
    visible size, and a trade of negative size that names no tracked order
    fills nothing: both leave every tracked order, the price index and the
    notification log as they were.  A replace or a direct execution of a
    tracked order is applied whatever the sign: the replace sets
    [current_size] to the normalised size, the execution adds the size to
    [total_filled]. *)
Theorem negative_sizes_are_gated_not_rejected :
  forall (d : V2.RealMBOIcebergDetector) (now : Q),
    (forall (event_type order_id : string) (price size : Q) (trader_id : option string),
       size < 0 -> event_type = "ASK_NEW"%string \/ event_type = "BID_NEW"%string ->
       let r := V2.handle now (V2.MboEvent event_type order_id price size trader_id) d in
       V2.active_orders (fst r) = V2.active_orders d /\
       V2.orders_by_price (fst r) = V2.orders_by_price d /\
       V2.potential_icebergs (fst r) = V2.potential_icebergs d /\
       snd r = nil) /\
    (forall (price size : Q) (is_bid : bool) (aggressor passive : option string),
       size < 0 -> names_no_tracked_order d aggressor -> names_no_tracked_order d passive ->
       let r := V2.handle now (V2.TradeEvent price size is_bid aggressor passive) d in
       V2.active_orders (fst r) = V2.active_orders d /\
       V2.orders_by_price (fst r) = V2.orders_by_price d /\
       snd r = nil) /\
    (forall (order_id : string) (price size : Q) (trader_id : option string)
            (o : V2.IcebergOrder),
       V2.active_orders d !! order_id = Some o ->
       exists o',
         V2.active_orders
           (fst (V2.handle now (V2.MboEvent "REPLACE" order_id price size trader_id) d))
           !! order_id = Some o' /\
         V2.current_size o' = V2.normalize_size (V2.size_multiplier d) size) /\
    (forall (order_id : string) (executed_size : Q) (o : V2.IcebergOrder),
       V2.active_orders d !! order_id = Some o ->
       exists o',
         V2.active_orders (fst (V2.process_order_execution order_id executed_size now d))
           !! order_id = Some o' /\
         V2.total_filled o' = V2.total_filled o + executed_size).
Proof.
  intros d now. split; [|split; [|split]].
  - intros et oid price size trader Hs Het r. subst r.
    assert (Hn : normalize_size (size_multiplier d) size < 10).
    { pose proof (normalize_size_neg (size_multiplier d) size Hs). lra. }
    cbn [handle]. unfold handle_mbo_event.
    destruct Het as [-> | ->]; cbn [String.eqb Ascii.eqb Bool.eqb fst snd];
      rewrite process_new_order_below_min by exact Hn; repeat split; reflexivity.
  - intros price size b agg pas Hs Hagg Hpas r. subst r.
    cbn [handle]. unfold handle_trades. cbv zeta.
    destruct (add_trade_negative price (normalize_size (size_multiplier d) size) b now d)
      as (d1 & E & Ha); [apply normalize_size_neg; exact Hs|].
    rewrite E.
    assert (Ho : orders_by_price d1 = orders_by_price d).
    { unfold add_trade in E. cbv zeta in E.
      rewrite _match_trade_to_orders_v2_negative in E
        by (apply normalize_size_neg; exact Hs).
      injection E as <-. break_ifs; reflexivity. }
    rewrite !direct_execution_unnamed
      by (unfold names_no_tracked_order in *; rewrite Ha; assumption).
    repeat split; assumption.
  - intros oid price size trader o Ho. cbn [handle]. unfold handle_mbo_event.
    cbn [String.eqb Ascii.eqb Bool.eqb].
    destruct (process_replace_order_tracked oid price size now d o Ho)
      as (d' & o' & out & E & Ha & _ & Hsz & _).
    rewrite E. cbn [fst]. exists o'. rewrite Ha, lookup_insert_eq.
    split; [reflexivity | exact Hsz].
  - intros oid sz o Ho.
    destruct (process_order_execution_tracked oid sz now d o Ho)
      as (o' & out & E & Hcase).
    rewrite E. cbn [fst]. dsimpl. exists o'. rewrite lookup_insert_eq.
    split; [reflexivity|].
    destruct Hcase as [[_ ->]|(_ & _ & ->)];
      cbn [total_filled set_last_reported_filled]; apply add_execution_total_filled.
Qed.

Lemma negative_sizes_are_gated_not_rejected_witness :
  let d := fst (V2.run Scenario.creation Scenario.fresh) in
  V2.active_orders (fst (V2.handle 20 (V2.MboEvent "BID_NEW" "B" 100 (-5) None) d))
  = V2.active_orders d /\
  V2.active_orders (fst (V2.handle 20 (V2.TradeEvent 100 (-5) true None None) d))
  = V2.active_orders d.
Proof.
  intros d.
  destruct (negative_sizes_are_gated_not_rejected d 20) as (Hnew & Htrade & _).
  split.
  - apply (Hnew "BID_NEW"%string "B"%string 100 (-5) None); [lra | right; reflexivity].
  - apply (Htrade 100 (-5) true None None); [lra | exact I | exact I].
Defined.

(** C8 as stated fails: a replace of negative size is applied to the tracked
    order, whose [current_size] becomes negative. *)
Lemma negative_replace_is_applied :
  let d := fst (V2.run Scenario.creation Scenario.fresh) in
  let d' := fst (V2.handle 20 (V2.MboEvent "REPLACE" "A" 100 (-5) None) d) in
  (exists o', V2.active_orders d' !! "A" = Some o' /\ V2.current_size o' < 0) /\
  ~ V2.active_orders d' = V2.active_orders d.
Proof.
  intros d d'. split.
  - eexists. split; [vm_compute; reflexivity|]. reflexivity.
  - intros H.
    apply (f_equal (fun m => V2.current_size <$> m !! "A")) in H.
    vm_compute in H. discriminate H.
Qed.

(** ** Further properties of one order object *)

Ltac stage_proves :=
  unfold identity_of, prices_of, fills_of, extent_of, bounds_of, counters_of,
    replace_price, replace_log, replace_decrease, replace_min, replace_max,
    replace_refill, add_execution;
  repeat match goal with
  | |- context [match ?p with Some _ => _ | None => _ end] => destruct p
  end;
  break_ifs; repeat split; reflexivity.

Lemma replace_price_bounds p o : bounds_of (replace_price p o) = bounds_of o.
Proof. stage_proves. Qed.

Lemma replace_log_bounds e o : bounds_of (replace_log e o) = bounds_of o.
Proof. stage_proves. Qed.

Lemma replace_decrease_bounds c t o : bounds_of (replace_decrease c t o) = bounds_of o.
Proof. stage_proves. Qed.

Lemma replace_refill_bounds c s o : bounds_of (replace_refill c s o) = bounds_of o.
Proof. stage_proves. Qed.

Lemma replace_min_bounds n o :
  bounds_of (replace_min n o)
  = (if Py.ltb n (min_size_seen o) then n else min_size_seen o, max_visible_size o).
Proof. unfold bounds_of, replace_min. break_ifs; reflexivity. Qed.

Lemma replace_max_bounds n o :
  bounds_of (replace_max n o)
  = (min_size_seen o, if Py.ltb (max_visible_size o) n then n else max_visible_size o).
Proof. unfold bounds_of, replace_max. break_ifs; reflexivity. Qed.

(** The two bounds after a replace. *)
Lemma add_replace_event_bounds n t p o :
  bounds_of (add_replace_event n t p o)
  = (if Py.ltb n (min_size_seen o) then n else min_size_seen o,
     if Py.ltb (max_visible_size o) n then n else max_visible_size o).
Proof.
  rewrite add_replace_event_stages.
  set (s1 := replace_price p o).
  set (s2 := replace_log (replace_entry n t p o) s1).
  set (s3 := replace_decrease (n - current_size o) t s2).
  set (s4 := replace_min n s3). set (s5 := replace_max n s4).
  set (s6 := replace_refill (n - current_size o) (current_size o) s5).
  change (bounds_of (set_last_update t (set_current_size n s6))) with (bounds_of s6).
  assert (B3 : bounds_of s3 = bounds_of o).
  { unfold s3. rewrite replace_decrease_bounds. unfold s2. rewrite replace_log_bounds.
    apply replace_price_bounds. }
  pose proof (replace_min_bounds n s3) as B4. fold s4 in B4.
  pose proof (replace_max_bounds n s4) as B5. fold s5 in B5.
  unfold s6. rewrite replace_refill_bounds, B5.
  rewrite (f_equal fst B4 : min_size_seen s4 = _), (f_equal snd B4 : max_visible_size s4 = _).
  cbn [fst snd].
  rewrite (f_equal fst B3 : min_size_seen s3 = _), (f_equal snd B3 : max_visible_size s3 = _).
  reflexivity.
Qed.

Lemma add_execution_bounds f t o : bounds_of (add_execution f t o) = bounds_of o.
Proof. unfold bounds_of, add_execution. break_ifs; reflexivity. Qed.

(** The invariant of the visible size and its two bounds. *)
Lemma apply_event_size_bounds ev o :
  min_size_seen o <= current_size o <= max_visible_size o ->
  min_size_seen o <= initial_size o <= max_visible_size o ->
  min_size_seen (apply_event ev o) <= current_size (apply_event ev o)
    <= max_visible_size (apply_event ev o) /\
  min_size_seen (apply_event ev o) <= initial_size (apply_event ev o)
    <= max_visible_size (apply_event ev o) /\
  min_size_seen (apply_event ev o) <= min_size_seen o /\
  max_visible_size o <= max_visible_size (apply_event ev o).
Proof.
  intros Hc Hi. destruct ev as [n t p|f t]; cbn [apply_event].
  - pose proof (add_replace_event_bounds n t p o) as B.
    rewrite (f_equal fst B : min_size_seen _ = _),
            (f_equal snd B : max_visible_size _ = _),
            add_replace_event_current_size, add_replace_event_initial_size.
    cbn [bounds_of fst snd]. cmp_cases; repeat split; lra.
  - pose proof (add_execution_bounds f t o) as B.
    rewrite (f_equal fst B : min_size_seen _ = _),
            (f_equal snd B : max_visible_size _ = _),
            add_execution_current_size, add_execution_initial_size.
    cbn [bounds_of fst snd]. repeat split; lra.
Qed.

(** X1.  For every order and every sequence of replace and execution events,
    the visible size stays between the smallest and the largest size seen,
    and so does the initial size: [min_size_seen <= current_size <=
    max_visible_size] and [min_size_seen <= initial_size <= max_visible_size]. *)
Theorem visible_size_within_seen_bounds :
  forall (order_id : string) (price initial_size : Q) (is_bid : bool) (timestamp : Q)
         (trader_id : option string) (evs : list V2.OrderEvent),
    let o := V2.apply_events evs
               (V2.IcebergOrder_init order_id price initial_size is_bid timestamp trader_id) in
    V2.min_size_seen o <= V2.current_size o <= V2.max_visible_size o /\
    V2.min_size_seen o <= initial_size <= V2.max_visible_size o.
Proof.
  intros oid price init b ts tr evs o. subst o.
  set (o0 := V2.IcebergOrder_init oid price init b ts tr).
  assert (H : forall o, min_size_seen o <= current_size o <= max_visible_size o ->
                        min_size_seen o <= initial_size o <= max_visible_size o ->
              min_size_seen (apply_events evs o) <= current_size (apply_events evs o)
                <= max_visible_size (apply_events evs o) /\
              min_size_seen (apply_events evs o) <= initial_size (apply_events evs o)
                <= max_visible_size (apply_events evs o)).
  { induction evs as [|ev evs IH]; intros o Hc Hi; [split; assumption|].
    cbn [apply_events fold_left]. fold (apply_events evs (apply_event ev o)).
    destruct (apply_event_size_bounds ev o Hc Hi) as (Hc' & Hi' & _).
    apply IH; assumption. }
  destruct (H o0) as [H1 H2]; [cbn; split; lra | cbn; split; lra |].
  rewrite apply_events_initial_size in H2. split; [exact H1 | exact H2].
Qed.

Lemma max_lower_l (a b : Q) : a <= Py.max a b.
Proof. destruct (max_spec a b) as [[? ->]|[? ->]]; lra. Qed.

Lemma add_execution_fills_sound f t o :
  0 <= f -> fills_sound o ->
  fills_sound (add_execution f t o) /\
  total_filled o <= total_filled (add_execution f t o).
Proof.
  intros Hf (Hc & Ht & Hp).
  pose proof (add_execution_fills f t o) as F.
  unfold fills_sound.
  rewrite add_execution_current_size,
    (f_equal fst F : total_filled _ = _), (f_equal snd F : execution_percentage _ = _).
  cbn [fst snd].
  set (est := Py.max (total_filled o + f + current_size o) (max_visible_size o)).
  pose proof (max_lower_l (total_filled o + f + current_size o) (max_visible_size o))
    as Hest. fold est in Hest.
  split; [|lra]. split; [exact Hc|]. split; [lra|].
  destruct (Py.ltb 0 est) eqn:E; [|exact Hp].
  apply ltb_true in E. split.
  - apply Qle_shift_div_l; [exact E | lra].
  - apply Qle_shift_div_r; [exact E | lra].
Qed.

Lemma apply_event_fills_sound ev o :
  match ev with Replace n _ _ => 0 <= n | Execution f _ => 0 <= f end ->
  fills_sound o ->
  fills_sound (apply_event ev o) /\ total_filled o <= total_filled (apply_event ev o).
Proof.
  intros Hev Ho. destruct ev as [n t p|f t]; cbn [apply_event].
  - destruct (Qlt_le_dec n (current_size o)) as [Hlt|Hle].
    + pose proof (add_replace_event_fills_decrease n t p o Hlt) as F.
      destruct (add_execution_fills_sound (Qabs (n - current_size o)) t o
                  (Qabs_nonneg _) Ho) as ((_ & Ht & Hp) & Hm).
      unfold fills_sound.
      rewrite add_replace_event_current_size,
        (f_equal fst F : total_filled _ = _), (f_equal snd F : execution_percentage _ = _).
      cbn [fills_of fst snd]. repeat split; try assumption; lra.
    + destruct (add_replace_event_summary n t p o) as (_ & _ & _ & F & _).
      specialize (F Hle). destruct Ho as (_ & Ht & Hp).
      unfold fills_sound.
      rewrite add_replace_event_current_size,
        (f_equal fst F : total_filled _ = _), (f_equal snd F : execution_percentage _ = _).
      cbn [fills_of fst snd]. repeat split; try assumption; lra.
  - apply add_execution_fills_sound; assumption.
Qed.

Lemma apply_events_fills_sound evs o :
  sizes_nonneg evs -> fills_sound o ->
  fills_sound (apply_events evs o) /\ total_filled o <= total_filled (apply_events evs o).
Proof.
  revert o. induction evs as [|ev evs IH]; intros o Hevs Ho;
    [split; [exact Ho | apply Qle_refl]|].
  cbn [apply_events fold_left]. fold (apply_events evs (apply_event ev o)).
  destruct (apply_event_fills_sound ev o) as [Ho' Hm];
    [apply (Hevs ev); left; reflexivity | exact Ho |].
  destruct (IH (apply_event ev o)) as [Ho'' Hm'];
    [intros e He; apply (Hevs e); right; exact He | exact Ho' |].
  split; [exact Ho'' | lra].
Qed.

Lemma apply_events_app evs1 evs2 o :
  apply_events (evs1 ++ evs2) o = apply_events evs2 (apply_events evs1 o).
Proof. unfold apply_events. apply fold_left_app. Qed.

(** X2.  When the initial size, every replace size and every fill are
    non-negative, then along every sequence of events [total_filled] is
    non-negative and never decreases, and [execution_percentage] stays in
    [[0, 1]]. *)
Theorem fill_accounting_is_monotone_and_bounded :
  forall (order_id : string) (price initial_size : Q) (is_bid : bool) (timestamp : Q)
         (trader_id : option string) (earlier later : list V2.OrderEvent),
    0 <= initial_size -> sizes_nonneg (earlier ++ later) ->
    let o0 := V2.IcebergOrder_init order_id price initial_size is_bid timestamp trader_id in
    let o := V2.apply_events (earlier ++ later) o0 in
    0 <= V2.total_filled (V2.apply_events earlier o0) <= V2.total_filled o /\
    0 <= V2.execution_percentage o <= 1.
Proof.
  intros oid price init b ts tr evs1 evs2 Hinit Hevs o0 o. subst o.
  assert (H0 : fills_sound o0) by (unfold fills_sound; cbn; repeat split; lra).
  destruct (apply_events_fills_sound evs1 o0) as [H1 _]; [|exact H0|].
  { intros e He. apply Hevs, in_or_app. left. exact He. }
  rewrite apply_events_app.
  destruct (apply_events_fills_sound evs2 (apply_events evs1 o0)) as [H2 Hm]; [|exact H1|].
  { intros e He. apply Hevs, in_or_app. right. exact He. }
  destruct H1 as (_ & Ht1 & _). destruct H2 as (_ & _ & Hp2).
  repeat split; try assumption; lra.
Qed.

Lemma fill_accounting_is_monotone_and_bounded_witness :
  let o0 := V2.IcebergOrder_init "A" 100 40 true 0 None in
  let earlier := V2.Replace 10 1 None :: V2.Execution 5 2 :: nil in
  let later := V2.Replace 40 3 None :: V2.Replace 25 4 (Some 101) :: nil in
  0 <= V2.total_filled (V2.apply_events earlier o0)
    <= V2.total_filled (V2.apply_events (earlier ++ later) o0) /\
  0 <= V2.execution_percentage (V2.apply_events (earlier ++ later) o0) <= 1.
Proof.
  intros o0 earlier later.
  apply (fill_accounting_is_monotone_and_bounded "A" 100 40 true 0 None earlier later).
  - lra.
  - intros ev Hin. simpl in Hin.
    destruct Hin as [<-|[<-|[<-|[<-|[]]]]]; lra.
Defined.

(** The effect of each step of a replace on the counters and log lengths;
    [Z.b2z] turns the step's condition into the increment. *)
Lemma replace_price_tallies p o :
  exists grew : bool,
    tallies_of (replace_price p o)
    = (refill_count o, size_decrease_count o,
       (price_changes o
        + Z.b2z match p with Some q => negb (Py.eqb q (current_price o)) | None => false end)%Z,
       Z.of_nat (length (replace_events o)), Z.of_nat (length (execution_events o)),
       (Z.of_nat (length (price_history o)) + Z.b2z grew)%Z) /\
    (grew = true ->
     match p with Some q => negb (Py.eqb q (current_price o)) | None => false end = true).
Proof.
  unfold tallies_of, replace_price. destruct p as [q|].
  - destruct (Py.eqb q (current_price o)); cbn [negb].
    + exists false. split; [|discriminate]. cbn [Z.b2z]. rewrite !Z.add_0_r. reflexivity.
    + cbv zeta. cbn [price_history set_current_price].
      destruct (Py.mem q (price_history o)); cbn [negb].
      * exists false. split; [|discriminate]. cbn. rewrite Z.add_0_r. reflexivity.
      * exists true. split; [|reflexivity]. cbn. rewrite length_app. cbn [length].
        repeat f_equal. lia.
  - exists false. split; [|discriminate]. cbn [Z.b2z]. rewrite !Z.add_0_r. reflexivity.
Qed.

Lemma replace_log_tallies e o :
  tallies_of (replace_log e o)
  = (refill_count o, size_decrease_count o, price_changes o,
     (Z.of_nat (length (replace_events o)) + 1)%Z,
     Z.of_nat (length (execution_events o)), Z.of_nat (length (price_history o))).
Proof.
  unfold tallies_of, replace_log. cbn. rewrite length_app. cbn [length].
  repeat f_equal. lia.
Qed.

Lemma add_execution_tallies f t o :
  tallies_of (add_execution f t o)
  = (refill_count o, size_decrease_count o, price_changes o,
     Z.of_nat (length (replace_events o)),
     (Z.of_nat (length (execution_events o)) + 1)%Z, Z.of_nat (length (price_history o))).
Proof.
  unfold tallies_of, add_execution. break_ifs; cbn; rewrite length_app; cbn [length];
    repeat f_equal; lia.
Qed.

Lemma replace_decrease_tallies c t o :
  tallies_of (replace_decrease c t o)
  = (refill_count o, (size_decrease_count o + Z.b2z (Py.ltb c 0))%Z, price_changes o,
     Z.of_nat (length (replace_events o)),
     (Z.of_nat (length (execution_events o)) + Z.b2z (Py.ltb c 0))%Z,
     Z.of_nat (length (price_history o))).
Proof.
  unfold replace_decrease. destruct (Py.ltb c 0); cbn [Z.b2z].
  - pose proof (add_execution_tallies (Qabs c) t o) as T. cbv zeta.
    unfold tallies_of in *. cbn [refill_count size_decrease_count price_changes
      replace_events execution_events price_history set_size_decrease_count].
    congruence.
  - unfold tallies_of. rewrite !Z.add_0_r. reflexivity.
Qed.

Lemma replace_min_tallies n o : tallies_of (replace_min n o) = tallies_of o.
Proof. unfold tallies_of, replace_min. break_ifs; reflexivity. Qed.

Lemma replace_max_tallies n o : tallies_of (replace_max n o) = tallies_of o.
Proof. unfold tallies_of, replace_max. break_ifs; reflexivity. Qed.

Lemma replace_refill_tallies c s o :
  tallies_of (replace_refill c s o)
  = ((refill_count o + Z.b2z (Py.ltb 0 c && Py.ltb s (initial_size o)))%Z,
     size_decrease_count o, price_changes o,
     Z.of_nat (length (replace_events o)), Z.of_nat (length (execution_events o)),
     Z.of_nat (length (price_history o))).
Proof.
  unfold tallies_of, replace_refill.
  destruct (Py.ltb 0 c && Py.ltb s (initial_size o)); cbn; rewrite ?Z.add_0_r; reflexivity.
Qed.

Lemma tallies_eq o (a b c d e f : Z) :
  tallies_of o = (a, b, c, d, e, f) ->
  refill_count o = a /\ size_decrease_count o = b /\ price_changes o = c /\
  Z.of_nat (length (replace_events o)) = d /\
  Z.of_nat (length (execution_events o)) = e /\
  Z.of_nat (length (price_history o)) = f.
Proof. unfold tallies_of. intros H. inversion H. repeat split. Qed.

Lemma tallies_sound_replace n t p o replaces executions :
  tallies_sound replaces executions o ->
  tallies_sound (replaces + 1) executions (add_replace_event n t p o).
Proof.
  intros (Hr & He & Hrc & Hsd & Hsum & Hpc & Hph).
  rewrite add_replace_event_stages.
  set (s1 := replace_price p o).
  set (s2 := replace_log (replace_entry n t p o) s1).
  set (s3 := replace_decrease (n - current_size o) t s2).
  set (s4 := replace_min n s3). set (s5 := replace_max n s4).
  set (s6 := replace_refill (n - current_size o) (current_size o) s5).
  change (tallies_sound (replaces + 1) executions s6).
  destruct (replace_price_tallies p o) as (grew & T1 & Hgrew). fold s1 in T1.
  pose proof (replace_log_tallies (replace_entry n t p o) s1) as T2. fold s2 in T2.
  pose proof (replace_decrease_tallies (n - current_size o) t s2) as T3. fold s3 in T3.
  pose proof (replace_min_tallies n s3) as T4. fold s4 in T4.
  pose proof (replace_max_tallies n s4) as T5. fold s5 in T5.
  pose proof (replace_refill_tallies (n - current_size o) (current_size o) s5) as T6.
  fold s6 in T6.
  set (changed := match p with
                  | Some q => negb (Py.eqb q (current_price o)) | None => false
                  end) in *.
  set (refilled := Py.ltb 0 (n - current_size o)
                   && Py.ltb (current_size o) (initial_size s5)) in *.
  assert (Hexcl : (Z.b2z refilled + Z.b2z (Py.ltb (n - current_size o) 0) <= 1)%Z).
  { subst refilled. destruct (Py.ltb 0 (n - current_size o)) eqn:E1;
      destruct (Py.ltb (n - current_size o) 0) eqn:E2; cbn [andb Z.b2z];
      try (destruct (Py.ltb (current_size o) (initial_size s5)); cbn [Z.b2z]); try lia.
    apply ltb_true in E1, E2. lra. }
  assert (Hg : (Z.b2z grew <= Z.b2z changed)%Z).
  { destruct grew; [rewrite Hgrew by reflexivity|]; destruct changed; cbn; lia. }
  assert (T53 : tallies_of s5 = tallies_of s3) by congruence.
  unfold tallies_of at 2 in T53.
  apply tallies_eq in T1, T2, T3, T53, T6.
  destruct T1 as (A1 & B1 & C1 & D1 & E1 & F1), T2 as (A2 & B2 & C2 & D2 & E2 & F2),
    T3 as (A3 & B3 & C3 & D3 & E3 & F3), T53 as (A5 & B5 & C5 & D5 & E5 & F5),
    T6 as (A6 & B6 & C6 & D6 & E6 & F6).
  unfold tallies_sound.
  destruct changed, grew, refilled, (Py.ltb (n - current_size o) 0);
    cbn [Z.b2z] in *; lia.
Qed.

Lemma tallies_sound_execution f t o replaces executions :
  tallies_sound replaces executions o ->
  tallies_sound replaces (executions + 1) (add_execution f t o).
Proof.
  intros H. pose proof (add_execution_tallies f t o) as T.
  apply tallies_eq in T. unfold tallies_sound in *. lia.
Qed.

Lemma tallies_sound_apply_events evs o replaces executions :
  tallies_sound replaces executions o ->
  tallies_sound (replaces + Z.of_nat (count_replaces evs))
    (executions + Z.of_nat (count_executions evs)) (apply_events evs o).
Proof.
  revert o replaces executions.
  induction evs as [|ev evs IH]; intros o r e H.
  - cbn. rewrite !Z.add_0_r. exact H.
  - cbn [apply_events fold_left]. fold (apply_events evs (apply_event ev o)).
    destruct ev as [n t p|f t]; cbn [apply_event].
    + pose proof (IH _ _ _ (tallies_sound_replace n t p o r e H)) as H'.
      unfold count_replaces, count_executions in *. cbn [List.filter length].
      replace (r + Z.of_nat (S (length (List.filter _ evs))))%Z
        with (r + 1 + Z.of_nat (length (List.filter
               (fun ev => match ev with Replace _ _ _ => true | _ => false end) evs)))%Z
        by lia.
      exact H'.
    + pose proof (IH _ _ _ (tallies_sound_execution f t o r e H)) as H'.
      unfold count_replaces, count_executions in *. cbn [List.filter length].
      replace (e + Z.of_nat (S (length (List.filter _ evs))))%Z
        with (e + 1 + Z.of_nat (length (List.filter
               (fun ev => match ev with Execution _ _ => true | _ => false end) evs)))%Z
        by lia.
      exact H'.
Qed.

(** The three logs of an order only grow at the end. *)
Lemma replace_price_execution_events p o :
  execution_events (replace_price p o) = execution_events o.
Proof. unfold replace_price. destruct p; break_ifs; reflexivity. Qed.

Lemma replace_decrease_execution_events c t o :
  exists tail,
    execution_events (replace_decrease c t o) = execution_events o ++ tail.
Proof.
  unfold replace_decrease. destruct (Py.ltb c 0).
  - eexists. cbv zeta. unfold add_execution. break_ifs; reflexivity.
  - exists nil. rewrite app_nil_r. reflexivity.
Qed.

Lemma replace_min_execution_events n o :
  execution_events (replace_min n o) = execution_events o.
Proof. unfold replace_min. break_ifs; reflexivity. Qed.

Lemma replace_max_execution_events n o :
  execution_events (replace_max n o) = execution_events o.
Proof. unfold replace_max. break_ifs; reflexivity. Qed.

Lemma replace_refill_execution_events c s o :
  execution_events (replace_refill c s o) = execution_events o.
Proof. unfold replace_refill. break_ifs; reflexivity. Qed.

Lemma add_replace_event_execution_events n t p o :
  exists tail,
    execution_events (add_replace_event n t p o) = execution_events o ++ tail.
Proof.
  rewrite add_replace_event_stages.
  set (s1 := replace_price p o).
  set (s2 := replace_log (replace_entry n t p o) s1).
  set (s3 := replace_decrease (n - current_size o) t s2).
  set (s4 := replace_min n s3). set (s5 := replace_max n s4).
  set (s6 := replace_refill (n - current_size o) (current_size o) s5).
  change (exists tail, execution_events s6 = execution_events o ++ tail).
  destruct (replace_decrease_execution_events (n - current_size o) t s2) as (tail & E3).
  exists tail. subst s6 s5 s4.
  rewrite replace_refill_execution_events, replace_max_execution_events,
    replace_min_execution_events.
  unfold s3. rewrite E3. subst s2. unfold replace_log.
  cbn [execution_events set_replace_events]. subst s1.
  rewrite replace_price_execution_events. reflexivity.
Qed.

Lemma apply_event_logs_grow ev o :
  exists r e h,
    replace_events (apply_event ev o) = replace_events o ++ r /\
    execution_events (apply_event ev o) = execution_events o ++ e /\
    price_history (apply_event ev o) = price_history o ++ h.
Proof.
  destruct ev as [n t p|f t]; cbn [apply_event].
  - destruct (add_replace_event_summary n t p o) as (_ & _ & L & _).
    destruct (add_replace_event_execution_events n t p o) as (e & E).
    destruct (add_replace_event_prices n t p o) as (P & _).
    exists (replace_entry n t p o :: nil), e.
    assert (Hh : exists h, fst (price_step p (price_history o) (current_price o))
                           = price_history o ++ h).
    { unfold price_step. destruct p as [q|]; [|exists nil; rewrite app_nil_r; reflexivity].
      destruct (Py.eqb q (current_price o));
        [exists nil; rewrite app_nil_r; reflexivity|].
      destruct (Py.mem q (price_history o));
        [exists nil; rewrite app_nil_r; reflexivity | eexists; reflexivity]. }
    destruct Hh as (h & Hh). exists h. rewrite P, Hh. repeat split; assumption.
  - destruct (add_execution_prices f t o) as (P & _).
    exists nil,
      ({| ex_timestamp := t; ex_filled_size := f; ex_remaining_size := current_size o |}
       :: nil), nil.
    rewrite add_execution_replace_events, P, !app_nil_r.
    split; [reflexivity|]. split; [|reflexivity].
    unfold add_execution. break_ifs; reflexivity.
Qed.

Lemma apply_events_logs_grow evs o :
  exists r e h,
    replace_events (apply_events evs o) = replace_events o ++ r /\
    execution_events (apply_events evs o) = execution_events o ++ e /\
    price_history (apply_events evs o) = price_history o ++ h.
Proof.
  revert o. induction evs as [|ev evs IH]; intros o.
  - exists nil, nil, nil. rewrite !app_nil_r. repeat split.
  - cbn [apply_events fold_left]. fold (apply_events evs (apply_event ev o)).
    destruct (IH (apply_event ev o)) as (r2 & e2 & h2 & R2 & E2 & H2).
    destruct (apply_event_logs_grow ev o) as (r1 & e1 & h1 & R1 & E1 & H1).
    exists (r1 ++ r2), (e1 ++ e2), (h1 ++ h2).
    rewrite R2, E2, H2, R1, E1, H1, !app_assoc. repeat split.
Qed.

(** The replace log records the replace events in order. *)
Lemma apply_events_replace_log evs o :
  List.map (fun e => (re_timestamp e, re_old_size e, re_new_size e))
    (replace_events (apply_events evs o))
  = List.map (fun e => (re_timestamp e, re_old_size e, re_new_size e)) (replace_events o)
    ++ replace_calls (current_size o) evs.
Proof.
  revert o. induction evs as [|ev evs IH]; intros o.
  - cbn. rewrite app_nil_r. reflexivity.
  - cbn [apply_events fold_left]. fold (apply_events evs (apply_event ev o)).
    rewrite IH. destruct ev as [n t p|f t]; cbn [apply_event replace_calls].
    + destruct (add_replace_event_summary n t p o) as (_ & _ & L & _).
      rewrite L, add_replace_event_current_size, map_app, <- app_assoc. reflexivity.
    + rewrite add_execution_replace_events, add_execution_current_size. reflexivity.
Qed.

(** X3.  The logs of an order are append-only and its counters agree with
    them.  After any sequence of events, [replace_events] has one entry per
    replace, and its entries record, in order, the clock reading, the old
    size and the new size of each replace; [execution_events] has one entry
    per execution event plus one per size decrease;
    [refill_count + size_decrease_count] and [price_changes] do not exceed
    the number of replaces; [price_history] has between one and
    [1 + price_changes] entries; and whatever events follow, the three logs
    keep the entries they have and only grow at the end. *)
Theorem logs_and_counters_agree :
  forall (order_id : string) (price initial_size : Q) (is_bid : bool) (timestamp : Q)
         (trader_id : option string) (evs : list V2.OrderEvent),
    let o := V2.apply_events evs
               (V2.IcebergOrder_init order_id price initial_size is_bid timestamp trader_id) in
    length (V2.replace_events o) = count_replaces evs /\
    Z.of_nat (length (V2.execution_events o))
    = (Z.of_nat (count_executions evs) + V2.size_decrease_count o)%Z /\
    (0 <= V2.refill_count o)%Z /\ (0 <= V2.size_decrease_count o)%Z /\
    (V2.refill_count o + V2.size_decrease_count o <= Z.of_nat (count_replaces evs))%Z /\
    (0 <= V2.price_changes o <= Z.of_nat (count_replaces evs))%Z /\
    (1 <= Z.of_nat (length (V2.price_history o)) <= 1 + V2.price_changes o)%Z /\
    List.map (fun e => (V2.re_timestamp e, V2.re_old_size e, V2.re_new_size e))
      (V2.replace_events o)
    = replace_calls initial_size evs /\
    (forall more : list V2.OrderEvent,
       exists r e h,
         V2.replace_events (V2.apply_events more o) = V2.replace_events o ++ r /\
         V2.execution_events (V2.apply_events more o) = V2.execution_events o ++ e /\
         V2.price_history (V2.apply_events more o) = V2.price_history o ++ h).
Proof.
  intros oid price init b ts tr evs o. subst o.
  set (o0 := V2.IcebergOrder_init oid price init b ts tr).
  assert (H0 : tallies_sound 0 0 o0) by (unfold tallies_sound; cbn; lia).
  pose proof (tallies_sound_apply_events evs o0 0 0 H0) as H.
  rewrite !Z.add_0_l in H. destruct H as (Hr & He & H3 & H4 & H5 & H6 & H7).
  split; [lia|]. split; [exact He|]. split; [exact H3|]. split; [exact H4|].
  split; [exact H5|]. split; [exact H6|]. split; [exact H7|].
  split; [rewrite apply_events_replace_log; reflexivity|].
  intros more. apply apply_events_logs_grow.
Qed.
(** ** The rolling market metrics *)

Lemma deque_append_length {A : Type} (maxlen : nat) (x : A) (l : list A) :
  length (Py.deque_append maxlen x l) = Nat.min (length l + 1) maxlen.
Proof.
  unfold Py.deque_append. rewrite length_skipn, length_app. cbn [length]. lia.
Qed.

Lemma deque_append_room {A : Type} (maxlen : nat) (x : A) (l : list A) :
  (length l < maxlen)%nat -> Py.deque_append maxlen x l = l ++ x :: nil.
Proof.
  intros H. unfold Py.deque_append. rewrite length_app. cbn [length].
  replace (length l + 1 - maxlen)%nat with 0%nat by lia. reflexivity.
Qed.

Lemma deque_append_full {A : Type} (maxlen : nat) (x y : A) (l : list A) :
  length (y :: l) = maxlen -> Py.deque_append maxlen x (y :: l) = l ++ x :: nil.
Proof.
  intros H. unfold Py.deque_append. rewrite length_app. cbn [length] in *.
  replace (S (length l) + 1 - maxlen)%nat with 1%nat by lia. reflexivity.
Qed.

Lemma match_list_same {A B C : Type} (l : list A) (f : B -> C) (a b : B) (w : C) :
  f a = w -> f b = w -> f (match l with nil => a | _ => b end) = w.
Proof. destruct l; auto. Qed.

Lemma _update_metrics_windows m : windows_of (_update_metrics m) = windows_of m.
Proof.
  unfold _update_metrics. cbv zeta.
  match goal with
  | |- windows_of (if _ then _ else set_mm_volume_rate _ ?s2) = _ => set (m2 := s2)
  end.
  assert (W2 : windows_of m2 = windows_of m).
  { subst m2. apply (match_list_same _ windows_of). all: change (windows_of
      (match order_sizes m with
       | nil => set_mm_avg_order_size 50 m
       | _ => set_mm_avg_order_size (Py.sum (order_sizes m) / Py.len (order_sizes m)) m
       end) = windows_of m); apply (match_list_same _ windows_of); reflexivity. }
  destruct (2 <=? length (volume_history m2))%nat; exact W2.
Qed.

Lemma _maybe_update_metrics_windows now m :
  windows_of (_maybe_update_metrics now m) = windows_of m.
Proof.
  unfold _maybe_update_metrics. cbv zeta.
  destruct (Py.leb (_update_interval m) (now - _last_update m)); [|reflexivity].
  rewrite <- (_update_metrics_windows m). reflexivity.
Qed.

Lemma windows_eq m (a : nat) (b c d e : list Q) (f : Q) :
  windows_of m = (a, b, c, d, e, f) ->
  window_size m = a /\ order_sizes m = b /\ trade_sizes m = c /\
  volume_history m = d /\ timestamp_history m = e /\ _update_interval m = f.
Proof. unfold windows_of. intros H. inversion H. repeat split. Qed.

(** The windows after each call. *)
Lemma add_order_windows size now m :
  windows_of (add_order size now m)
  = (window_size m, Py.deque_append (window_size m) size (order_sizes m), trade_sizes m,
     volume_history m, Py.deque_append (window_size m) now (timestamp_history m),
     _update_interval m).
Proof. unfold add_order. cbv zeta. rewrite _maybe_update_metrics_windows. reflexivity. Qed.

Lemma add_trade_size_windows size now m :
  windows_of (add_trade_size size now m)
  = (window_size m, order_sizes m, Py.deque_append (window_size m) size (trade_sizes m),
     volume_history m, timestamp_history m, _update_interval m).
Proof.
  unfold add_trade_size. cbv zeta. rewrite _maybe_update_metrics_windows. reflexivity.
Qed.

Lemma apply_call_windows_bounded c m :
  windows_bounded m ->
  windows_bounded (apply_call c m) /\ window_size (apply_call c m) = window_size m.
Proof.
  intros (Ho & Ht & Hv & Hs). unfold windows_bounded.
  destruct c as [size now|size now|volume]; cbn [apply_call].
  - destruct (windows_eq _ _ _ _ _ _ _ (add_order_windows size now m))
      as (-> & -> & -> & -> & -> & _).
    rewrite !deque_append_length. repeat split; lia.
  - destruct (windows_eq _ _ _ _ _ _ _ (add_trade_size_windows size now m))
      as (-> & -> & -> & -> & -> & _).
    rewrite !deque_append_length. repeat split; lia.
  - unfold add_volume_sample. cbn. rewrite deque_append_length. repeat split; lia.
Qed.

(** X4.  The windows of the market metrics are bounded and slide.  After any
    sequence of [add_order], [add_trade] and [add_volume_sample] calls on a
    fresh object, the order and trade windows hold at most [window_size]
    sizes and the volume window at most 50 samples; and [add_order] on a
    window with room appends the size, while on a full window it drops the
    oldest size and appends the new one. *)
Theorem metrics_windows_are_bounded_and_slide :
  forall (window_size : nat) (calls : list MetricsCall),
    let m := apply_calls calls (V2.MarketMetrics_init window_size) in
    (length (V2.order_sizes m) <= window_size)%nat /\
    (length (V2.trade_sizes m) <= window_size)%nat /\
    (length (V2.volume_history m) <= 50)%nat /\
    length (V2.timestamp_history m) = length (V2.order_sizes m) /\
    (forall size now,
       (length (V2.order_sizes m) < window_size)%nat ->
       V2.order_sizes (V2.add_order size now m) = V2.order_sizes m ++ size :: nil) /\
    (forall size now oldest rest,
       V2.order_sizes m = oldest :: rest -> length (V2.order_sizes m) = window_size ->
       V2.order_sizes (V2.add_order size now m) = rest ++ size :: nil).
Proof.
  intros ws calls m.
  assert (H : windows_bounded m /\ V2.window_size m = ws).
  { subst m. unfold apply_calls.
    assert (H0 : windows_bounded (MarketMetrics_init ws) /\
                 V2.window_size (MarketMetrics_init ws) = ws).
    { unfold windows_bounded. cbn. repeat split; lia. }
    revert H0. generalize (MarketMetrics_init ws).
    induction calls as [|c calls IH]; intros m0 [Hb Hw]; [split; assumption|].
    cbn [fold_left]. apply IH.
    destruct (apply_call_windows_bounded c m0 Hb) as [Hb' Hw']. split; [exact Hb' | lia]. }
  destruct H as [(Ho & Ht & Hv & Hs) Hw]. rewrite Hw in Ho, Ht.
  unfold volume_history_maxlen in Hv.
  repeat split; try assumption.
  - intros size now Hroom.
    destruct (windows_eq _ _ _ _ _ _ _ (add_order_windows size now m)) as (_ & -> & _).
    apply deque_append_room. lia.
  - intros size now oldest rest Heq Hfull.
    destruct (windows_eq _ _ _ _ _ _ _ (add_order_windows size now m)) as (_ & -> & _).
    rewrite Heq in *. apply deque_append_full. lia.
Qed.

Lemma metrics_windows_are_bounded_and_slide_witness :
  let m := apply_calls (AddOrder 30 1 :: AddOrder 40 2 :: nil) (V2.MarketMetrics_init 2) in
  V2.order_sizes (V2.add_order 50 3 m) = 40 :: 50 :: nil.
Proof.
  intros m.
  destruct (metrics_windows_are_bounded_and_slide 2
              (AddOrder 30 1 :: AddOrder 40 2 :: nil)) as (_ & _ & _ & _ & _ & H).
  apply (H 50 3 30 (40 :: nil)); reflexivity.
Defined.

Ltac msimpl :=
  cbn [window_size order_sizes trade_sizes volume_history timestamp_history
       _avg_order_size _avg_trade_size _volume_rate _last_update _update_interval
       set_mm_order_sizes set_mm_trade_sizes set_mm_volume_history
       set_mm_timestamp_history set_mm_avg_order_size set_mm_avg_trade_size
       set_mm_volume_rate set_mm_last_update] in *.

(** The aggregates computed by [_update_metrics]. *)
Lemma _update_metrics_cached m :
  _avg_order_size (_update_metrics m)
  = match order_sizes m with
    | nil => 50
    | _ => Py.sum (order_sizes m) / Py.len (order_sizes m)
    end /\
  _avg_trade_size (_update_metrics m)
  = match trade_sizes m with
    | nil => 30
    | _ => Py.sum (trade_sizes m) / Py.len (trade_sizes m)
    end /\
  _volume_rate (_update_metrics m)
  = (if (2 <=? length (volume_history m))%nat
     then Py.sum (skipn (length (volume_history m) - 10) (volume_history m))
          / inject_Z (Z.min 10 (Z.of_nat (length (volume_history m))))
     else 100) /\
  _last_update (_update_metrics m) = _last_update m.
Proof.
  unfold _update_metrics. cbv zeta.
  destruct (order_sizes m) eqn:E1; msimpl;
    destruct (trade_sizes m) eqn:E2; msimpl;
    destruct (2 <=? length (volume_history m))%nat; msimpl;
    repeat split; reflexivity.
Qed.

Lemma _maybe_update_metrics_not_due now m :
  now - _last_update m < _update_interval m -> _maybe_update_metrics now m = m.
Proof.
  intros H. unfold _maybe_update_metrics. cbv zeta.
  destruct (Py.leb (_update_interval m) (now - _last_update m)) eqn:E; [|reflexivity].
  apply leb_true in E. lra.
Qed.

Lemma _maybe_update_metrics_due now m :
  _update_interval m <= now - _last_update m ->
  _maybe_update_metrics now m = set_mm_last_update now (_update_metrics m).
Proof.
  intros H. unfold _maybe_update_metrics. cbv zeta.
  destruct (Py.leb (_update_interval m) (now - _last_update m)) eqn:E; [reflexivity|].
  apply leb_false in E. lra.
Qed.

Lemma len_nonzero {A : Type} (l : list A) : l <> nil -> ~ Py.len l == 0.
Proof.
  intros Hl. destruct l as [|x l]; [congruence|].
  pose proof (len_positive x l). lra.
Qed.

(** X5.  The cached aggregates are recomputed lazily.  An [add_order] or
    [add_trade] less than [_update_interval] after the last recompute leaves
    the averages, the volume rate and the recompute time as they were.  Once
    the interval has elapsed, [add_order] stamps the recompute time and sets
    the average order size to the mean of the updated window (50 on an empty
    one), the average trade size to 30 when no trade was seen and the volume
    rate to 100 when fewer than two volume samples exist. *)
Theorem metrics_recompute_is_time_gated :
  forall (m : V2.MarketMetrics) (size now : Q),
    (now - V2._last_update m < V2._update_interval m ->
     cached_of (V2.add_order size now m) = cached_of m /\
     cached_of (V2.add_trade_size size now m) = cached_of m) /\
    (V2._update_interval m <= now - V2._last_update m ->
     let m' := V2.add_order size now m in
     V2._last_update m' = now /\
     (V2.order_sizes m' <> nil ->
      V2._avg_order_size m' * Py.len (V2.order_sizes m') == Py.sum (V2.order_sizes m')) /\
     (V2.order_sizes m' = nil -> V2._avg_order_size m' = 50) /\
     (V2.trade_sizes m = nil -> V2._avg_trade_size m' = 30) /\
     ((length (V2.volume_history m) < 2)%nat -> V2._volume_rate m' = 100)).
Proof.
  intros m size now. split.
  - intros Hlt. unfold add_order, add_trade_size. cbv zeta.
    rewrite !_maybe_update_metrics_not_due by (msimpl; exact Hlt).
    split; reflexivity.
  - intros Hdue m'. subst m'. unfold add_order. cbv zeta.
    set (m1 := set_mm_timestamp_history _ _).
    rewrite (_maybe_update_metrics_due now m1) by (subst m1; msimpl; exact Hdue).
    destruct (_update_metrics_cached m1) as (Ho & Ht & Hv & _).
    destruct (windows_eq _ _ _ _ _ _ _ (_update_metrics_windows m1))
      as (_ & Hos & _).
    msimpl. rewrite Hos, Ho, Ht, Hv.
    split; [reflexivity|]. split; [|split; [|split]].
    + intros Hne. destruct (order_sizes m1) as [|x l] eqn:E; [congruence|].
      rewrite <- E in *. field. apply len_nonzero. congruence.
    + intros ->. reflexivity.
    + intros E. subst m1. msimpl. rewrite E. reflexivity.
    + intros Hlen. subst m1. msimpl.
      destruct (2 <=? length (volume_history m))%nat eqn:E; [|reflexivity].
      apply Nat.leb_le in E. lia.
Qed.

Lemma metrics_recompute_is_time_gated_witness :
  let m := V2.add_order 30 7 (V2.MarketMetrics_init 100) in
  cached_of (V2.add_order 90 9 m) = cached_of m /\
  V2._last_update (V2.add_order 90 12 m) = 12 /\
  V2._avg_order_size (V2.add_order 90 12 m) * Py.len (V2.order_sizes (V2.add_order 90 12 m))
  == Py.sum (V2.order_sizes (V2.add_order 90 12 m)).
Proof.
  intros m.
  destruct (metrics_recompute_is_time_gated m 90 9) as [Hnot _].
  destruct (metrics_recompute_is_time_gated m 90 12) as [_ Hdue].
  split; [apply Hnot; vm_compute; reflexivity|].
  destruct Hdue as (H1 & H2 & _); [vm_compute; discriminate|].
  split; [exact H1|]. apply H2. vm_compute. discriminate.
Defined.

Lemma sorted_nth_le (l : list Q) (i j : nat) (x y : Q) :
  Sorted Qle l -> (i <= j)%nat ->
  nth_error l i = Some x -> nth_error l j = Some y -> x <= y.
Proof.
  intros Hs. apply Sorted_StronglySorted in Hs; [|exact Qle_trans].
  revert i j. induction Hs as [|a l Hs IH Ha]; intros i j Hij Hi Hj.
  - destruct i; discriminate Hi.
  - destruct i as [|i], j as [|j]; cbn [nth_error] in Hi, Hj.
    + injection Hi as <-. injection Hj as <-. apply Qle_refl.
    + injection Hi as <-. apply nth_error_In in Hj.
      rewrite List.Forall_forall in Ha. exact (Ha y Hj).
    + lia.
    + apply (IH i j); [lia | exact Hi | exact Hj].
Qed.

Lemma max_monotone_l (x y b : Q) : x <= y -> Py.max x b <= Py.max y b.
Proof.
  intros H.
  destruct (max_spec x b) as [[? ->]|[? ->]], (max_spec y b) as [[? ->]|[? ->]]; lra.
Qed.

Lemma max_is_either (a b : Q) : Py.max a b = a \/ Py.max a b = b.
Proof. unfold Py.max. destruct (Py.ltb a b); auto. Qed.

(** X6.  For percentiles [0 <= p <= q] the order-size percentile never
    raises an error and is monotone: the value for [p] is at most the value
    for [q].  Every value is at least 20, and on a non-empty window it is
    either 20 or one of the sizes in the window. *)
Theorem percentile_order_size_is_monotone :
  forall (self : V2.MarketMetrics) (p q : Q),
    0 <= p -> p <= q ->
    exists x y,
      V2.get_percentile_order_size p self = Some x /\
      V2.get_percentile_order_size q self = Some y /\
      20 <= x /\ x <= y /\
      (V2.order_sizes self <> nil -> x = 20 \/ In x (V2.order_sizes self)).
Proof.
  intros self p q Hp Hpq.
  destruct (order_sizes self) as [|s0 rest] eqn:Hw.
  - exists 100, 100. unfold get_percentile_order_size. rewrite Hw.
    repeat split; try reflexivity; try lra. congruence.
  - assert (Hne : order_sizes self <> nil) by congruence.
    rewrite <- Hw. clear s0 rest Hw.
    destruct (percentile_nonempty p self Hp Hne) as (x & Hx & Hpx).
    destruct (percentile_nonempty q self) as (y & Hy & Hqy); [lra | exact Hne |].
    assert (Hidx : (Z.to_nat (Z.min (Qfloor (Py.fmul (Py.fdiv p 100)
                        (inject_Z (Z.of_nat (length (order_sizes self))))))
                      (Z.of_nat (length (order_sizes self)) - 1))
                    <= Z.to_nat (Z.min (Qfloor (Py.fmul (Py.fdiv q 100)
                        (inject_Z (Z.of_nat (length (order_sizes self))))))
                      (Z.of_nat (length (order_sizes self)) - 1)))%nat).
    { assert (Hn : 0 <= inject_Z (Z.of_nat (length (order_sizes self)))).
      { change 0 with (inject_Z 0). rewrite <- Zle_Qle. lia. }
      assert (Hq : Py.fdiv p 100 <= Py.fdiv q 100).
      { unfold Py.fdiv. apply float_monotone.
        - apply Qle_shift_div_l; lra.
        - apply Qmult_le_compat_r; [exact Hpq|]. discriminate. }
      assert (Hp0 : 0 <= Py.fdiv p 100).
      { unfold Py.fdiv. apply float_nonneg. apply Qle_shift_div_l; lra. }
      assert (Hm : Py.fmul (Py.fdiv p 100) (inject_Z (Z.of_nat (length (order_sizes self))))
                   <= Py.fmul (Py.fdiv q 100)
                        (inject_Z (Z.of_nat (length (order_sizes self))))).
      { unfold Py.fmul. apply float_monotone.
        - apply Qmult_le_0_compat; assumption.
        - apply Qmult_le_compat_r; assumption. }
      apply Qfloor_resp_le in Hm. lia. }
    exists (Py.max x 20), (Py.max y 20).
    split; [exact Hpx|]. split; [exact Hqy|].
    split; [apply max_lower_r|]. split.
    + apply max_monotone_l.
      exact (sorted_nth_le _ _ _ _ _ (sorted_Sorted (order_sizes self)) Hidx Hx Hy).
    + intros _. destruct (max_is_either x 20) as [-> | ->]; [right | left; reflexivity].
      apply nth_error_In in Hx.
      apply (Permutation_in _ (Permutation_sym (sorted_perm (order_sizes self)))).
      exact Hx.
Qed.

Lemma percentile_order_size_is_monotone_witness :
  let self := V2.add_order 30 3 (V2.add_order 5 2 (V2.add_order 60 1
                (V2.MarketMetrics_init 100))) in
  exists x y,
    V2.get_percentile_order_size 25 self = Some x /\
    V2.get_percentile_order_size 75 self = Some y /\ 20 <= x /\ x <= y.
Proof.
  intros self.
  destruct (percentile_order_size_is_monotone self 25 75) as (x & y & H1 & H2 & H3 & H4 & _);
    [lra | lra |].
  exists x, y. repeat split; assumption.
Defined.

(** ** The dynamic thresholds *)

Lemma clamp_bounds (x lo hi : Q) : lo <= hi -> lo <= Py.max (Py.min x hi) lo <= hi.
Proof.
  intros H.
  destruct (min_spec x hi) as [[? ->]|[? ->]];
    match goal with |- _ <= Py.max ?a ?b <= _ =>
      destruct (max_spec a b) as [[? ->]|[? ->]] end; lra.
Qed.

(** X7.  In every detector state the dynamic thresholds are clamped:
    [trigger_size] lies in [[20, 500]], [max_visible_size] in [[50, 1000]],
    [min_visible_size] in [[10, 100]] and below [max_visible_size]; the
    average order size used is at least 10 and the volume threshold at
    least 15. *)
Theorem dynamic_thresholds_are_clamped :
  forall d : V2.RealMBOIcebergDetector,
    let th := V2.get_dynamic_thresholds d in
    20 <= V2.th_trigger_size th <= 500 /\
    50 <= V2.th_max_visible_size th <= 1000 /\
    10 <= V2.th_min_visible_size th <= 100 /\
    V2.th_min_visible_size th <= V2.th_max_visible_size th /\
    10 <= V2.th_avg_order_size th /\
    15 <= V2.th_volume_threshold th.
Proof.
  intros d th. subst th. unfold get_dynamic_thresholds.
  cbn [th_trigger_size th_max_visible_size th_min_visible_size th_avg_order_size
       th_volume_threshold].
  set (avg := get_avg_order_size (market_metrics d)).
  set (rate := get_volume_rate (market_metrics d)).
  assert (Havg : 10 <= avg) by apply max_lower_r.
  assert (Hrate : 50 <= rate) by apply max_lower_r.
  unfold max_visible_percentage, min_visible_percentage, volume_threshold_percentage.
  split; [apply clamp_bounds; lra|].
  split; [apply clamp_bounds; lra|].
  split; [apply clamp_bounds; lra|].
  assert (E30 : rate * (30 / 100) == rate * (3 # 10))
    by (apply Qmult_comp; reflexivity).
  assert (E10 : avg * (10 / 100) == avg * (1 # 10))
    by (apply Qmult_comp; reflexivity).
  assert (E150 : avg * (150 / 100) == avg * (3 # 2))
    by (apply Qmult_comp; reflexivity).
  split; [|split; [exact Havg | lra]].
  destruct (min_spec (avg * (10 / 100)) 100) as [[? ->]|[? ->]];
    destruct (min_spec (avg * (150 / 100)) 1000) as [[? ->]|[? ->]];
    repeat match goal with |- context [Py.max ?a ?b] =>
      destruct (max_spec a b) as [[? ->]|[? ->]] end; lra.
Qed.

(** ** How a trade runs through the detector

    [add_trade], [_match_trade_to_orders_v2] and [handle_trades] reach the
    tracked orders only through [process_order_execution].  A relation between
    the detector before and after, with the messages sent, that holds of
    [process_order_execution] and of the bookkeeping around it, and that
    composes, therefore holds of all of them. *)

Section TradeChain.

Variable R : RealMBOIcebergDetector -> RealMBOIcebergDetector -> list Notification -> Prop.
Variable A : RealMBOIcebergDetector -> Prop.
Variable P : Q -> Prop.

Hypothesis R_frame :
  forall d d', active_orders d' = active_orders d -> registers_of d' = registers_of d ->
               R d d' nil.
Hypothesis R_trans :
  forall d1 d2 d3 out1 out2,
    A d1 -> R d1 d2 out1 -> R d2 d3 out2 -> R d1 d3 (out1 ++ out2).
Hypothesis R_keeps_A : forall d d' out, A d -> R d d' out -> A d'.
Hypothesis R_execution :
  forall oid sz now d, A d -> P sz ->
    R d (fst (process_order_execution oid sz now d))
      (snd (process_order_execution oid sz now d)).
Hypothesis P_positive : forall sz, 0 < sz -> P sz.

Lemma chain_refl d : R d d nil.
Proof. apply R_frame; reflexivity. Qed.

Lemma chain_match_loop per now l d out :
  A d ->
  exists d' out', match_loop per now l (d, out) = (d', out ++ out') /\ R d d' out'.
Proof.
  revert d out. induction l as [|key rest IH]; intros d out HA; cbn [match_loop].
  - exists d, nil. rewrite app_nil_r. split; [reflexivity | apply chain_refl].
  - destruct (active_orders d !! key) as [order|] eqn:Ho; [|apply IH, HA].
    destruct (Py.ltb 0 (Py.min per (current_size order))) eqn:E; [|apply IH, HA].
    apply ltb_true in E.
    pose proof (R_execution (order_id order) _ now d HA (P_positive _ E)) as H1.
    destruct (process_order_execution (order_id order) (Py.min per (current_size order))
                now d) as [d1 msgs]. cbn [fst snd] in H1.
    destruct (IH d1 (out ++ msgs) (R_keeps_A _ _ _ HA H1)) as (d' & out' & E' & H').
    exists d', (msgs ++ out'). rewrite E', app_assoc.
    split; [reflexivity | exact (R_trans _ _ _ _ _ HA H1 H')].
Qed.

Lemma chain_match trade now d :
  A d ->
  R d (fst (_match_trade_to_orders_v2 trade now d))
    (snd (_match_trade_to_orders_v2 trade now d)).
Proof.
  intros HA. unfold _match_trade_to_orders_v2. cbv zeta.
  destruct (dict_get (ti_price trade) (orders_by_price d)) as [ids|];
    [|apply chain_refl].
  match goal with |- context [match ?l with nil => _ | _ => _ end] => set (po := l) end.
  destruct po as [|k ks] eqn:Hpo; [apply chain_refl|]. rewrite <- Hpo.
  destruct (chain_match_loop (ti_size trade / Py.len po) now po d nil HA)
    as (d1 & out1 & E & H).
  rewrite E. exact H.
Qed.

Lemma chain_add_trade price size is_bid now d :
  A d ->
  R d (fst (add_trade price size is_bid now d)) (snd (add_trade price size is_bid now d)).
Proof.
  intros HA. unfold add_trade. cbv zeta.
  match goal with
  | |- R d (fst (_match_trade_to_orders_v2 ?t now ?d0)) _ => set (d1 := d0); set (tr := t)
  end.
  assert (H0 : R d d1 nil).
  { apply R_frame; subst d1; break_ifs; reflexivity. }
  change (snd (_match_trade_to_orders_v2 tr now d1))
    with (nil ++ snd (_match_trade_to_orders_v2 tr now d1)).
  apply (R_trans d d1 _ nil _ HA H0).
  apply chain_match. exact (R_keeps_A _ _ _ HA H0).
Qed.

Lemma chain_direct_execution x sz now d out :
  A d -> P sz ->
  exists d' out', direct_execution x sz now (d, out) = (d', out ++ out') /\ R d d' out'.
Proof.
  intros HA HP. unfold direct_execution.
  destruct (truthy_id x) as [oid|];
    [|exists d, nil; rewrite app_nil_r; split; [reflexivity | apply chain_refl]].
  destruct (active_orders d !! oid) eqn:Ho;
    [|exists d, nil; rewrite app_nil_r; split; [reflexivity | apply chain_refl]].
  pose proof (R_execution oid sz now d HA HP) as H1.
  destruct (process_order_execution oid sz now d) as [d1 msgs].
  exists d1, msgs. split; [reflexivity | exact H1].
Qed.

Lemma chain_handle_trades price size is_bid agg pas now d :
  A d -> P (normalize_size (size_multiplier d) size) ->
  R d (fst (handle_trades price size is_bid agg pas now d))
    (snd (handle_trades price size is_bid agg pas now d)).
Proof.
  intros HA HP. unfold handle_trades. cbv zeta.
  set (a := normalize_size (size_multiplier d) size) in *.
  pose proof (chain_add_trade price a is_bid now d HA) as H1.
  destruct (add_trade price a is_bid now d) as [d1 out1]. cbn [fst snd] in H1.
  pose proof (R_keeps_A _ _ _ HA H1) as HA1.
  destruct (chain_direct_execution pas a now d1 out1 HA1 HP) as (d2 & out2 & E2 & H2).
  rewrite E2.
  pose proof (R_keeps_A _ _ _ HA1 H2) as HA2.
  destruct (chain_direct_execution agg a now d2 (out1 ++ out2) HA2 HP)
    as (d3 & out3 & E3 & H3).
  rewrite E3. cbn [fst snd]. rewrite <- app_assoc.
  exact (R_trans _ _ _ _ _ HA H1 (R_trans _ _ _ _ _ HA1 H2 H3)).
Qed.

End TradeChain.

(** ** A trade only moves fill accounting *)

Lemma unfilled_add_execution f t o : unfilled (add_execution f t o) = unfilled o.
Proof.
  destruct o. unfold unfilled, add_execution. cbn.
  match goal with |- context [if ?c then _ else _] => destruct c end; reflexivity.
Qed.

Lemma unfilled_set_last_reported_filled v o :
  unfilled (set_last_reported_filled v o) = unfilled o.
Proof. destruct o. reflexivity. Qed.

Lemma only_fills_moved_frame d d' :
  active_orders d' = active_orders d -> registers_of d' = registers_of d ->
  only_fills_moved d d' nil.
Proof.
  intros Ha Hr. split; [exact Hr|]. split; [|constructor].
  intros k. rewrite Ha. reflexivity.
Qed.

Lemma only_fills_moved_trans d1 d2 d3 out1 out2 :
  True -> only_fills_moved d1 d2 out1 -> only_fills_moved d2 d3 out2 ->
  only_fills_moved d1 d3 (out1 ++ out2).
Proof.
  intros _ (Hr1 & Ha1 & Ho1) (Hr2 & Ha2 & Ho2).
  split; [congruence|]. split; [|apply Forall_app; split; assumption].
  intros k. rewrite Ha2. apply Ha1.
Qed.

Lemma only_fills_moved_execution oid sz now d :
  True -> True ->
  only_fills_moved d (fst (process_order_execution oid sz now d))
    (snd (process_order_execution oid sz now d)).
Proof.
  intros _ _. destruct (active_orders d !! oid) as [o|] eqn:Ho.
  - destruct (process_order_execution_tracked oid sz now d o Ho) as (o' & out & E & Hcase).
    rewrite E. cbn [fst snd].
    assert (Hu : unfilled o' = unfilled o).
    { destruct Hcase as [[_ ->]|(_ & _ & ->)]; [apply unfilled_add_execution|].
      rewrite unfilled_set_last_reported_filled. apply unfilled_add_execution. }
    split; [reflexivity|]. split.
    + intros k. dsimpl. destruct (decide (oid = k)) as [<-|Hne].
      * rewrite lookup_insert_eq, Ho. cbn. rewrite Hu. reflexivity.
      * rewrite lookup_insert_ne by exact Hne. reflexivity.
    + destruct Hcase as [[-> _]|(-> & _)]; repeat constructor.
  - rewrite process_order_execution_untracked by exact Ho.
    apply only_fills_moved_frame; reflexivity.
Qed.

(** X8.  A trade event, with or without order identifiers, changes nothing
    in the detector but the market metrics, the trade window, the volume
    sampling and the fill accounting of tracked orders.  The same orders are
    tracked afterwards, each equal to what it was outside [total_filled], the
    execution log, [execution_percentage], [last_update] and
    [last_reported_filled]; the price index, the candidate and confirmed
    registers, the best prices and the counters are unchanged; and only
    progress messages are sent. *)
Theorem trade_moves_only_fill_accounting :
  forall (d : V2.RealMBOIcebergDetector) (price size : Q) (is_bid : bool)
         (aggressor passive : option string) (now : Q),
    let r := V2.handle now (V2.TradeEvent price size is_bid aggressor passive) d in
    registers_of (fst r) = registers_of d /\
    (forall k, unfilled <$> V2.active_orders (fst r) !! k
               = unfilled <$> V2.active_orders d !! k) /\
    Forall (fun n => V2.topic n = V2.updates) (snd r).
Proof.
  intros d price size b agg pas now r. subst r. cbn [handle].
  apply (chain_handle_trades only_fills_moved (fun _ => True) (fun _ => True)
           only_fills_moved_frame only_fills_moved_trans (fun _ _ _ _ _ => I)
           only_fills_moved_execution (fun _ _ => I)); exact I.
Qed.

(** ** Registers and counters *)

Lemma process_new_order_registers oid is_bid price size trader now d :
  let d' := process_new_order oid is_bid price size trader now d in
  confirmed_icebergs d' = confirmed_icebergs d /\
  completed_icebergs d' = completed_icebergs d /\
  total_icebergs_detected d' = total_icebergs_detected d /\
  total_icebergs_completed d' = total_icebergs_completed d /\
  ((active_orders d' = active_orders d /\ potential_icebergs d' = potential_icebergs d) \/
   (exists o, active_orders d' = <[oid := o]> (active_orders d) /\
              order_id o = oid /\ is_confirmed_iceberg o = false /\
              (potential_icebergs d' = potential_icebergs d \/
               potential_icebergs d' = {[oid]} ∪ potential_icebergs d))).
Proof.
  unfold process_new_order. cbv zeta.
  match goal with |- context [if ?c then _ else _] => destruct c end.
  - match goal with |- context [if ?c then _ else _] => destruct c end.
    + split; [reflexivity|]. split; [reflexivity|]. split; [reflexivity|].
      split; [reflexivity|]. right. eexists. split; [reflexivity|].
      split; [reflexivity|]. split; [reflexivity|]. right. reflexivity.
    + split; [reflexivity|]. split; [reflexivity|]. split; [reflexivity|].
      split; [reflexivity|]. right. eexists. split; [reflexivity|].
      split; [reflexivity|]. split; [reflexivity|]. left. reflexivity.
  - split; [reflexivity|]. split; [reflexivity|]. split; [reflexivity|].
    split; [reflexivity|]. left. split; reflexivity.
Qed.

Lemma confirm_when_counts self order pattern why now st :
  analysis_ok self order st -> analysis_counts self order st ->
  analysis_counts self order (confirm_when pattern why now st).
Proof.
  destruct st as [[self' order'] out]. unfold analysis_ok, analysis_counts, confirm_when.
  intros (_ & Hid & _ & Hok) (Hp & Hc & Ht & Hobp & Hcase).
  destruct (pattern order' && negb (is_confirmed_iceberg order')) eqn:E;
    [|repeat split; assumption].
  apply andb_true_iff in E. destruct E as [_ E]. apply negb_true_iff in E.
  destruct Hok as [[-> ->]|(_ & Hconf & _)]; [|congruence].
  destruct Hcase as [(_ & Hcf & Hdet)|(Hlen & _)]; [|discriminate Hlen].
  cbn. repeat split; try assumption.
  right. repeat split; congruence.
Qed.

Lemma _analyze_iceberg_pattern_percentage_counts order now self :
  analysis_counts self order (_analyze_iceberg_pattern_percentage order now self).
Proof.
  assert (H0 : analysis_ok self order (self, order, nil) /\
               analysis_counts self order (self, order, nil)).
  { split; cbn; repeat split; left; repeat split; reflexivity. }
  unfold _analyze_iceberg_pattern_percentage. cbv zeta.
  match goal with |- context [if ?c then _ else _] => destruct c end; [apply H0|].
  assert (Hstep : forall pattern why st,
            analysis_ok self order st /\ analysis_counts self order st ->
            analysis_ok self order (confirm_when pattern why now st) /\
            analysis_counts self order (confirm_when pattern why now st)).
  { intros pattern why st [H1 H2].
    split; [apply confirm_when_ok, H1 | apply confirm_when_counts; assumption]. }
  apply Hstep, Hstep, Hstep, Hstep, Hstep, H0.
Qed.

Lemma count_topic_app t out1 out2 :
  count_topic t (out1 ++ out2) = (count_topic t out1 + count_topic t out2)%nat.
Proof. unfold count_topic. rewrite List.filter_app, length_app. reflexivity. Qed.

Lemma count_topic_updates_only t out :
  t <> updates -> Forall (fun n => topic n = updates) out -> count_topic t out = 0%nat.
Proof.
  intros Ht. unfold count_topic. induction 1 as [|n out Hn _ IH]; [reflexivity|].
  cbn [List.filter]. rewrite Hn. destruct t; [exact IH | congruence | exact IH].
Qed.

(** The registers after a replace of a tracked order. *)
Lemma process_replace_order_registers oid price size now d o :
  active_orders d !! oid = Some o ->
  let r := process_replace_order oid price size now d in
  potential_icebergs (fst r) = potential_icebergs d /\
  completed_icebergs (fst r) = completed_icebergs d /\
  counters_follow d (fst r) (snd r) /\
  ((snd r = nil /\ confirmed_icebergs (fst r) = confirmed_icebergs d) \/
   (snd r <> nil /\ confirmed_icebergs (fst r) = {[order_id o]} ∪ confirmed_icebergs d)).
Proof.
  intros Ho r. subst r. unfold process_replace_order. rewrite Ho. cbv zeta.
  match goal with
  | |- context [_analyze_iceberg_pattern_percentage ?x now ?s] =>
      set (replaced := x); set (d1 := s)
  end.
  pose proof (_analyze_iceberg_pattern_percentage_counts replaced now d1) as Hc.
  destruct (_analyze_iceberg_pattern_percentage replaced now d1) as [[d2 o'] out].
  destruct Hc as (Hp & Hcm & Htc & _ & Hcase).
  assert (Hd1 : potential_icebergs d1 = potential_icebergs d /\
                completed_icebergs d1 = completed_icebergs d /\
                confirmed_icebergs d1 = confirmed_icebergs d /\
                total_icebergs_detected d1 = total_icebergs_detected d /\
                total_icebergs_completed d1 = total_icebergs_completed d)
    by (subst d1; break_ifs; repeat split; reflexivity).
  destruct Hd1 as (E1 & E2 & E3 & E4 & E5).
  destruct (add_replace_event_identity (normalize_size (size_multiplier d) size) now
              (if negb (Py.eqb price (current_price o)) then Some price else None) o)
    as (Hrid & _).
  fold replaced in Hrid.
  cbn [fst snd]. dsimpl. unfold counters_follow. dsimpl.
  split; [congruence|]. split; [congruence|].
  destruct Hcase as [(-> & Hcf & Hdet)|(Hlen & Hn1 & Hn2 & Hcf & Hdet)].
  - split; [|left; split; [reflexivity | congruence]]. cbn. split; lia.
  - split; [|right; split; [intros ->; discriminate Hlen | congruence]].
    rewrite Hn1, Hn2. split; lia.
Qed.

(** The registers after the cancellation of a tracked order. *)
Lemma process_cancel_order_registers oid now d o :
  active_orders d !! oid = Some o ->
  let r := process_cancel_order oid now d in
  active_orders (fst r) = delete oid (active_orders d) /\
  potential_icebergs (fst r) = potential_icebergs d ∖ {[oid]} /\
  confirmed_icebergs (fst r) = confirmed_icebergs d ∖ {[oid]} /\
  counters_follow d (fst r) (snd r) /\
  snd r = (if is_confirmed_iceberg o
           then {| topic := full_executions; subject := set_completion_time (Some now) o;
                   reason := None |} :: nil
           else nil).
Proof.
  intros Ho r. subst r. unfold process_cancel_order. rewrite Ho. cbv zeta.
  unfold counters_follow.
  destruct (is_confirmed_iceberg o); cbn [fst snd]; unfold _cleanup_order; dsimpl.
  - rewrite lookup_insert_eq. dsimpl. rewrite delete_insert_eq.
    repeat split; cbn; lia.
  - rewrite Ho. dsimpl. repeat split; cbn; lia.
Qed.

Lemma process_cancel_order_untracked oid now d :
  active_orders d !! oid = None -> process_cancel_order oid now d = (d, nil).
Proof. intros Ho. unfold process_cancel_order. rewrite Ho. reflexivity. Qed.

(** The registers after [_cleanup_order]. *)
Lemma _cleanup_order_registers oid d :
  active_orders (_cleanup_order oid d) = delete oid (active_orders d) /\
  potential_icebergs (_cleanup_order oid d) = potential_icebergs d ∖ {[oid]} /\
  confirmed_icebergs (_cleanup_order oid d) = confirmed_icebergs d ∖ {[oid]} /\
  completed_icebergs (_cleanup_order oid d) = completed_icebergs d /\
  total_icebergs_detected (_cleanup_order oid d) = total_icebergs_detected d /\
  total_icebergs_completed (_cleanup_order oid d) = total_icebergs_completed d.
Proof.
  unfold _cleanup_order. destruct (active_orders d !! oid) eqn:Ho; dsimpl.
  - repeat split.
  - rewrite delete_id by exact Ho. repeat split.
Qed.

Lemma registry_sound_delete oid d d' :
  registry_sound d ->
  active_orders d' = delete oid (active_orders d) ->
  potential_icebergs d' = potential_icebergs d ∖ {[oid]} ->
  confirmed_icebergs d' = confirmed_icebergs d ∖ {[oid]} ->
  registry_sound d'.
Proof.
  intros (Hkc & Hp & Hc & Hconf) Ea Ep Ec. unfold registry_sound, key_consistent.
  rewrite Ea, Ep, Ec, dom_delete_L.
  split; [|split; [clear - Hp; set_solver | split; [clear - Hc; set_solver|]]].
  - intros k o Hk. apply lookup_delete_Some in Hk. destruct Hk as [_ Hk].
    exact (Hkc k o Hk).
  - intros k o Hk Hco. apply lookup_delete_Some in Hk. destruct Hk as [Hne Hk].
    pose proof (Hconf k o Hk Hco) as Hin. clear - Hin Hne. set_solver.
Qed.

Lemma cleanup_fold_registry ids d :
  registry_sound d ->
  let d' := fold_left (fun self oid => _cleanup_order oid self) ids d in
  registry_sound d' /\
  total_icebergs_detected d' = total_icebergs_detected d /\
  total_icebergs_completed d' = total_icebergs_completed d.
Proof.
  revert d. induction ids as [|oid ids IH]; intros d Hd; [split; [exact Hd | split; reflexivity]|].
  cbn [fold_left].
  destruct (_cleanup_order_registers oid d) as (Ea & Ep & Ec & _ & Ed & Et).
  destruct (IH (_cleanup_order oid d)) as (H1 & H2 & H3).
  { exact (registry_sound_delete oid d _ Hd Ea Ep Ec). }
  split; [exact H1|]. split; congruence.
Qed.

Lemma unfilled_identity o o' :
  unfilled o' = unfilled o ->
  order_id o' = order_id o /\ is_confirmed_iceberg o' = is_confirmed_iceberg o.
Proof.
  intros H.
  assert (Hi : forall x, order_id (unfilled x) = order_id x) by (intros []; reflexivity).
  assert (Hc : forall x, is_confirmed_iceberg (unfilled x) = is_confirmed_iceberg x)
    by (intros []; reflexivity).
  split; [rewrite <- (Hi o'), <- (Hi o) | rewrite <- (Hc o'), <- (Hc o)];
    rewrite H; reflexivity.
Qed.

Lemma only_fills_moved_back d d' out k o' :
  only_fills_moved d d' out -> active_orders d' !! k = Some o' ->
  exists o, active_orders d !! k = Some o /\ order_id o' = order_id o /\
            is_confirmed_iceberg o' = is_confirmed_iceberg o.
Proof.
  intros (_ & Ha & _) Hk. specialize (Ha k). rewrite Hk in Ha.
  destruct (active_orders d !! k) as [o|]; [|discriminate Ha].
  exists o. split; [reflexivity|]. apply unfilled_identity.
  cbn in Ha. congruence.
Qed.

Lemma only_fills_moved_registry d d' out :
  registry_sound d -> only_fills_moved d d' out ->
  registry_sound d' /\ counters_follow d d' out.
Proof.
  intros (Hkc & Hp & Hc & Hconf) Hm.
  pose proof Hm as (Hr & Ha & Hout).
  assert (Ep : potential_icebergs d' = potential_icebergs d)
    by exact (f_equal (fun x => fst (fst (fst (fst (fst (fst (fst x))))))) Hr).
  assert (Ec : confirmed_icebergs d' = confirmed_icebergs d)
    by exact (f_equal (fun x => snd (fst (fst (fst (fst (fst (fst x))))))) Hr).
  assert (Et : (total_icebergs_detected d', total_icebergs_completed d')
               = (total_icebergs_detected d, total_icebergs_completed d))
    by exact (f_equal (fun x => snd (fst x)) Hr).
  assert (Edom : dom (active_orders d') = dom (active_orders d)).
  { apply set_eq. intros k. rewrite !elem_of_dom. specialize (Ha k).
    destruct (active_orders d' !! k), (active_orders d !! k); cbn in Ha;
      try discriminate Ha; split; intros [x Hx]; try discriminate Hx; eauto. }
  split.
  - split; [|split; [|split]].
    + intros k o' Hk. destruct (only_fills_moved_back _ _ _ _ _ Hm Hk) as (o & Ho & Hi & _).
      rewrite Hi. exact (Hkc k o Ho).
    + rewrite Ep, Edom. exact Hp.
    + rewrite Ec, Edom. exact Hc.
    + intros k o' Hk Hco.
      destruct (only_fills_moved_back _ _ _ _ _ Hm Hk) as (o & Ho & _ & Hf).
      rewrite Ec. apply (Hconf k o Ho). congruence.
  - unfold counters_follow.
    rewrite !(count_topic_updates_only _ out) by (exact Hout || discriminate).
    apply (f_equal fst) in Et as E1. apply (f_equal snd) in Et as E2.
    cbn [fst snd] in E1, E2. split; lia.
Qed.

Lemma handle_trades_only_fills_moved price size is_bid agg pas now d :
  only_fills_moved d (fst (handle_trades price size is_bid agg pas now d))
    (snd (handle_trades price size is_bid agg pas now d)).
Proof.
  apply (chain_handle_trades only_fills_moved (fun _ => True) (fun _ => True)
           only_fills_moved_frame only_fills_moved_trans (fun _ _ _ _ _ => I)
           only_fills_moved_execution (fun _ _ => I)); exact I.
Qed.

Lemma counters_follow_quiet d d' :
  total_icebergs_detected d' = total_icebergs_detected d ->
  total_icebergs_completed d' = total_icebergs_completed d ->
  counters_follow d d' nil.
Proof. intros E1 E2. unfold counters_follow. cbn. split; lia. Qed.

Lemma process_new_order_registry oid is_bid price size trader now d :
  registry_sound d ->
  let d' := process_new_order oid is_bid price size trader now d in
  registry_sound d' /\ counters_follow d d' nil.
Proof.
  intros (Hkc & Hp & Hc & Hconf) d'.
  destruct (process_new_order_registers oid is_bid price size trader now d)
    as (Ec & _ & Ed & Et & Hcase).
  fold d' in Ec, Ed, Et, Hcase. clearbody d'.
  split; [|apply counters_follow_quiet; assumption].
  unfold registry_sound, key_consistent. rewrite Ec.
  destruct Hcase as [[Ea Ep]|(o & Ea & Hi & Hf & Ep)]; rewrite Ea.
  - rewrite Ep. repeat split; assumption.
  - rewrite dom_insert_L.
    split; [|split; [|split]].
    + intros k o' Hk. destruct (decide (oid = k)) as [<-|Hne].
      * rewrite lookup_insert_eq in Hk. congruence.
      * rewrite lookup_insert_ne in Hk by exact Hne. exact (Hkc k o' Hk).
    + destruct Ep as [-> | ->]; clear - Hp; set_solver.
    + clear - Hc; set_solver.
    + intros k o' Hk Hco. destruct (decide (oid = k)) as [<-|Hne].
      * rewrite lookup_insert_eq in Hk. congruence.
      * rewrite lookup_insert_ne in Hk by exact Hne. exact (Hconf k o' Hk Hco).
Qed.

Lemma process_replace_order_registry oid price size now d :
  registry_sound d ->
  let r := process_replace_order oid price size now d in
  registry_sound (fst r) /\ counters_follow d (fst r) (snd r).
Proof.
  intros Hd r. subst r.
  destruct (active_orders d !! oid) as [o|] eqn:Ho;
    [|rewrite process_replace_order_untracked by exact Ho;
      split; [exact Hd | apply counters_follow_quiet; reflexivity]].
  destruct Hd as (Hkc & Hp & Hc & Hconf).
  destruct (process_replace_order_registers oid price size now d o Ho)
    as (Ep & _ & Hcf & Hcase).
  destruct (process_replace_order_tracked oid price size now d o Ho)
    as (d' & o' & out & E & Ea & Hi & _ & Hflag).
  rewrite E in *. cbn [fst snd] in *.
  pose proof (Hkc oid o Ho) as Hoid. rewrite Hoid in Hcase.
  split; [|exact Hcf].
  assert (Hsub : confirmed_icebergs d ⊆ confirmed_icebergs d')
    by (destruct Hcase as [[_ ->]|[_ ->]]; clear; set_solver).
  unfold registry_sound, key_consistent. rewrite Ea, Ep, dom_insert_L.
  split; [|split; [|split]].
  - intros k x Hk. destruct (decide (oid = k)) as [<-|Hne].
    + rewrite lookup_insert_eq in Hk. congruence.
    + rewrite lookup_insert_ne in Hk by exact Hne. exact (Hkc k x Hk).
  - clear - Hp; set_solver.
  - assert (Hin : oid ∈ dom (active_orders d)) by (apply elem_of_dom; eauto).
    destruct Hcase as [[_ ->]|[_ ->]]; clear - Hc Hin; set_solver.
  - intros k x Hk Hco. destruct (decide (oid = k)) as [<-|Hne].
    + rewrite lookup_insert_eq in Hk. injection Hk as <-.
      destruct Hcase as [[Hnil Hsame]|[Hne ->]]; [|clear; set_solver].
      destruct Hflag as [[_ Hf]|(_ & _ & why & Hout)]; [|congruence].
      apply Hsub, (Hconf oid o Ho). congruence.
    + rewrite lookup_insert_ne in Hk by exact Hne. apply Hsub, (Hconf k x Hk Hco).
Qed.

Lemma process_cancel_order_registry oid now d :
  registry_sound d ->
  let r := process_cancel_order oid now d in
  registry_sound (fst r) /\ counters_follow d (fst r) (snd r).
Proof.
  intros Hd r. subst r.
  destruct (active_orders d !! oid) as [o|] eqn:Ho;
    [|rewrite process_cancel_order_untracked by exact Ho;
      split; [exact Hd | apply counters_follow_quiet; reflexivity]].
  destruct (process_cancel_order_registers oid now d o Ho) as (Ea & Ep & Ec & Hcf & _).
  split; [exact (registry_sound_delete oid d _ Hd Ea Ep Ec) | exact Hcf].
Qed.

Lemma cleanup_old_orders_registry now d :
  registry_sound d ->
  registry_sound (cleanup_old_orders now d) /\
  counters_follow d (cleanup_old_orders now d) nil.
Proof.
  intros Hd. unfold cleanup_old_orders. cbv zeta.
  match goal with |- context [fold_left _ ?l d] => set (ids := l) end.
  destruct (cleanup_fold_registry ids d Hd) as (H1 & H2 & H3).
  split; [exact H1 | apply counters_follow_quiet; assumption].
Qed.

Lemma update_depth_registry is_bid price size d :
  registry_sound d ->
  registry_sound (update_depth is_bid price size d) /\
  counters_follow d (update_depth is_bid price size d) nil.
Proof.
  intros Hd.
  assert (H : active_orders (update_depth is_bid price size d) = active_orders d /\
              potential_icebergs (update_depth is_bid price size d) = potential_icebergs d /\
              confirmed_icebergs (update_depth is_bid price size d) = confirmed_icebergs d /\
              total_icebergs_detected (update_depth is_bid price size d)
              = total_icebergs_detected d /\
              total_icebergs_completed (update_depth is_bid price size d)
              = total_icebergs_completed d).
  { unfold update_depth. cbv zeta.
    repeat match goal with
    | |- context [match ?x with Some _ => _ | None => _ end] => destruct x
    | |- context [if ?c then _ else _] => destruct c
    end; repeat split; reflexivity. }
  destruct H as (Ea & Ep & Ec & E1 & E2).
  split; [|apply counters_follow_quiet; assumption].
  destruct Hd as (Hkc & Hp & Hc & Hconf).
  unfold registry_sound, key_consistent. rewrite Ea, Ep, Ec.
  repeat split; assumption.
Qed.

(** One callback keeps the registers sound and moves the counters by the
    messages it sends. *)
Lemma handle_registry now ev d :
  registry_sound d ->
  registry_sound (fst (handle now ev d)) /\
  counters_follow d (fst (handle now ev d)) (snd (handle now ev d)).
Proof.
  intros Hd. destruct ev as [et oid price size trader|price size b agg pas|b price size|];
    cbn [handle].
  - unfold handle_mbo_event.
    destruct (String.eqb et "ASK_NEW");
      [exact (process_new_order_registry oid false price size trader now d Hd)|].
    destruct (String.eqb et "BID_NEW");
      [exact (process_new_order_registry oid true price size trader now d Hd)|].
    destruct (String.eqb et "REPLACE");
      [exact (process_replace_order_registry oid price size now d Hd)|].
    destruct (String.eqb et "CANCEL");
      [exact (process_cancel_order_registry oid now d Hd)|].
    split; [exact Hd | apply counters_follow_quiet; reflexivity].
  - apply only_fills_moved_registry; [exact Hd|].
    apply handle_trades_only_fills_moved.
  - exact (update_depth_registry b price size d Hd).
  - exact (cleanup_old_orders_registry now d Hd).
Qed.

Lemma run_registry evs d :
  registry_sound d ->
  registry_sound (fst (run evs d)) /\ counters_follow d (fst (run evs d)) (snd (run evs d)).
Proof.
  revert d. induction evs as [|[now ev] rest IH]; intros d Hd.
  - split; [exact Hd | apply counters_follow_quiet; reflexivity].
  - rewrite run_cons.
    destruct (handle_registry now ev d Hd) as [H1 H2].
    destruct (handle now ev d) as [d1 out1]. cbn [fst snd] in *.
    destruct (IH d1 H1) as [H3 H4].
    destruct (run rest d1) as [d2 out2]. cbn [fst snd] in *.
    split; [exact H3|].
    destruct H2 as [A1 A2], H4 as [B1 B2]. unfold counters_follow.
    rewrite !count_topic_app. split; lia.
Qed.

Lemma init_registry_sound a sm pips t0 :
  registry_sound (RealMBOIcebergDetector_init a sm pips t0).
Proof.
  split; [apply init_key_consistent|].
  split; [cbn; set_solver|]. split; [cbn; set_solver|].
  intros k o Hk. cbn in Hk. rewrite lookup_empty in Hk. discriminate Hk.
Qed.

(** X9.  Along every stream of callbacks on a fresh detector the registers
    agree with the tracked orders and the counters with the messages sent:
    every tracked order is stored under its own [order_id]; the candidate and
    the confirmed register name tracked orders only; every tracked order whose
    confirmation flag is set is in the confirmed register;
    [total_icebergs_detected] is the number of detection messages sent and
    [total_icebergs_completed] the number of completion messages sent. *)
Theorem registers_and_counters_follow_the_orders :
  forall (a : string) (sm pips t0 : Q) (evs : list (Q * V2.Event)),
    let r := V2.run evs (V2.RealMBOIcebergDetector_init a sm pips t0) in
    let d := fst r in
    (forall k o, V2.active_orders d !! k = Some o ->
       V2.order_id o = k /\
       (V2.is_confirmed_iceberg o = true -> k ∈ V2.confirmed_icebergs d)) /\
    V2.potential_icebergs d ⊆ dom (V2.active_orders d) /\
    V2.confirmed_icebergs d ⊆ dom (V2.active_orders d) /\
    V2.total_icebergs_detected d = Z.of_nat (count_topic V2.detections (snd r)) /\
    V2.total_icebergs_completed d = Z.of_nat (count_topic V2.full_executions (snd r)).
Proof.
  intros a sm pips t0 evs r d.
  destruct (run_registry evs _ (init_registry_sound a sm pips t0))
    as [(Hkc & Hp & Hc & Hconf) [H1 H2]].
  fold r in Hkc, Hp, Hc, Hconf, H1, H2. fold d in Hkc, Hp, Hc, Hconf, H1, H2.
  split; [intros k o Hk; split; [exact (Hkc k o Hk) | exact (Hconf k o Hk)]|].
  split; [exact Hp|]. split; [exact Hc|].
  cbn in H1, H2. split; lia.
Qed.
(** ** The price index *)

Lemma eqb_trans_l (a b c : Q) : Py.eqb a b = true -> Py.eqb a c = Py.eqb b c.
Proof.
  intros H. apply eqb_true in H.
  destruct (Py.eqb b c) eqn:E.
  - apply eqb_true in E. apply eqb_true. rewrite H. exact E.
  - apply eqb_false in E. apply eqb_false. rewrite H. exact E.
Qed.

Lemma eqb_sym (a b : Q) : Py.eqb a b = Py.eqb b a.
Proof.
  destruct (Py.eqb b a) eqn:E.
  - apply eqb_true in E. apply eqb_true. symmetry. exact E.
  - apply eqb_false in E. apply eqb_false. intros H. apply E. symmetry. exact H.
Qed.

Lemma dict_get_compat {V : Type} (k k' : Q) (m : list (Q * V)) :
  k == k' -> dict_get k m = dict_get k' m.
Proof.
  intros H. apply eqb_true in H.
  induction m as [|[k0 v0] m IH]; [reflexivity|].
  cbn [dict_get]. rewrite (eqb_trans_l _ _ k0 H), IH. reflexivity.
Qed.

Lemma dict_get_set {V : Type} (k k' : Q) (v : V) (m : list (Q * V)) :
  dict_get k (dict_set k' v m) = if Py.eqb k k' then Some v else dict_get k m.
Proof.
  induction m as [|[k0 v0] m IH]; [reflexivity|].
  cbn [dict_set dict_get].
  destruct (Py.eqb k' k0) eqn:E0; cbn [dict_get].
  - destruct (Py.eqb k k') eqn:E.
    + rewrite (eqb_trans_l _ _ k0 E), E0. reflexivity.
    + assert (Py.eqb k k0 = false) as ->; [|reflexivity].
      rewrite eqb_sym, <- (eqb_trans_l _ _ k E0), eqb_sym. exact E.
  - rewrite IH. destruct (Py.eqb k k') eqn:E; [|reflexivity].
    rewrite (eqb_trans_l _ _ k0 E), E0. reflexivity.
Qed.

Lemma dict_get_del_ne {V : Type} (k k' : Q) (m : list (Q * V)) :
  Py.eqb k k' = false -> dict_get k (dict_del k' m) = dict_get k m.
Proof.
  intros E. induction m as [|[k0 v0] m IH]; [reflexivity|].
  cbn [dict_del dict_get].
  destruct (Py.eqb k' k0) eqn:E0; cbn [dict_get].
  - assert (Py.eqb k k0 = false) as ->; [|reflexivity].
    rewrite eqb_sym, <- (eqb_trans_l _ _ k E0), eqb_sym. exact E.
  - rewrite IH. reflexivity.
Qed.

Lemma In_list_remove j k l : j <> k -> In j l -> In j (list_remove k l).
Proof.
  intros Hne. induction l as [|y l IH]; [intros []|].
  intros [->|Hin]; cbn [list_remove].
  - destruct (String.eqb k j) eqn:E; [apply String.eqb_eq in E; congruence | left; reflexivity].
  - destruct (String.eqb k y); [exact Hin | right; exact (IH Hin)].
Qed.

Lemma listed_at_compat p q k m : p == q -> listed_at p k m -> listed_at q k m.
Proof. intros H (ids & Hg & Hin). exists ids. rewrite <- (dict_get_compat p q m H). auto. Qed.

Lemma level_append_listed p k m : listed_at p k (level_append p k m).
Proof.
  unfold listed_at, level_append.
  assert (Hr : Py.eqb p p = true) by (apply eqb_true; reflexivity).
  destruct (dict_get p m) as [ids|]; rewrite dict_get_set, Hr; eexists; split;
    try reflexivity.
  - apply in_or_app. right. left. reflexivity.
  - left. reflexivity.
Qed.

Lemma level_append_keeps p k q j m : listed_at q j m -> listed_at q j (level_append p k m).
Proof.
  intros (ids & Hg & Hin). unfold listed_at, level_append.
  destruct (dict_get p m) as [ids0|] eqn:Hp; rewrite dict_get_set;
    destruct (Py.eqb q p) eqn:E; try (exists ids; split; assumption).
  - rewrite (dict_get_compat q p m) in Hg by (apply eqb_true; exact E).
    assert (ids0 = ids) as -> by congruence.
    eexists. split; [reflexivity|]. apply in_or_app. left. exact Hin.
  - rewrite (dict_get_compat q p m) in Hg by (apply eqb_true; exact E). congruence.
Qed.

Lemma level_remove_keeps p k q j m :
  j <> k -> listed_at q j m -> listed_at q j (level_remove p k m).
Proof.
  intros Hne (ids & Hg & Hin). unfold level_remove.
  destruct (dict_get p m) as [ids0|] eqn:Hp; [|exists ids; split; assumption].
  destruct (list_mem k ids0); [|exists ids; split; assumption].
  destruct (Py.eqb q p) eqn:E.
  - rewrite (dict_get_compat q p m) in Hg by (apply eqb_true; exact E).
    assert (ids0 = ids) as -> by congruence.
    pose proof (In_list_remove j k ids Hne Hin) as Hin'.
    destruct (list_remove k ids) as [|x xs] eqn:Hl; [destruct Hin'|].
    unfold listed_at. rewrite dict_get_set, E. eexists. split; [reflexivity | exact Hin'].
  - unfold listed_at.
    destruct (list_remove k ids0) as [|x xs].
    + rewrite dict_get_del_ne by exact E. exists ids. split; assumption.
    + rewrite dict_get_set, E. exists ids. split; assumption.
Qed.

Lemma dict_set_nonempty p ids m :
  ids <> nil -> levels_nonempty m -> levels_nonempty (dict_set p ids m).
Proof.
  intros Hne. unfold levels_nonempty. induction 1 as [|[k0 v0] m H0 Hm IH]; cbn [dict_set].
  - repeat constructor. exact Hne.
  - destruct (Py.eqb p k0); constructor; assumption.
Qed.

Lemma dict_del_nonempty p m :
  levels_nonempty m -> levels_nonempty (dict_del (V := list string) p m).
Proof.
  unfold levels_nonempty. induction 1 as [|[k0 v0] m H0 Hm IH]; cbn [dict_del].
  - constructor.
  - destruct (Py.eqb p k0); [exact Hm | constructor; assumption].
Qed.

Lemma level_append_nonempty p k m :
  levels_nonempty m -> levels_nonempty (level_append p k m).
Proof.
  intros H. unfold level_append.
  destruct (dict_get p m) as [ids|]; apply dict_set_nonempty; try exact H.
  - destruct ids; discriminate.
  - discriminate.
Qed.

Lemma level_remove_nonempty p k m :
  levels_nonempty m -> levels_nonempty (level_remove p k m).
Proof.
  intros H. unfold level_remove.
  destruct (dict_get p m) as [ids|]; [|exact H].
  destruct (list_mem k ids); [|exact H].
  destruct (list_remove k ids) as [|x xs];
    [apply dict_del_nonempty, H | apply dict_set_nonempty; [discriminate | exact H]].
Qed.

Lemma others_kept_refl oid m : others_kept oid m m.
Proof. split; auto. Qed.

Lemma others_kept_trans oid m1 m2 m3 :
  others_kept oid m1 m2 -> others_kept oid m2 m3 -> others_kept oid m1 m3.
Proof. intros [A1 B1] [A2 B2]. split; auto. Qed.

Lemma level_remove_others_kept p oid m : others_kept oid m (level_remove p oid m).
Proof.
  split; [intros q j Hne; apply level_remove_keeps, Hne | apply level_remove_nonempty].
Qed.

Lemma remove_from_levels_others_kept oid ps m :
  others_kept oid m (remove_from_levels oid ps m).
Proof.
  revert m. induction ps as [|p ps IH]; intros m; [apply others_kept_refl|].
  cbn [remove_from_levels fold_left].
  eapply others_kept_trans; [apply level_remove_others_kept | apply IH].
Qed.

Lemma index_sound_delete oid d d' :
  index_sound d ->
  active_orders d' = delete oid (active_orders d) ->
  others_kept oid (orders_by_price d) (orders_by_price d') ->
  index_sound d'.
Proof.
  intros [Hl Hn] Ea [Hk Hk']. split; [|exact (Hk' Hn)].
  intros k o Hko. rewrite Ea in Hko. apply lookup_delete_Some in Hko.
  destruct Hko as [Hne Hko]. apply Hk; [congruence|]. exact (Hl k o Hko).
Qed.

Lemma _cleanup_order_others_kept oid d :
  others_kept oid (orders_by_price d) (orders_by_price (_cleanup_order oid d)).
Proof.
  unfold _cleanup_order. destruct (active_orders d !! oid); dsimpl.
  - apply remove_from_levels_others_kept.
  - apply others_kept_refl.
Qed.

Lemma _cleanup_order_index oid d : index_sound d -> index_sound (_cleanup_order oid d).
Proof.
  intros Hd. destruct (_cleanup_order_registers oid d) as (Ea & _).
  exact (index_sound_delete oid d _ Hd Ea (_cleanup_order_others_kept oid d)).
Qed.

Lemma cleanup_old_orders_index now d : index_sound d -> index_sound (cleanup_old_orders now d).
Proof.
  unfold cleanup_old_orders. cbv zeta.
  match goal with |- context [fold_left _ ?l d] => generalize l end.
  intros ids. revert d. induction ids as [|oid ids IH]; intros d Hd; [exact Hd|].
  cbn [fold_left]. apply IH, _cleanup_order_index, Hd.
Qed.

Lemma process_cancel_order_index oid now d :
  index_sound d -> index_sound (fst (process_cancel_order oid now d)).
Proof.
  intros Hd.
  destruct (active_orders d !! oid) as [o|] eqn:Ho;
    [|rewrite process_cancel_order_untracked by exact Ho; exact Hd].
  destruct (process_cancel_order_registers oid now d o Ho) as (Ea & _).
  apply (index_sound_delete oid d _ Hd Ea).
  unfold process_cancel_order. rewrite Ho. cbv zeta.
  destruct (is_confirmed_iceberg o); cbn [fst]; unfold _cleanup_order; dsimpl.
  - rewrite lookup_insert_eq. dsimpl.
    eapply others_kept_trans; apply remove_from_levels_others_kept.
  - rewrite Ho. dsimpl.
    eapply others_kept_trans; apply remove_from_levels_others_kept.
Qed.

Lemma process_new_order_index oid is_bid price size trader now d :
  index_sound d -> index_sound (process_new_order oid is_bid price size trader now d).
Proof.
  intros [Hl Hn]. unfold process_new_order. cbv zeta.
  assert (Hadm : forall d',
            active_orders d'
            = <[oid := IcebergOrder_init oid price
                         (normalize_size (size_multiplier d) size) is_bid now trader]>
                (active_orders d) ->
            orders_by_price d' = level_append price oid (orders_by_price d) ->
            index_sound d').
  { intros d' Ea Ei. split; rewrite Ei; [|apply level_append_nonempty, Hn].
    intros k o Hk. rewrite Ea in Hk. destruct (decide (oid = k)) as [<-|Hne].
    - rewrite lookup_insert_eq in Hk. injection Hk as <-. apply level_append_listed.
    - rewrite lookup_insert_ne in Hk by exact Hne. apply level_append_keeps, (Hl k o Hk). }
  match goal with |- context [if ?c then _ else _] => destruct c end;
    [|split; assumption].
  match goal with |- context [if ?c then _ else _] => destruct c end;
    apply Hadm; reflexivity.
Qed.

Lemma confirm_when_current_price pattern why now st :
  current_price (snd (fst (confirm_when pattern why now st)))
  = current_price (snd (fst st)).
Proof.
  destruct st as [[s o] out]. unfold confirm_when.
  destruct (pattern o && negb (is_confirmed_iceberg o)); [|reflexivity].
  destruct o. reflexivity.
Qed.

Lemma _analyze_iceberg_pattern_percentage_current_price order now self :
  current_price (snd (fst (_analyze_iceberg_pattern_percentage order now self)))
  = current_price order.
Proof.
  unfold _analyze_iceberg_pattern_percentage. cbv zeta.
  match goal with |- context [if ?c then _ else _] => destruct c end; [reflexivity|].
  rewrite !confirm_when_current_price. reflexivity.
Qed.

Lemma process_replace_order_index oid price size now d :
  index_sound d -> index_sound (fst (process_replace_order oid price size now d)).
Proof.
  intros [Hl Hn].
  destruct (active_orders d !! oid) as [o|] eqn:Ho;
    [|rewrite process_replace_order_untracked by exact Ho; split; assumption].
  unfold process_replace_order. rewrite Ho. cbv zeta.
  match goal with
  | |- context [_analyze_iceberg_pattern_percentage ?x now ?s] =>
      set (replaced := x); set (d1 := s)
  end.
  pose proof (_analyze_iceberg_pattern_percentage_counts replaced now d1) as Hc.
  pose proof (_analyze_iceberg_pattern_percentage_ok replaced now d1) as Hok.
  pose proof (_analyze_iceberg_pattern_percentage_current_price replaced now d1) as Hcp.
  destruct (_analyze_iceberg_pattern_percentage replaced now d1) as [[d2 o'] out].
  destruct Hc as (_ & _ & _ & Hobp & _). destruct Hok as (Ha & _).
  cbn [fst snd] in Hcp |- *. dsimpl.
  destruct (add_replace_event_prices (normalize_size (size_multiplier d) size) now
              (if negb (Py.eqb price (current_price o)) then Some price else None) o)
    as (_ & Hrp).
  fold replaced in Hrp.
  assert (Hd1 : active_orders d1 = active_orders d) by (subst d1; break_ifs; reflexivity).
  assert (Hstep : (forall k x, k <> oid -> active_orders d !! k = Some x ->
                      listed_at (current_price x) k (orders_by_price d1)) /\
                  levels_nonempty (orders_by_price d1) /\
                  listed_at (current_price replaced) oid (orders_by_price d1)).
  { subst d1. destruct (Py.eqb price (current_price o)) eqn:E; cbn [negb] in *.
    - cbn [price_step snd] in Hrp. rewrite Hrp.
      split; [intros k x _ Hk; exact (Hl k x Hk)|].
      split; [exact Hn | exact (Hl oid o Ho)].
    - cbn [price_step] in Hrp. rewrite E in Hrp.
      assert (Hcur : current_price replaced = price)
        by (rewrite Hrp; destruct (Py.mem price (price_history o)); reflexivity).
      rewrite Hcur. dsimpl.
      split; [|split; [apply level_append_nonempty, level_remove_nonempty, Hn
                      | apply level_append_listed]].
      intros k x Hne Hk.
      apply level_append_keeps, level_remove_keeps; [exact Hne | exact (Hl k x Hk)]. }
  destruct Hstep as (Hothers & Hne1 & Hself).
  unfold index_sound. dsimpl. rewrite Hobp.
  split; [|exact Hne1].
  intros k x Hk. destruct (decide (oid = k)) as [<-|Hne].
  - rewrite lookup_insert_eq in Hk. injection Hk as <-. rewrite Hcp. exact Hself.
  - rewrite lookup_insert_ne in Hk by exact Hne. rewrite Ha, Hd1 in Hk.
    apply Hothers; [congruence | exact Hk].
Qed.

Lemma unfilled_current_price o o' : unfilled o' = unfilled o -> current_price o' = current_price o.
Proof.
  intros H.
  assert (Hi : forall x, current_price (unfilled x) = current_price x)
    by (intros []; reflexivity).
  rewrite <- (Hi o'), <- (Hi o), H. reflexivity.
Qed.

Lemma only_fills_moved_index d d' out :
  index_sound d -> only_fills_moved d d' out -> index_sound d'.
Proof.
  intros [Hl Hn] (Hr & Ha & _).
  assert (Ei : orders_by_price d' = orders_by_price d)
    by exact (f_equal (fun x => snd (fst (fst (fst (fst x))))) Hr).
  split; rewrite Ei; [|exact Hn].
  intros k o' Hk. specialize (Ha k). rewrite Hk in Ha.
  destruct (active_orders d !! k) as [o|] eqn:Ho; [|discriminate Ha].
  cbn in Ha. rewrite (unfilled_current_price o o') by congruence.
  exact (Hl k o Ho).
Qed.

Lemma update_depth_index is_bid price size d :
  index_sound d -> index_sound (update_depth is_bid price size d).
Proof.
  intros [Hl Hn].
  assert (H : active_orders (update_depth is_bid price size d) = active_orders d /\
              orders_by_price (update_depth is_bid price size d) = orders_by_price d).
  { unfold update_depth. cbv zeta.
    repeat match goal with
    | |- context [match ?x with Some _ => _ | None => _ end] => destruct x
    | |- context [if ?c then _ else _] => destruct c
    end; split; reflexivity. }
  destruct H as [Ea Ei]. unfold index_sound. rewrite Ea, Ei. split; assumption.
Qed.

Lemma handle_index now ev d : index_sound d -> index_sound (fst (handle now ev d)).
Proof.
  intros Hd. destruct ev as [et oid price size trader|price size b agg pas|b price size|];
    cbn [handle].
  - unfold handle_mbo_event.
    destruct (String.eqb et "ASK_NEW");
      [exact (process_new_order_index oid false price size trader now d Hd)|].
    destruct (String.eqb et "BID_NEW");
      [exact (process_new_order_index oid true price size trader now d Hd)|].
    destruct (String.eqb et "REPLACE");
      [exact (process_replace_order_index oid price size now d Hd)|].
    destruct (String.eqb et "CANCEL");
      [exact (process_cancel_order_index oid now d Hd)|].
    exact Hd.
  - exact (only_fills_moved_index _ _ _ Hd
             (handle_trades_only_fills_moved price size b agg pas now d)).
  - exact (update_depth_index b price size d Hd).
  - exact (cleanup_old_orders_index now d Hd).
Qed.

Lemma run_index evs d : index_sound d -> index_sound (fst (run evs d)).
Proof.
  revert d. induction evs as [|[now ev] rest IH]; intros d Hd; [exact Hd|].
  rewrite run_cons. cbn [fst].
  apply IH, handle_index, Hd.
Qed.

(** X10.  Along every stream of callbacks on a fresh detector the price
    index serves the tracked orders: every tracked order is listed under its
    current price in [orders_by_price], which is where
    [_match_trade_to_orders_v2] looks for it, and no price level of the index
    is left with an empty list. *)
Theorem price_index_lists_every_tracked_order :
  forall (a : string) (sm pips t0 : Q) (evs : list (Q * V2.Event)),
    let d := fst (V2.run evs (V2.RealMBOIcebergDetector_init a sm pips t0)) in
    (forall k o, V2.active_orders d !! k = Some o ->
       exists ids, V2.dict_get (V2.current_price o) (V2.orders_by_price d) = Some ids /\
                   In k ids) /\
    Forall (fun level => snd level <> nil) (V2.orders_by_price d).
Proof.
  intros a sm pips t0 evs d. subst d. apply run_index.
  split; [|constructor].
  intros k o Hk. cbn in Hk. rewrite lookup_empty in Hk. discriminate Hk.
Qed.
(** ** Cancellation *)

(** X11.  A cancel for an identifier that is not tracked changes nothing and
    sends nothing.  A cancel for a tracked order removes exactly that order
    from [active_orders] and from both registers and leaves the detection
    counter alone; if the order was a confirmed iceberg, exactly one
    completion message is sent, showing the order with its completion time,
    the order is filed in [completed_icebergs] and the completion counter
    goes up by one; otherwise nothing is sent, filed or counted. *)
Theorem cancel_forgets_the_order :
  forall (d : V2.RealMBOIcebergDetector) (oid : string) (price size : Q)
         (trader : option string) (now : Q),
    let r := V2.handle now (V2.MboEvent "CANCEL" oid price size trader) d in
    match V2.active_orders d !! oid with
    | None => r = (d, nil)
    | Some o =>
        let closed := V2.set_completion_time (Some now) o in
        V2.active_orders (fst r) = delete oid (V2.active_orders d) /\
        V2.potential_icebergs (fst r) = V2.potential_icebergs d ∖ {[oid]} /\
        V2.confirmed_icebergs (fst r) = V2.confirmed_icebergs d ∖ {[oid]} /\
        V2.total_icebergs_detected (fst r) = V2.total_icebergs_detected d /\
        if V2.is_confirmed_iceberg o then
          snd r = {| V2.topic := V2.full_executions; V2.subject := closed;
                     V2.reason := None |} :: nil /\
          V2.completed_icebergs (fst r) = <[oid := closed]> (V2.completed_icebergs d) /\
          V2.total_icebergs_completed (fst r) = (V2.total_icebergs_completed d + 1)%Z
        else
          snd r = nil /\
          V2.completed_icebergs (fst r) = V2.completed_icebergs d /\
          V2.total_icebergs_completed (fst r) = V2.total_icebergs_completed d
    end.
Proof.
  intros d oid price size trader now r. subst r.
  change (handle now (MboEvent "CANCEL" oid price size trader) d)
    with (process_cancel_order oid now d).
  destruct (active_orders d !! oid) as [o|] eqn:Ho;
    [|apply process_cancel_order_untracked, Ho].
  cbv zeta. unfold process_cancel_order. rewrite Ho. cbv zeta.
  destruct (is_confirmed_iceberg o); cbn [fst snd]; unfold _cleanup_order; dsimpl.
  - rewrite lookup_insert_eq. dsimpl. rewrite delete_insert_eq. repeat split.
  - rewrite Ho. dsimpl. repeat split.
Qed.

(** ** The timer sweep *)

Lemma cleanup_fold_lookup ids d :
  let d' := fold_left (fun self oid => _cleanup_order oid self) ids d in
  (forall k, active_orders d' !! k
             = if decide (k ∈ ids) then None else active_orders d !! k) /\
  (forall k, k ∈ potential_icebergs d' <-> k ∈ potential_icebergs d /\ k ∉ ids) /\
  (forall k, k ∈ confirmed_icebergs d' <-> k ∈ confirmed_icebergs d /\ k ∉ ids) /\
  completed_icebergs d' = completed_icebergs d /\
  total_icebergs_detected d' = total_icebergs_detected d /\
  total_icebergs_completed d' = total_icebergs_completed d.
Proof.
  revert d. induction ids as [|oid ids IH]; intros d; cbn [fold_left].
  - split; [intros k; destruct (decide (k ∈ [])) as [H|_];
            [apply elem_of_nil in H; destruct H | reflexivity]|].
    split; [intros k; rewrite elem_of_nil; tauto|].
    split; [intros k; rewrite elem_of_nil; tauto|]. repeat split.
  - destruct (_cleanup_order_registers oid d) as (Ea & Ep & Ec & Ecm & Ed & Et).
    destruct (IH (_cleanup_order oid d)) as (Ha & Hp & Hc & Hcm & Hd & Ht).
    split; [|split; [|split; [|split; [congruence | split; congruence]]]].
    + intros k. rewrite Ha, Ea.
      destruct (decide (k ∈ ids)) as [Hin|Hin].
      * rewrite decide_True by (apply elem_of_cons; right; exact Hin). reflexivity.
      * destruct (decide (k = oid)) as [->|Hne].
        -- rewrite decide_True by (apply elem_of_cons; left; reflexivity).
           apply lookup_delete_eq.
        -- rewrite decide_False by (rewrite elem_of_cons; tauto).
           apply lookup_delete_ne. congruence.
    + intros k. rewrite Hp, Ep, elem_of_cons, elem_of_difference, elem_of_singleton. tauto.
    + intros k. rewrite Hc, Ec, elem_of_cons, elem_of_difference, elem_of_singleton. tauto.
Qed.

Lemma expired_ids now (m : gmap string IcebergOrder) k :
  k ∈ List.map fst
        (List.filter (fun kv => Py.ltb time_window (now - last_update (snd kv)))
           (map_to_list m))
  <-> exists o, m !! k = Some o /\ Py.ltb time_window (now - last_update o) = true.
Proof.
  rewrite list_elem_of_In, in_map_iff. split.
  - intros ([k' o] & <- & Hin). apply filter_In in Hin. destruct Hin as [Hin Hf].
    apply list_elem_of_In, elem_of_map_to_list in Hin. exists o. split; assumption.
  - intros (o & Hk & Hf). exists (k, o). split; [reflexivity|].
    apply filter_In. split; [|exact Hf].
    apply list_elem_of_In, elem_of_map_to_list. exact Hk.
Qed.

(** X12.  The timer callback drops exactly the stale orders, and silently:
    an order stays tracked, unchanged, unless the time since its last update
    exceeds [time_window]; the registers lose the stale orders and nothing
    else; no message is sent and neither [completed_icebergs] nor the two
    counters move, also when a dropped order was a confirmed iceberg. *)
Theorem sweep_drops_exactly_the_stale_orders :
  forall (d : V2.RealMBOIcebergDetector) (now : Q),
    let r := V2.handle now V2.IntervalEvent d in
    let stale k :=
      exists o, V2.active_orders d !! k = Some o /\
                V2.time_window < now - V2.last_update o in
    snd r = nil /\
    (forall k, V2.active_orders (fst r) !! k
               = match V2.active_orders d !! k with
                 | Some o =>
                     if Py.ltb V2.time_window (now - V2.last_update o)
                     then None else Some o
                 | None => None
                 end) /\
    (forall k, k ∈ V2.potential_icebergs (fst r)
               <-> k ∈ V2.potential_icebergs d /\ ~ stale k) /\
    (forall k, k ∈ V2.confirmed_icebergs (fst r)
               <-> k ∈ V2.confirmed_icebergs d /\ ~ stale k) /\
    V2.completed_icebergs (fst r) = V2.completed_icebergs d /\
    V2.total_icebergs_detected (fst r) = V2.total_icebergs_detected d /\
    V2.total_icebergs_completed (fst r) = V2.total_icebergs_completed d.
Proof.
  intros d now r stale. subst r. cbn [handle fst snd].
  unfold on_interval, cleanup_old_orders. cbv zeta.
  match goal with |- context [fold_left _ ?l d] => set (ids := l) end.
  assert (Hids : forall k, k ∈ ids <-> stale k).
  { intros k. subst ids stale. rewrite expired_ids.
    split; intros (o & Hk & Hf); exists o; (split; [exact Hk|]);
      apply ltb_true; exact Hf. }
  destruct (cleanup_fold_lookup ids d) as (Ha & Hp & Hc & Hcm & Hd & Ht).
  split; [reflexivity|].
  split; [|split; [|split; [|split; [exact Hcm | split; [exact Hd | exact Ht]]]]].
  - intros k. rewrite Ha.
    destruct (active_orders d !! k) as [o|] eqn:Hk.
    + destruct (Py.ltb time_window (now - last_update o)) eqn:Hf.
      * rewrite decide_True; [reflexivity|].
        apply Hids. exists o. split; [exact Hk | apply ltb_true, Hf].
      * rewrite decide_False; [reflexivity|].
        intros Hin. apply Hids in Hin. destruct Hin as (o' & Hk' & Hlt).
        assert (o' = o) as -> by congruence.
        apply ltb_false in Hf. lra.
    + destruct (decide (k ∈ ids)); reflexivity.
  - intros k. rewrite Hp, Hids. reflexivity.
  - intros k. rewrite Hc, Hids. reflexivity.
Qed.

(** ** Admission of new orders *)

Lemma min_upper_r (a b : Q) : Py.min a b <= b.
Proof. destruct (min_spec a b) as [[? ->]|[? ->]]; lra. Qed.

Lemma min_visible_at_most_100 (d : RealMBOIcebergDetector) :
  th_min_visible_size (get_dynamic_thresholds d) <= 100.
Proof.
  unfold get_dynamic_thresholds. cbn [th_min_visible_size].
  match goal with |- Py.max ?a ?b <= _ =>
    destruct (max_spec a b) as [[? ->]|[? ->]]; [lra | apply min_upper_r] end.
Qed.

Lemma max_visible_at_most_1000 (d : RealMBOIcebergDetector) :
  th_max_visible_size (get_dynamic_thresholds d) <= 1000.
Proof.
  unfold get_dynamic_thresholds. cbn [th_max_visible_size].
  match goal with |- Py.max ?a ?b <= _ =>
    destruct (max_spec a b) as [[? ->]|[? ->]]; [lra | apply min_upper_r] end.
Qed.

Lemma trigger_at_least_20 (d : RealMBOIcebergDetector) :
  20 <= th_trigger_size (get_dynamic_thresholds d).
Proof. unfold get_dynamic_thresholds. cbn [th_trigger_size]. apply max_lower_r. Qed.

(** X13.  A new order whose normalized size is at least 100 is always
    admitted, whatever the market metrics say: it is tracked under its
    identifier in its initial state (replacing an order tracked under the
    same identifier), listed at its price, and never confirmed on arrival.
    It joins the candidate register only if its size is at most 1000; apart
    from that identifier the candidate register is unchanged. *)
Theorem large_new_order_is_always_tracked :
  forall (d : V2.RealMBOIcebergDetector) (oid : string) (is_bid : bool)
         (price size : Q) (trader : option string) (now : Q),
    100 <= V2.normalize_size (V2.size_multiplier d) size ->
    let a := V2.normalize_size (V2.size_multiplier d) size in
    let d' := V2.process_new_order oid is_bid price size trader now d in
    V2.active_orders d'
    = <[oid := V2.IcebergOrder_init oid price a is_bid now trader]> (V2.active_orders d) /\
    V2.orders_by_price d' = V2.level_append price oid (V2.orders_by_price d) /\
    V2.confirmed_icebergs d' = V2.confirmed_icebergs d /\
    (V2.potential_icebergs d' = V2.potential_icebergs d \/
     (V2.potential_icebergs d' = {[oid]} ∪ V2.potential_icebergs d /\ a <= 1000)).
Proof.
  intros d oid is_bid price size trader now Ha a d'. subst d'.
  unfold process_new_order. cbv zeta. fold a.
  set (d1 := set_market_metrics (add_order a now (market_metrics d)) d).
  pose proof (min_visible_at_most_100 d1) as Hmin.
  pose proof (max_visible_at_most_1000 d1) as Hmax.
  destruct (Py.leb (th_min_visible_size (get_dynamic_thresholds d1)) a) eqn:E;
    [|apply leb_false in E; fold a in Ha; lra].
  destruct (Py.leb (th_trigger_size (get_dynamic_thresholds d1)) a); cbn [andb];
    [|repeat split; left; reflexivity].
  destruct (Py.leb a (th_max_visible_size (get_dynamic_thresholds d1))) eqn:E2;
    cbn [andb]; [|repeat split; left; reflexivity].
  apply leb_true in E2.
  match goal with |- context [if ?c then _ else _] => destruct c end.
  - repeat split. right. split; [reflexivity | lra].
  - repeat split. left. reflexivity.
Qed.

Lemma large_new_order_is_always_tracked_witness :
  V2.active_orders
    (V2.process_new_order "A" false 100 150 None 10 Scenario.fresh) !! "A"
  = Some (V2.IcebergOrder_init "A" 100 150 false 10 None).
Proof.
  destruct (large_new_order_is_always_tracked Scenario.fresh "A" false 100 150 None 10)
    as (Ha & _).
  - vm_compute. discriminate.
  - rewrite Ha. rewrite lookup_insert_eq. vm_compute. reflexivity.
Defined.

(** ** The depth book *)

Lemma fold_max_spec (m : list (Q * Q)) (acc : Q) :
  let k := fold_left (fun acc kv => Py.max acc (fst kv)) m acc in
  (k = acc \/ In k (List.map fst m)) /\ acc <= k /\ Forall (fun kv => fst kv <= k) m.
Proof.
  revert acc. induction m as [|[x v] m IH]; intros acc; cbn [fold_left List.map fst].
  - split; [left; reflexivity|]. split; [lra | constructor].
  - destruct (IH (Py.max acc x)) as (Hin & Hle & Hall).
    pose proof (max_lower_r acc x) as Hx.
    assert (Hacc : acc <= Py.max acc x)
      by (destruct (max_spec acc x) as [[? ->]|[? ->]]; lra).
    split; [|split; [lra | constructor; [cbn [fst]; lra | exact Hall]]].
    destruct Hin as [Hk|Hk]; [|right; right; exact Hk].
    rewrite Hk. destruct (max_is_either acc x) as [-> | ->];
      [left; reflexivity | right; left; reflexivity].
Qed.

Lemma fold_min_spec (m : list (Q * Q)) (acc : Q) :
  let k := fold_left (fun acc kv => Py.min acc (fst kv)) m acc in
  (k = acc \/ In k (List.map fst m)) /\ k <= acc /\ Forall (fun kv => k <= fst kv) m.
Proof.
  revert acc. induction m as [|[x v] m IH]; intros acc; cbn [fold_left List.map fst].
  - split; [left; reflexivity|]. split; [lra | constructor].
  - destruct (IH (Py.min acc x)) as (Hin & Hle & Hall).
    pose proof (min_upper_r acc x) as Hx. pose proof (min_upper_l acc x) as Hacc.
    split; [|split; [lra | constructor; [cbn [fst]; lra | exact Hall]]].
    destruct Hin as [Hk|Hk]; [|right; right; exact Hk].
    rewrite Hk. unfold Py.min. destruct (Py.ltb x acc);
      [right; left; reflexivity | left; reflexivity].
Qed.

Lemma max_key_spec (m : list (Q * Q)) :
  match m with
  | nil => max_key m = None
  | _ => exists k, max_key m = Some k /\ In k (List.map fst m) /\
                   Forall (fun kv => fst kv <= k) m
  end.
Proof.
  destruct m as [|[x v] m]; [reflexivity|]. cbn [max_key].
  destruct (fold_max_spec m x) as (Hin & Hle & Hall).
  eexists. split; [reflexivity|]. split.
  - cbn [List.map fst]. destruct Hin as [-> | Hin]; [left; reflexivity | right; exact Hin].
  - constructor; [exact Hle | exact Hall].
Qed.

Lemma min_key_spec (m : list (Q * Q)) :
  match m with
  | nil => min_key m = None
  | _ => exists k, min_key m = Some k /\ In k (List.map fst m) /\
                   Forall (fun kv => k <= fst kv) m
  end.
Proof.
  destruct m as [|[x v] m]; [reflexivity|]. cbn [min_key].
  destruct (fold_min_spec m x) as (Hin & Hle & Hall).
  eexists. split; [reflexivity|]. split.
  - cbn [List.map fst]. destruct Hin as [-> | Hin]; [left; reflexivity | right; exact Hin].
  - constructor; [exact Hle | exact Hall].
Qed.

(** X14.  After a depth update the best prices follow the book: while the
    bid side holds a level, [best_bid] is the highest bid price in the book,
    and while the ask side holds a level, [best_ask] is the lowest ask price;
    when a side has no level left, its best price keeps the value it had
    before the update.  The update touches one side of the book only, and a
    positive size is stored under its price. *)
Theorem best_prices_follow_the_book :
  forall (d : V2.RealMBOIcebergDetector) (is_bid : bool) (price size : Q),
    let d' := V2.handle_depth_info is_bid price size d in
    match V2.order_book_bids d' with
    | nil => V2.best_bid d' = V2.best_bid d
    | _ => exists k, V2.best_bid d' = Some k /\
                     In k (List.map fst (V2.order_book_bids d')) /\
                     Forall (fun level => fst level <= k) (V2.order_book_bids d')
    end /\
    match V2.order_book_asks d' with
    | nil => V2.best_ask d' = V2.best_ask d
    | _ => exists k, V2.best_ask d' = Some k /\
                     In k (List.map fst (V2.order_book_asks d')) /\
                     Forall (fun level => k <= fst level) (V2.order_book_asks d')
    end /\
    (if is_bid then V2.order_book_asks d' = V2.order_book_asks d
     else V2.order_book_bids d' = V2.order_book_bids d) /\
    (if Py.ltb 0 size
     then V2.dict_get price
            (if is_bid then V2.order_book_bids d' else V2.order_book_asks d')
          = Some size
     else True).
Proof.
  intros d is_bid price size d'. subst d'. unfold handle_depth_info, update_depth.
  cbv zeta.
  set (d1 := if is_bid then set_order_book_bids _ _ else set_order_book_asks _ _).
  assert (Hb1 : best_bid d1 = best_bid d /\ best_ask d1 = best_ask d)
    by (subst d1; destruct is_bid; split; reflexivity).
  assert (Hside : if is_bid then order_book_asks d1 = order_book_asks d
                  else order_book_bids d1 = order_book_bids d)
    by (subst d1; destruct is_bid; reflexivity).
  assert (Hset : if Py.ltb 0 size
                 then dict_get price
                        (if is_bid then order_book_bids d1 else order_book_asks d1)
                      = Some size
                 else True).
  { subst d1. destruct (Py.ltb 0 size); [|exact I].
    assert (Hr : Py.eqb price price = true) by (apply eqb_true; reflexivity).
    destruct is_bid; dsimpl; rewrite dict_get_set, Hr; reflexivity. }
  destruct Hb1 as [Hbb Hba].
  clearbody d1.
  pose proof (max_key_spec (order_book_bids d1)) as Hmax.
  pose proof (min_key_spec (order_book_asks d1)) as Hmin.
  destruct (max_key (order_book_bids d1)) as [kb|] eqn:Emax; dsimpl;
    destruct (min_key (order_book_asks d1)) as [ka|] eqn:Emin; dsimpl;
    (split; [|split; [|split; assumption]]).
  all: try (destruct (order_book_bids d1) as [|b bs];
            [congruence
            |destruct Hmax as (k & Hk & Hrest); exists k;
             split; [congruence | exact Hrest]]).
  all: destruct (order_book_asks d1) as [|a0 as0];
         [congruence
         |destruct Hmin as (k & Hk & Hrest); exists k;
          split; [congruence | exact Hrest]].
Qed.
(** ** The detector of [icev3.py] *)

Ltac dsimpl3 :=
  cbn [V3.alias V3.size_multiplier V3.pips V3.active_orders V3.confirmed_icebergs
       V3.orders_by_price V3.best_bid V3.best_ask V3.set_active_orders
       V3.set_confirmed_icebergs V3.set_orders_by_price V3.set_best_bid
       V3.set_best_ask fst snd] in *.

(** Case analysis on the conditions of a method body, in program order: a
    condition is split once the ones it depends on have been. *)
Ltac break_ifs_in_order :=
  repeat (match goal with
          | |- context [if ?c then _ else _] =>
              lazymatch c with
              | context [if _ then _ else _] => fail
              | _ => destruct c eqn:?
              end
          end; cbn).

Lemma v3_add_execution_ok k f t a o :
  v3_order_ok k o -> v3_order_ok k (V3.add_execution f t a o).
Proof.
  destruct o. unfold v3_order_ok, V3.add_execution. cbn.
  intros (Hid & Hb). destruct a; cbn;
    match goal with |- context [if ?c then _ else _] => destruct c end; cbn;
    (split; [exact Hid | exact Hb]).
Qed.

Lemma v3_add_execution_fills f t a o :
  V3.total_filled (V3.add_execution f t a o) = V3.total_filled o + f /\
  V3.active_filled (V3.add_execution f t a o)
  = (if a then V3.active_filled o + f else V3.active_filled o) /\
  V3.passive_filled (V3.add_execution f t a o)
  = (if a then V3.passive_filled o else V3.passive_filled o + f) /\
  V3.current_size (V3.add_execution f t a o) = V3.current_size o /\
  V3.current_price (V3.add_execution f t a o) = V3.current_price o /\
  V3.is_confirmed_iceberg (V3.add_execution f t a o) = V3.is_confirmed_iceberg o /\
  V3.last_reported_filled (V3.add_execution f t a o) = V3.last_reported_filled o.
Proof.
  destruct o. unfold V3.add_execution. cbn. destruct a; cbn;
    match goal with |- context [if ?c then _ else _] => destruct c end; cbn;
    repeat split.
Qed.

Lemma v3_add_replace_event_extent n t p o :
  let o' := V3.add_replace_event n t p o in
  V3.order_id o' = V3.order_id o /\
  (V3.total_filled o', V3.active_filled o', V3.passive_filled o')
  = (V3.total_filled o, V3.active_filled o, V3.passive_filled o) /\
  V3.current_size o' = n /\
  V3.min_size_seen o'
  = (if Py.ltb n (V3.min_size_seen o) then n else V3.min_size_seen o) /\
  V3.max_visible_size o'
  = (if Py.ltb (V3.max_visible_size o) n then n else V3.max_visible_size o).
Proof.
  destruct o. unfold V3.add_replace_event. cbn.
  destruct p as [q|]; break_ifs_in_order; repeat split.
Qed.

Lemma v3_add_replace_event_ok k n t p o :
  v3_order_ok k o -> v3_order_ok k (V3.add_replace_event n t p o).
Proof.
  unfold v3_order_ok. intros (Hid & Hb).
  destruct (v3_add_replace_event_extent n t p o) as (Ei & _ & Ec & Emin & Emax).
  rewrite Ei, Ec, Emin, Emax.
  split; [exact Hid|].
  cmp_cases; lra.
Qed.

Lemma v3_add_replace_event_frame n t q o :
  V3.is_confirmed_iceberg (V3.add_replace_event n t (Some q) o)
  = V3.is_confirmed_iceberg o /\
  V3.current_price (V3.add_replace_event n t (Some q) o)
  = (if Py.eqb q (V3.current_price o) then V3.current_price o else q) /\
  V3.current_size (V3.add_replace_event n t (Some q) o) = n /\
  V3.total_filled (V3.add_replace_event n t (Some q) o) = V3.total_filled o.
Proof.
  destruct o. unfold V3.add_replace_event. cbn.
  destruct (Py.eqb q _); cbn; break_ifs_in_order; repeat split.
Qed.

Lemma v3_order_ok_core k o o' : v3_core o' = v3_core o -> v3_order_ok k o -> v3_order_ok k o'.
Proof.
  intros H. unfold v3_order_ok.
  assert (E1 : V3.order_id o' = V3.order_id o)
    by exact (f_equal (fun x => fst (fst (fst x))) H).
  assert (E5 : V3.min_size_seen o' = V3.min_size_seen o)
    by exact (f_equal (fun x => fst (fst (snd (fst x)))) H).
  assert (E6 : V3.current_size o' = V3.current_size o)
    by exact (f_equal (fun x => snd (fst (snd (fst x)))) H).
  assert (E7 : V3.max_visible_size o' = V3.max_visible_size o)
    by exact (f_equal (fun x => snd (snd (fst x))) H).
  rewrite E1, E5, E6, E7. tauto.
Qed.

Lemma v3_core_current_price o o' :
  v3_core o' = v3_core o -> V3.current_price o' = V3.current_price o.
Proof. intros H. exact (f_equal snd H). Qed.

Lemma v3_core_order_id o o' : v3_core o' = v3_core o -> V3.order_id o' = V3.order_id o.
Proof. intros H. exact (f_equal (fun x => fst (fst (fst x))) H). Qed.

Lemma v3_core_set_last_reported_filled v o :
  v3_core (V3.set_last_reported_filled v o) = v3_core o.
Proof. destruct o. reflexivity. Qed.

Lemma v3_flag_set_last_reported_filled v o :
  V3.is_confirmed_iceberg (V3.set_last_reported_filled v o) = V3.is_confirmed_iceberg o.
Proof. destruct o. reflexivity. Qed.

Lemma v3_core_set_completion_time v o : v3_core (V3.set_completion_time v o) = v3_core o.
Proof. destruct o. reflexivity. Qed.

Lemma level_discard_keeps p k q j m :
  j <> k -> listed_at q j m -> listed_at q j (V3.level_discard p k m).
Proof.
  intros Hne (ids & Hg & Hin). unfold V3.level_discard.
  destruct (dict_get p m) as [ids0|] eqn:Hp; [|exists ids; split; assumption].
  destruct (list_mem k ids0); [|exists ids; split; assumption].
  unfold listed_at. rewrite dict_get_set.
  destruct (Py.eqb q p) eqn:E; [|exists ids; split; assumption].
  rewrite (dict_get_compat q p m) in Hg by (apply eqb_true; exact E).
  assert (ids0 = ids) as -> by congruence.
  eexists. split; [reflexivity | exact (In_list_remove j k ids Hne Hin)].
Qed.

Lemma level_discard_fold_keeps k q j ps m :
  j <> k -> listed_at q j m ->
  listed_at q j (fold_left (fun m p => V3.level_discard p k m) ps m).
Proof.
  intros Hne. revert m. induction ps as [|p ps IH]; intros m H; [exact H|].
  cbn [fold_left]. apply IH, level_discard_keeps; assumption.
Qed.

(** What [_analyze_iceberg] does. *)
Lemma v3_analyze_iceberg_spec order now self :
  let r := V3._analyze_iceberg order now self in
  V3.active_orders (fst (fst r)) = V3.active_orders self /\
  V3.orders_by_price (fst (fst r)) = V3.orders_by_price self /\
  V3.confirmed_icebergs self ⊆ V3.confirmed_icebergs (fst (fst r)) /\
  v3_core (snd (fst r)) = v3_core order /\
  (V3.is_confirmed_iceberg (snd (fst r)) = true ->
   V3.is_confirmed_iceberg order = true \/
   V3.order_id order ∈ V3.confirmed_icebergs (fst (fst r))) /\
  Forall (fun n => v3_message_ok now n /\ V3.topic n = V3.detections) (snd r).
Proof.
  unfold V3._analyze_iceberg.
  destruct (V3.is_confirmed_iceberg order) eqn:Hc; cbn [fst snd].
  { split; [reflexivity|]. split; [reflexivity|]. split; [reflexivity|].
    split; [reflexivity|]. split; [intros _; left; congruence | constructor]. }
  cbv zeta.
  destruct (Py.leb V3.alert_execution_ratio_threshold (V3.get_execution_ratio order)
            || Py.leb V3.alert_total_filled_threshold (V3.total_filled order)) eqn:Hal;
    cbn [fst snd].
  2: { split; [reflexivity|]. split; [reflexivity|]. split; [reflexivity|].
       split; [reflexivity|]. split; [intros H; congruence | constructor]. }
  dsimpl3.
  split; [reflexivity|]. split; [reflexivity|].
  split; [clear; set_solver|].
  split; [destruct order; reflexivity|].
  split; [intros _; right; destruct order; cbn; clear; set_solver|].
  constructor; [|constructor]. split; [|reflexivity].
  apply orb_true_iff in Hal. unfold v3_message_ok. cbn [V3.topic V3.subject].
  assert (Hr : forall a b c,
            V3.get_execution_ratio
              (V3.set_last_reported_filled a
                 (V3.set_iceberg_start_time b (V3.set_is_confirmed_iceberg c order)))
            = V3.get_execution_ratio order) by (intros; destruct order; reflexivity).
  rewrite Hr.
  split; [destruct order; reflexivity|].
  split; [destruct order; reflexivity|].
  split; [destruct order; reflexivity|].
  assert (Ht : forall a b c,
            V3.total_filled
              (V3.set_last_reported_filled a
                 (V3.set_iceberg_start_time b (V3.set_is_confirmed_iceberg c order)))
            = V3.total_filled order) by (intros; destruct order; reflexivity).
  rewrite Ht.
  destruct Hal as [H|H]; apply leb_true in H; [left | right]; exact H.
Qed.

Lemma v3_sound_insert d d' oid o' :
  v3_sound d ->
  V3.active_orders d' = <[oid := o']> (V3.active_orders d) ->
  V3.confirmed_icebergs d ⊆ V3.confirmed_icebergs d' ->
  (forall q j, j <> oid -> listed_at q j (V3.orders_by_price d) ->
               listed_at q j (V3.orders_by_price d')) ->
  v3_order_ok oid o' ->
  (V3.is_confirmed_iceberg o' = true -> oid ∈ V3.confirmed_icebergs d') ->
  listed_at (V3.current_price o') oid (V3.orders_by_price d') ->
  v3_sound d'.
Proof.
  intros Hd Ea Hsub Hkeep Hok Hc Hl k o Hk. rewrite Ea in Hk.
  destruct (decide (oid = k)) as [<-|Hne].
  - rewrite lookup_insert_eq in Hk. injection Hk as <-. auto.
  - rewrite lookup_insert_ne in Hk by exact Hne.
    destruct (Hd k o Hk) as (H1 & H2 & H3).
    split; [exact H1|]. split; [intros Hco; apply Hsub, H2, Hco|].
    apply Hkeep; [congruence | exact H3].
Qed.

Lemma v3_process_new_order_sound oid is_bid price size trader now d :
  v3_sound d -> v3_sound (V3.process_new_order oid is_bid price size trader now d).
Proof.
  intros Hd. unfold V3.process_new_order. cbv zeta.
  eapply (v3_sound_insert d _ oid); [exact Hd | reflexivity | | | | |]; dsimpl3.
  - reflexivity.
  - intros q j _ H. apply level_append_keeps, H.
  - unfold v3_order_ok. cbn. split; [reflexivity|]. split; lra.
  - cbn. discriminate.
  - cbn. apply level_append_listed.
Qed.

Lemma v3_process_order_execution_step oid sz a now d :
  let r := V3.process_order_execution oid sz a now d in
  (v3_sound d -> v3_sound (fst r)) /\
  V3.confirmed_icebergs (fst r) = V3.confirmed_icebergs d /\
  Forall (fun n => v3_message_ok now n /\ V3.topic n = V3.updates) (snd r).
Proof.
  unfold V3.process_order_execution.
  destruct (V3.active_orders d !! oid) as [o|] eqn:Ho; cbn [fst snd];
    [|split; [auto | split; [reflexivity | constructor]]].
  cbv zeta.
  destruct (v3_add_execution_fills sz now a o) as (_ & _ & _ & _ & Ecp & Ecf & _).
  set (filled := V3.add_execution sz now a o) in *.
  assert (Hstep : forall o', v3_core o' = v3_core filled ->
            V3.is_confirmed_iceberg o' = V3.is_confirmed_iceberg filled ->
            v3_sound d ->
            v3_sound (V3.set_active_orders (<[oid := o']> (V3.active_orders d)) d)).
  { intros o' Hcore Hflag Hd. destruct (Hd oid o Ho) as (Hok & Hc & Hl).
    eapply (v3_sound_insert d _ oid); [exact Hd | reflexivity | | | | |]; dsimpl3.
    - reflexivity.
    - intros q j _ H. exact H.
    - apply (v3_order_ok_core oid filled o' Hcore).
      apply v3_add_execution_ok, Hok.
    - intros Hco. apply Hc. congruence.
    - rewrite (v3_core_current_price _ _ Hcore), Ecp. exact Hl. }
  destruct (V3.is_confirmed_iceberg filled) eqn:Hconf.
  - destruct (Py.leb 25 (V3.total_filled filled - V3.last_reported_filled filled)) eqn:Hth;
      cbn [fst snd]; dsimpl3.
    + split; [|split; [reflexivity|]].
      * apply Hstep; [apply v3_core_set_last_reported_filled|].
        rewrite v3_flag_set_last_reported_filled. exact Hconf.
      * constructor; [|constructor]. split; [|reflexivity].
        split; [exact Hconf|]. cbn [V3.topic V3.subject]. apply leb_true, Hth.
    + split; [apply Hstep; [reflexivity | exact Hconf]|].
      split; [reflexivity | constructor].
  - cbn [fst snd]. dsimpl3.
    split; [apply Hstep; [reflexivity | exact Hconf]|].
    split; [reflexivity | constructor].
Qed.

Lemma v3_process_replace_order_step oid price size now d :
  let r := V3.process_replace_order oid price size now d in
  (v3_sound d -> v3_sound (fst r)) /\
  V3.confirmed_icebergs d ⊆ V3.confirmed_icebergs (fst r) /\
  Forall (fun n => v3_message_ok now n /\ V3.topic n = V3.detections) (snd r).
Proof.
  unfold V3.process_replace_order.
  destruct (V3.active_orders d !! oid) as [o|] eqn:Ho; cbn [fst snd];
    [|split; [auto | split; [reflexivity | constructor]]].
  cbv zeta.
  match goal with
  | |- context [V3._analyze_iceberg ?x now ?s] => set (replaced := x); set (d1 := s)
  end.
  pose proof (v3_analyze_iceberg_spec replaced now d1) as Hspec.
  destruct (V3._analyze_iceberg replaced now d1) as [[d2 o'] out].
  cbn [fst snd] in Hspec |- *. destruct Hspec as (Ea & Ei & Hsub & Hcore & Hflag & Hout).
  assert (Hd1 : V3.active_orders d1 = V3.active_orders d /\
                V3.confirmed_icebergs d1 = V3.confirmed_icebergs d)
    by (subst d1; break_ifs; split; reflexivity).
  destruct Hd1 as [Ha1 Hc1]. rewrite Hc1 in Hsub. dsimpl3.
  split; [|split; [exact Hsub | exact Hout]].
  intros Hd. destruct (Hd oid o Ho) as (Hok & Hc & Hl).
  destruct (v3_add_replace_event_frame
              (V2.normalize_size (V3.size_multiplier d) size) now price o)
    as (Ecf & Ecp & _).
  fold replaced in Ecf, Ecp.
  assert (Hidx : (forall q j, j <> oid -> listed_at q j (V3.orders_by_price d) ->
                              listed_at q j (V3.orders_by_price d1)) /\
                 listed_at (V3.current_price replaced) oid (V3.orders_by_price d1)).
  { subst d1. rewrite Ecp. destruct (Py.eqb price (V3.current_price o)); cbn [negb].
    - split; [auto | exact Hl].
    - dsimpl3. split; [|apply level_append_listed].
      intros q j Hne H. apply level_append_keeps, level_discard_keeps; assumption. }
  destruct Hidx as [Hkeep Hself].
  eapply (v3_sound_insert d _ oid); [exact Hd | | | | | |]; dsimpl3.
  - rewrite Ea, Ha1. reflexivity.
  - exact Hsub.
  - rewrite Ei. exact Hkeep.
  - apply (v3_order_ok_core oid replaced o' Hcore).
    apply v3_add_replace_event_ok, Hok.
  - intros Hco. destruct (Hflag Hco) as [H|H].
    + apply Hsub, Hc. congruence.
    + destruct Hok as (Hid & _).
      destruct (v3_add_replace_event_extent
                  (V2.normalize_size (V3.size_multiplier d) size) now (Some price) o)
        as (Eid & _).
      fold replaced in Eid. rewrite Eid, Hid in H. exact H.
  - rewrite Ei, (v3_core_current_price _ _ Hcore). exact Hself.
Qed.

Lemma v3_process_cancel_order_step oid now d :
  let r := V3.process_cancel_order oid now d in
  (v3_sound d -> v3_sound (fst r)) /\
  V3.confirmed_icebergs (fst r) = V3.confirmed_icebergs d /\
  Forall (fun n => v3_message_ok now n /\ V3.topic n = V3.full_executions) (snd r).
Proof.
  unfold V3.process_cancel_order.
  destruct (V3.active_orders d !! oid) as [o|] eqn:Ho; cbn [fst snd];
    [|split; [auto | split; [reflexivity | constructor]]].
  assert (Hs : forall o1,
            V3.price_history o1 = V3.price_history o ->
            v3_sound d ->
            v3_sound
              (V3.set_active_orders (delete oid (V3.active_orders d))
                 (V3.set_orders_by_price
                    (fold_left (fun m p => V3.level_discard p oid m) (V3.price_history o1)
                       (V3.orders_by_price d)) d))).
  { intros o1 _ Hd k x Hk. dsimpl3. apply lookup_delete_Some in Hk.
    destruct Hk as [Hne Hk]. destruct (Hd k x Hk) as (H1 & H2 & H3).
    split; [exact H1|]. split; [exact H2|].
    apply level_discard_fold_keeps; [congruence | exact H3]. }
  destruct (V3.is_confirmed_iceberg o) eqn:Hc; cbn [fst snd]; dsimpl3.
  - split; [apply Hs; destruct o; reflexivity|]. split; [reflexivity|].
    constructor; [|constructor]. split; [|reflexivity].
    unfold v3_message_ok. cbn [V3.topic V3.subject].
    split; destruct o; [exact Hc | reflexivity].
  - split; [apply Hs; reflexivity|]. split; [reflexivity | constructor].
Qed.

Lemma v3_direct_execution_step x sz a now d out :
  let r := V3.direct_execution x sz a now (d, out) in
  exists out',
    snd r = out ++ out' /\
    (v3_sound d -> v3_sound (fst r)) /\
    V3.confirmed_icebergs (fst r) = V3.confirmed_icebergs d /\
    Forall (fun n => v3_message_ok now n /\ V3.topic n = V3.updates) out'.
Proof.
  unfold V3.direct_execution.
  destruct x as [oid|];
    [|exists nil; cbn [fst snd]; rewrite app_nil_r; split; [reflexivity|];
      split; [auto|]; split; [reflexivity | constructor]].
  destruct (V3.active_orders d !! oid) eqn:Ho;
    [|exists nil; cbn [fst snd]; rewrite app_nil_r; split; [reflexivity|];
      split; [auto|]; split; [reflexivity | constructor]].
  pose proof (v3_process_order_execution_step oid sz a now d) as H.
  destruct (V3.process_order_execution oid sz a now d) as [d1 msgs].
  cbn [fst snd] in *. exists msgs. split; [reflexivity | exact H].
Qed.

Lemma v3_handle_step now ev d :
  v3_step_ok now ev d (fst (V3.handle now ev d)) (snd (V3.handle now ev d)).
Proof.
  unfold v3_step_ok.
  destruct ev as [et oid price size trader|price size b agg pas]; cbn [V3.handle].
  - unfold V3.handle_mbo_event.
    destruct (String.eqb et "ASK_NEW" || String.eqb et "BID_NEW"); cbn [fst snd].
    { split; [apply v3_process_new_order_sound|]. split; [reflexivity | constructor]. }
    destruct (String.eqb et "REPLACE") eqn:Er.
    { destruct (v3_process_replace_order_step oid price size now d) as (H1 & H2 & H3).
      split; [exact H1|]. split; [exact H2|].
      eapply Forall_impl; [exact H3|]. intros n [Hn Ht]. split; [exact Hn|].
      rewrite Ht. cbn. exact Er. }
    destruct (String.eqb et "CANCEL") eqn:Ec.
    { destruct (v3_process_cancel_order_step oid now d) as (H1 & H2 & H3).
      split; [exact H1|]. split; [rewrite H2; reflexivity|].
      eapply Forall_impl; [exact H3|]. intros n [Hn Ht]. split; [exact Hn|].
      rewrite Ht. cbn. exact Ec. }
    cbn [fst snd]. split; [auto|]. split; [reflexivity | constructor].
  - unfold V3.handle_trades. cbv zeta.
    set (a := V2.normalize_size (V3.size_multiplier d) size).
    destruct (v3_direct_execution_step pas a false now d nil) as (o1 & E1 & S1 & C1 & F1).
    destruct (V3.direct_execution pas a false now (d, nil)) as [d1 out1].
    cbn [fst snd app] in *. subst out1.
    destruct (v3_direct_execution_step agg a true now d1 o1) as (o2 & E2 & S2 & C2 & F2).
    destruct (V3.direct_execution agg a true now (d1, o1)) as [d2 out2].
    cbn [fst snd] in *. subst out2.
    split; [auto|]. split; [rewrite C2, C1; reflexivity|].
    apply Forall_app. split; (eapply Forall_impl; [eassumption|]);
      intros n [Hn Ht]; (split; [exact Hn | rewrite Ht; reflexivity]).
Qed.

Lemma v3_run_cons now ev rest d :
  V3.run ((now, ev) :: rest) d
  = (fst (V3.run rest (fst (V3.handle now ev d))),
     snd (V3.handle now ev d) ++ snd (V3.run rest (fst (V3.handle now ev d)))).
Proof.
  cbn [V3.run]. destruct (V3.handle now ev d) as [d1 o1]. cbn [fst snd].
  destruct (V3.run rest d1) as [d2 o2]. reflexivity.
Qed.

Lemma v3_run_sound evs d : v3_sound d -> v3_sound (fst (V3.run evs d)).
Proof.
  revert d. induction evs as [|[now ev] rest IH]; intros d Hd; [exact Hd|].
  rewrite v3_run_cons. cbn [fst]. apply IH.
  destruct (v3_handle_step now ev d) as (H & _). exact (H Hd).
Qed.

(** X15.  Along every stream of callbacks on a fresh detector of
    [icev3.py], every tracked order is stored under its own identifier, its
    visible size lies between [min_size_seen] and [max_visible_size], it is
    in [confirmed_icebergs] if its confirmation flag is set, and it is listed
    under its current price in [orders_by_price]. *)
Theorem v3_tracked_orders_stay_sound :
  forall (a : string) (sm pips : Q) (evs : list (Q * V3.Event)) (k : string)
         (o : V3.IcebergOrder),
    let d := fst (V3.run evs (V3.RealMBOIcebergDetector_init a sm pips)) in
    V3.active_orders d !! k = Some o ->
    V3.order_id o = k /\
    V3.min_size_seen o <= V3.current_size o <= V3.max_visible_size o /\
    (V3.is_confirmed_iceberg o = true -> k ∈ V3.confirmed_icebergs d) /\
    exists ids, V2.dict_get (V3.current_price o) (V3.orders_by_price d) = Some ids /\
                In k ids.
Proof.
  intros a sm pips evs k o d Hk.
  assert (Hd : v3_sound d).
  { apply v3_run_sound. intros k' o' H. cbn in H. rewrite lookup_empty in H.
    discriminate H. }
  destruct (Hd k o Hk) as ((H1 & H3) & H4 & H5).
  split; [exact H1|]. split; [exact H3|].
  split; [exact H4 | exact H5].
Qed.

Lemma v3_tracked_orders_stay_sound_witness :
  let o :=
    V3.add_execution 30 13 false
      (V3.add_replace_event 10 12 (Some 101) (V3.IcebergOrder_init "A" 100 40 false 10 None)) in
  V3.order_id o = "A" /\
  V3.min_size_seen o <= V3.current_size o <= V3.max_visible_size o /\
  exists ids,
    V2.dict_get 101
      (V3.orders_by_price
         (fst (V3.run ((10, V3.MboEvent "ASK_NEW" "A" 100 40 None)
                       :: (12, V3.MboEvent "REPLACE" "A" 101 10 None)
                       :: (13, V3.TradeEvent 101 30 true None (Some "A")) :: nil)
                 (V3.RealMBOIcebergDetector_init "XAUUSD" 1 0.01)))) = Some ids /\
    In "A" ids.
Proof.
  intros o.
  destruct (v3_tracked_orders_stay_sound "XAUUSD" 1 0.01
              ((10, V3.MboEvent "ASK_NEW" "A" 100 40 None)
               :: (12, V3.MboEvent "REPLACE" "A" 101 10 None)
               :: (13, V3.TradeEvent 101 30 true None (Some "A")) :: nil) "A" o)
    as (H1 & H2 & _ & H4).
  - vm_compute. reflexivity.
  - split; [exact H1|]. split; [exact H2 | exact H4].
Defined.

Lemma v3_process_order_execution_tracked oid sz a now d o :
  V3.active_orders d !! oid = Some o ->
  exists o',
    V3.active_orders (fst (V3.process_order_execution oid sz a now d))
    = <[oid := o']> (V3.active_orders d) /\
    v3_core o' = v3_core (V3.add_execution sz now a o).
Proof.
  intros Ho. unfold V3.process_order_execution. rewrite Ho. cbv zeta.
  destruct (V3.is_confirmed_iceberg (V3.add_execution sz now a o));
    [destruct (Py.leb 25 _)|]; cbn [fst]; dsimpl3; eexists; (split; [reflexivity|]);
    reflexivity.
Qed.

Lemma v3_direct_execution_other x sz a now d out k :
  x <> Some k ->
  V3.active_orders (fst (V3.direct_execution x sz a now (d, out))) !! k
  = V3.active_orders d !! k.
Proof.
  intros Hx. unfold V3.direct_execution.
  destruct x as [oid|]; [|reflexivity].
  destruct (V3.active_orders d !! oid) as [o|] eqn:Ho; [|reflexivity].
  destruct (v3_process_order_execution_tracked oid sz a now d o Ho) as (o' & E & _).
  destruct (V3.process_order_execution oid sz a now d) as [d1 msgs].
  cbn [fst] in *. rewrite E. apply lookup_insert_ne. congruence.
Qed.

Lemma v3_direct_execution_named k sz a now d out o :
  V3.active_orders d !! k = Some o ->
  exists o',
    V3.active_orders (fst (V3.direct_execution (Some k) sz a now (d, out))) !! k = Some o' /\
    v3_core o' = v3_core (V3.add_execution sz now a o).
Proof.
  intros Ho. unfold V3.direct_execution. rewrite Ho.
  destruct (v3_process_order_execution_tracked k sz a now d o Ho) as (o' & E & Hc).
  destruct (V3.process_order_execution k sz a now d) as [d1 msgs].
  cbn [fst] in *. exists o'. rewrite E, lookup_insert_eq. split; [reflexivity | exact Hc].
Qed.

(** X16.  In [icev3.py] a trade that names a tracked order on one side, and
    not on the other, reaches that order exactly once: its [total_filled]
    grows by the normalized trade size, the volume is booked as active when
    the order is the aggressor and as passive otherwise, and its visible size
    is unchanged. *)
Theorem v3_named_fill_is_applied_once :
  forall (d : V3.RealMBOIcebergDetector) (price size : Q) (is_bid : bool)
         (other : option string) (A : string) (as_aggressor : bool) (now : Q)
         (o : V3.IcebergOrder),
    V3.active_orders d !! A = Some o ->
    other <> Some A ->
    let a := V2.normalize_size (V3.size_multiplier d) size in
    let aggressor := if as_aggressor then Some A else other in
    let passive := if as_aggressor then other else Some A in
    let r := V3.handle now (V3.TradeEvent price size is_bid aggressor passive) d in
    exists o',
      V3.active_orders (fst r) !! A = Some o' /\
      V3.total_filled o' = V3.total_filled o + a /\
      V3.active_filled o'
      = (if as_aggressor then V3.active_filled o + a else V3.active_filled o) /\
      V3.passive_filled o'
      = (if as_aggressor then V3.passive_filled o else V3.passive_filled o + a) /\
      V3.current_size o' = V3.current_size o.
Proof.
  intros d price size is_bid other A role now o Ho Hother a agg pas r.
  subst r agg pas. cbn [V3.handle]. unfold V3.handle_trades. cbv zeta. fold a.
  assert (Hfin : forall o', v3_core o' = v3_core (V3.add_execution a now role o) ->
            V3.total_filled o' = V3.total_filled o + a /\
            V3.active_filled o'
            = (if role then V3.active_filled o + a else V3.active_filled o) /\
            V3.passive_filled o'
            = (if role then V3.passive_filled o else V3.passive_filled o + a) /\
            V3.current_size o' = V3.current_size o).
  { intros o' Hc.
    destruct (v3_add_execution_fills a now role o) as (F1 & F2 & F3 & F4 & _).
    rewrite <- F1, <- F2, <- F3, <- F4.
    split; [exact (f_equal (fun x => fst (fst (snd (fst (fst x))))) Hc)|].
    split; [exact (f_equal (fun x => snd (fst (snd (fst (fst x))))) Hc)|].
    split; [exact (f_equal (fun x => snd (snd (fst (fst x)))) Hc)|].
    exact (f_equal (fun x => snd (fst (snd (fst x)))) Hc). }
  destruct role.
  - pose proof (v3_direct_execution_other other a false now d nil A Hother) as H1.
    destruct (V3.direct_execution other a false now (d, nil)) as [d1 out1].
    cbn [fst] in H1. rewrite Ho in H1.
    destruct (v3_direct_execution_named A a true now d1 out1 o H1) as (o' & E & Hc).
    exists o'. split; [exact E | exact (Hfin o' Hc)].
  - destruct (v3_direct_execution_named A a false now d nil o Ho) as (o' & E & Hc).
    destruct (V3.direct_execution (Some A) a false now (d, nil)) as [d1 out1].
    cbn [fst] in E.
    pose proof (v3_direct_execution_other other a true now d1 out1 A Hother) as H2.
    exists o'. rewrite H2. split; [exact E | exact (Hfin o' Hc)].
Qed.

Lemma v3_named_fill_is_applied_once_witness :
  exists o',
    V3.active_orders
      (fst (V3.handle 12 (V3.TradeEvent 100 30 true None (Some "A"))
              (V3.process_new_order "A" false 100 40 None 10
                 (V3.RealMBOIcebergDetector_init "XAUUSD" 1 0.01)))) !! "A"
    = Some o' /\
    V3.total_filled o' == 30 /\ V3.passive_filled o' == 30 /\ V3.active_filled o' == 0.
Proof.
  destruct (v3_named_fill_is_applied_once
              (V3.process_new_order "A" false 100 40 None 10
                 (V3.RealMBOIcebergDetector_init "XAUUSD" 1 0.01))
              100 30 true None "A" false 12
              (V3.IcebergOrder_init "A" 100 40 false 10 None))
    as (o' & E & H1 & H2 & H3 & _).
  - vm_compute. reflexivity.
  - discriminate.
  - exists o'. split; [exact E|].
    rewrite H1, H2, H3. vm_compute. repeat split; reflexivity.
Defined.

(** X17.  Every message that a callback of [icev3.py] sends is justified by
    the order it shows, and no callback removes an identifier from
    [confirmed_icebergs], a cancel included.  A detection is sent only by a
    replace, for an order just confirmed whose execution ratio has reached 40
    or whose [total_filled] has reached 80; a progress message only by a
    trade, for a confirmed order with at least 25 filled since the last
    report; a completion message only by a cancel, for a confirmed order. *)
Theorem v3_messages_are_justified :
  forall (d : V3.RealMBOIcebergDetector) (now : Q) (ev : V3.Event),
    let r := V3.handle now ev d in
    V3.confirmed_icebergs d ⊆ V3.confirmed_icebergs (fst r) /\
    Forall (fun n => v3_message_ok now n /\ v3_topic_allowed ev (V3.topic n) = true)
      (snd r).
Proof.
  intros d now ev r. subst r.
  destruct (v3_handle_step now ev d) as (_ & H1 & H2). split; assumption.
Qed.
